(** * A shallow embedding of the banking core of cpp-qt-banking-system

    The development follows the C++ sources class by class: [Transaction],
    [BankAccount], [SavingAccount], [CheckingAccount] (over a store of
    accounts, because overdraft protection reaches a second account through
    a weak pointer), [Card], [DebitCard], [CreditCard], [CardGenerator] and
    the account-closing path of [Services].

    Conventions.
    - A C++ [double] is embedded in two ways.  In the first embedding of
      the classes an amount is an exact rational [Q], with the comparisons
      and field operations of the rationals; it serves the statements
      that do not turn on how a sum or difference is rounded (histories,
      flags, counters, the order of the tests, the card and service
      code).  The three withdrawal functions decide by comparing a
      rounded sum or difference, so the classes they belong to are
      embedded again in [B64] over binary64 numbers, with the IEEE 754
      operations of the Standard Library's [SpecFloat] (round to nearest,
      ties to even; signed zeros, infinities and NaN included).  What is
      stated of a withdrawal at given amounts is stated there.
    - An [int] counter is a [Z]; the counters modelled here are either
      guarded by a small constant or never read by a decision.
    - [time(nullptr)] is an explicit argument [now]; the bytes delivered by
      OpenSSL's [RAND_bytes] and the digits drawn from [std::mt19937] are
      explicit input streams.
    - Text written to [std::cout]/[std::cerr] is not part of the state.
    - A thrown C++ exception is the [Throw] outcome and carries the
      exception class and its message. *)

From Stdlib Require Import ZArith QArith Lqa Lia SpecFloat.
From Stdlib Require Import String Ascii List.
From stdpp Require Import base option list gmap strings pretty.

Local Open Scope Z_scope.

(** ** Amounts *)

(** [x < y] on doubles, as a boolean. *)
Definition Qltb (x y : Q) : bool := negb (Qle_bool y x).

(** ** Exceptions and outcomes *)

Inductive exception : Type :=
| invalid_argument (what : string)
| runtime_error (what : string)
| length_error (what : string).

(** The outcome of a call: a returned value, a thrown exception, or
    [OutOfFuel] when the bounded unfolding of a recursive call chain is
    exhausted. *)
Inductive outcome (A : Type) : Type :=
| Return (v : A)
| Throw (e : exception)
| OutOfFuel.

Arguments Return {A} v.
Arguments Throw {A} e.
Arguments OutOfFuel {A}.

(** The error classes of the specification, read off the thrown object. *)
Inductive error_class : Type :=
| InvalidInput
| InsufficientFunds
| LimitExceeded
| OtherError.

Definition classify (e : exception) : error_class :=
  match e with
  | invalid_argument _ => InvalidInput
  | runtime_error w =>
      if String.eqb w "Insufficient funds for withdrawal" then InsufficientFunds
      else if String.eqb w "Withdrawal violates minimum balance requirements"
           then InsufficientFunds
      else if String.eqb w "Maximum monthly withdrawal exceeded." then LimitExceeded
      else OtherError
  | length_error _ => OtherError
  end.

(** ** Transaction.hpp *)

Module Transaction.

Inductive Type_ : Type :=
| DEPOSIT | WITHDRAWAL | INTEREST | FEE | PURCHASE | UNKNOWN.

Record t : Type := mk {
  accountNumber_ : string;
  type_ : Type_;
  amount_ : Q;
  balanceAfter_ : Q;
  description_ : string;
  timestamp_ : Z
}.

Definition typeToString (type : Type_) : string :=
  match type with
  | DEPOSIT => "DEPOSIT"
  | WITHDRAWAL => "WITHDRAWAL"
  | INTEREST => "INTEREST"
  | FEE => "FEE"
  | PURCHASE => "PURCHASE"
  | UNKNOWN => "UNKNOWN"
  end.

Definition stringToType (str : string) : Type_ :=
  if String.eqb str "DEPOSIT" then DEPOSIT
  else if String.eqb str "WITHDRAWAL" then WITHDRAWAL
  else if String.eqb str "INTEREST" then INTEREST
  else if String.eqb str "FEE" then FEE
  else if String.eqb str "PURCHASE" then PURCHASE
  else UNKNOWN.

End Transaction.

(** ** BankAccount.cpp *)

Module BankAccount.

(** The data members of the class.  [debitCard_], a shared pointer that no
    member function assigns, is left out. *)
Record t : Type := mk {
  account_number_ : Z;
  account_balance_ : Q;
  interest_rate_ : Q;
  accountType_ : string;
  hasLowBalance_ : bool;
  deposit_ : Q;
  withdrawal_ : Q;
  transactions_ : list Transaction.t
}.

Definition LOW_BALANCE_THRESHOLD : Q := 500.

Definition setBalanceInternal (newBalance : Q) (a : t) : t :=
  mk (account_number_ a) newBalance (interest_rate_ a) (accountType_ a)
     (hasLowBalance_ a) (deposit_ a) (withdrawal_ a) (transactions_ a).

Definition getAccountBalance (a : t) : Q := account_balance_ a.

Definition getAccountNumber (a : t) : Z := account_number_ a.

Definition getTransactions (a : t) : list Transaction.t := transactions_ a.

(** [setLowBalance]: the flag is recomputed; [onLowBalance] only prints. *)
Definition setLowBalance (a : t) : t :=
  mk (account_number_ a) (account_balance_ a) (interest_rate_ a) (accountType_ a)
     (Qltb (account_balance_ a) LOW_BALANCE_THRESHOLD)
     (deposit_ a) (withdrawal_ a) (transactions_ a).

(** [transactions_.emplace_back(...)]. *)
Definition emplace_back (tx : Transaction.t) (a : t) : t :=
  mk (account_number_ a) (account_balance_ a) (interest_rate_ a) (accountType_ a)
     (hasLowBalance_ a) (deposit_ a) (withdrawal_ a) (transactions_ a ++ [tx]).

Definition addTransaction (type : Transaction.Type_) (amount : Q) (timestamp : Z)
    (a : t) : t :=
  emplace_back
    (Transaction.mk (pretty (account_number_ a)) type amount (account_balance_ a)
                    "" timestamp) a.

(** Restore constructor [BankAccount(int, double, const std::string&)]. *)
Definition restore (exisiting_account_number : Z) (balance : Q) (accountType : string) : t :=
  setLowBalance (mk exisiting_account_number balance 0 accountType false 0 0 []).

(** Full constructor; [number] is the value taken from the static counter
    [next_account_number_]. *)
Definition create (number : Z) (deposit withdrawal account_balance interest_rate : Q)
    (accountType : string) : t :=
  setLowBalance
    (mk number account_balance interest_rate accountType false deposit withdrawal []).

(** Default constructor. *)
Definition default (number : Z) : t :=
  mk number 0 0 "NONE" false 0 0 [].

Definition applyDeposit (amount : Q) (now : Z) (a : t) : bool * t :=
  if Qle_bool amount 0 then (false, a)
  else
    let a1 := setBalanceInternal (account_balance_ a + amount) a in
    let a2 := emplace_back
                (Transaction.mk (pretty (account_number_ a1)) Transaction.DEPOSIT amount
                                (account_balance_ a1) "Deposit" now) a1 in
    (true, setLowBalance a2).

Definition applyWithdraw (amount : Q) (now : Z) (a : t) : outcome bool * t :=
  if Qle_bool amount 0 then
    (Throw (invalid_argument "Withdrawal amount must be positive"), a)
  else if Qltb (account_balance_ a) amount then
    (Throw (runtime_error "Insufficient funds for withdrawal"), a)
  else
    let a1 := setBalanceInternal (account_balance_ a - amount) a in
    let a2 := emplace_back
                (Transaction.mk (pretty (account_number_ a1)) Transaction.WITHDRAWAL amount
                                (account_balance_ a1) "Withdrawal" now) a1 in
    (Return true, setLowBalance a2).

Definition isLowBalance (a : t) : bool := hasLowBalance_ a.

Definition getInterestRate (a : t) : Q := interest_rate_ a.

Definition setEarningInterestRate (interes_rate : Q) (a : t) : bool * t :=
  (true,
   mk (account_number_ a) (account_balance_ a) interes_rate (accountType_ a)
      (hasLowBalance_ a) (deposit_ a) (withdrawal_ a) (transactions_ a)).

End BankAccount.

(** ** SavingAccount.cpp *)

Module SavingAccount.

Record t : Type := mk {
  base : BankAccount.t;
  min_balance_ : Q;
  withdrawal_times_this_month_ : Z;
  interest_rate_ : Q
}.

Definition with_base (b : BankAccount.t) (s : t) : t :=
  mk b (min_balance_ s) (withdrawal_times_this_month_ s) (interest_rate_ s).

Definition getAccountBalance (s : t) : Q := BankAccount.getAccountBalance (base s).

Definition getWithdrawalTimesThisMonth (s : t) : Z := withdrawal_times_this_month_ s.

Definition getMinBalance (s : t) : Q := min_balance_ s.

(** [SavingAccount()]. *)
Definition default (number : Z) : t :=
  mk (BankAccount.default number) 500 0 0.

(** [SavingAccount(double initial_balance, double interest_rate)]. *)
Definition create (number : Z) (initial_balance interest_rate : Q) (now : Z) : t :=
  let s := mk (BankAccount.default number) 500 0 interest_rate in
  if Qltb 0 initial_balance
  then with_base (snd (BankAccount.applyDeposit initial_balance now (base s))) s
  else s.

(** [SavingAccount(int, double, const std::string&)]. *)
Definition restore (accountNumber : Z) (balance : Q) (customerId : string) : t :=
  mk (BankAccount.restore accountNumber balance customerId) 500 0 0.

(** [applyWithdraw], the difference taken in exact arithmetic; the
    function on binary64 amounts is [B64.SavingAccount.applyWithdraw]. *)
Definition applyWithdraw (amount : Q) (now : Z) (s : t) : outcome bool * t :=
  if Qltb (getAccountBalance s - amount) (min_balance_ s) then
    (Throw (runtime_error "Withdrawal violates minimum balance requirements"), s)
  else if 6 <=? withdrawal_times_this_month_ s then
    (Throw (runtime_error "Maximum monthly withdrawal exceeded."), s)
  else
    match BankAccount.applyWithdraw amount now (base s) with
    | (Return true, b) =>
        (Return true,
         mk b (min_balance_ s) (withdrawal_times_this_month_ s + 1) (interest_rate_ s))
    | (r, b) => (r, with_base b s)
    end.

Definition resetMonthlyWithdrawals (s : t) : t :=
  mk (base s) (min_balance_ s) 0 (interest_rate_ s).

(** [SavingAccount::getInterestRate] hides the getter of the base class
    and reads the member of the derived class. *)
Definition getInterestRate (s : t) : Q := interest_rate_ s.

(** The deposit inherited from [BankAccount]. *)
Definition applyDeposit (amount : Q) (now : Z) (s : t) : bool * t :=
  let (ok, b) := BankAccount.applyDeposit amount now (base s) in (ok, with_base b s).

(** The setter inherited from [BankAccount]; it writes the member of the
    base class. *)
Definition setEarningInterestRate (interes_rate : Q) (s : t) : bool * t :=
  let (ok, b) := BankAccount.setEarningInterestRate interes_rate (base s) in
  (ok, with_base b s).

(** [applyMonthlyInterest]; the clock is read once inside [applyDeposit]
    ([now1]) and once for [addTransaction] ([now2]). *)
Definition applyMonthlyInterest (now1 now2 : Z) (s : t) : t :=
  let interest := (getAccountBalance s * (interest_rate_ s / 12))%Q in
  let s1 := snd (applyDeposit interest now1 s) in
  with_base (BankAccount.addTransaction Transaction.INTEREST interest now2 (base s1)) s1.

Definition applyInterest (now1 now2 : Z) (s : t) : t :=
  let monthly_interest := (getAccountBalance s * (getInterestRate s / 12))%Q in
  let s1 := snd (applyDeposit monthly_interest now1 s) in
  with_base
    (BankAccount.addTransaction Transaction.INTEREST monthly_interest now2 (base s1)) s1.

End SavingAccount.

(** ** CheckingAccount.cpp: the object *)

(** Objects that are shared through [std::shared_ptr] live in a store and
    are named by their address. *)
Abbreviation addr := nat (only parsing).

Module CheckingAccount.

(** [overdraft_backup_account_] is a [std::weak_ptr<BankAccount>]: [None]
    when it was never set, otherwise the address it observes.  The member
    [initial_balance_] is declared but never written nor read and is left
    out. *)
Record t : Type := mk {
  base : BankAccount.t;
  overdraft_limit_ : Q;
  monthly_maintenance_fee_ : Q;
  minimum_balance_waiver_ : Q;
  has_overdraft_protection_ : bool;
  monthly_transaction_count_ : Z;
  credit_cards_ : list addr;
  debit_cards_ : list addr;
  is_business_account_ : bool;
  daily_withdrawal_limit_ : Q;
  overdraft_backup_account_ : option addr
}.

Definition with_base (b : BankAccount.t) (c : t) : t :=
  mk b (overdraft_limit_ c) (monthly_maintenance_fee_ c) (minimum_balance_waiver_ c)
     (has_overdraft_protection_ c) (monthly_transaction_count_ c) (credit_cards_ c)
     (debit_cards_ c) (is_business_account_ c) (daily_withdrawal_limit_ c)
     (overdraft_backup_account_ c).

Definition with_daily_withdrawal_limit (limit : Q) (c : t) : t :=
  mk (base c) (overdraft_limit_ c) (monthly_maintenance_fee_ c) (minimum_balance_waiver_ c)
     (has_overdraft_protection_ c) (monthly_transaction_count_ c) (credit_cards_ c)
     (debit_cards_ c) (is_business_account_ c) limit
     (overdraft_backup_account_ c).

(** [monthly_transaction_count_++]. *)
Definition count_transaction (c : t) : t :=
  mk (base c) (overdraft_limit_ c) (monthly_maintenance_fee_ c) (minimum_balance_waiver_ c)
     (has_overdraft_protection_ c) (monthly_transaction_count_ c + 1) (credit_cards_ c)
     (debit_cards_ c) (is_business_account_ c) (daily_withdrawal_limit_ c)
     (overdraft_backup_account_ c).

Definition getAccountBalance (c : t) : Q := BankAccount.getAccountBalance (base c).

Definition getOverdraftLimit (c : t) : Q := overdraft_limit_ c.

Definition getDailyWithdrawalLimit (c : t) : Q := daily_withdrawal_limit_ c.

Definition getTransactions (c : t) : list Transaction.t :=
  BankAccount.getTransactions (base c).

(** [CheckingAccount(overdraft_limit, monthly_fee, fee_waiver_balance,
    daily_Withdrawal_limit, initial_balance)]. *)
Definition create (number : Z)
    (overdraft_limit monthly_fee fee_waiver_balance daily_Withdrawal_limit initial_balance : Q)
    : t :=
  mk (BankAccount.create number 0 0 initial_balance 0 "None")
     overdraft_limit monthly_fee fee_waiver_balance false 0 [] [] false
     daily_Withdrawal_limit None.

Definition setOverdraftLimit (limit : Q) (c : t) : bool * t :=
  if Qltb limit 0 then (false, c)
  else
    (true,
     mk (base c) limit (monthly_maintenance_fee_ c) (minimum_balance_waiver_ c)
        (has_overdraft_protection_ c) (monthly_transaction_count_ c) (credit_cards_ c)
        (debit_cards_ c) (is_business_account_ c) (daily_withdrawal_limit_ c)
        (overdraft_backup_account_ c)).

Definition linkOverdraftProtection (backup : option addr) (c : t) : t :=
  mk (base c) (overdraft_limit_ c) (monthly_maintenance_fee_ c) (minimum_balance_waiver_ c)
     true (monthly_transaction_count_ c) (credit_cards_ c)
     (debit_cards_ c) (is_business_account_ c) (daily_withdrawal_limit_ c)
     backup.

Definition setAccountBalance (amount : Q) (c : t) : t :=
  with_base (BankAccount.setBalanceInternal amount (base c)) c.

(** The tail shared by both successful paths of [applyWithdraw]:
    [setBalanceInternal(b); addTransaction(WITHDRAWAL, amount, time(nullptr));
    monthly_transaction_count_++; setLowBalance();]. *)
Definition settle (newBalance amount : Q) (now : Z) (c : t) : t :=
  let b1 := BankAccount.setBalanceInternal newBalance (base c) in
  let b2 := BankAccount.addTransaction Transaction.WITHDRAWAL amount now b1 in
  let c1 := count_transaction (with_base b2 c) in
  with_base (BankAccount.setLowBalance (base c1)) c1.

Definition getMonthlyfee (c : t) : Q := monthly_maintenance_fee_ c.

Definition getMonthlyTransactionCount (c : t) : Z := monthly_transaction_count_ c.

Definition with_monthly_maintenance_fee (fee : Q) (c : t) : t :=
  mk (base c) (overdraft_limit_ c) fee (minimum_balance_waiver_ c)
     (has_overdraft_protection_ c) (monthly_transaction_count_ c) (credit_cards_ c)
     (debit_cards_ c) (is_business_account_ c) (daily_withdrawal_limit_ c)
     (overdraft_backup_account_ c).

Definition with_debit_cards (cards : list addr) (c : t) : t :=
  mk (base c) (overdraft_limit_ c) (monthly_maintenance_fee_ c) (minimum_balance_waiver_ c)
     (has_overdraft_protection_ c) (monthly_transaction_count_ c) (credit_cards_ c)
     cards (is_business_account_ c) (daily_withdrawal_limit_ c)
     (overdraft_backup_account_ c).

Definition with_credit_cards (cards : list addr) (c : t) : t :=
  mk (base c) (overdraft_limit_ c) (monthly_maintenance_fee_ c) (minimum_balance_waiver_ c)
     (has_overdraft_protection_ c) (monthly_transaction_count_ c) cards
     (debit_cards_ c) (is_business_account_ c) (daily_withdrawal_limit_ c)
     (overdraft_backup_account_ c).

Definition qualifiesForFeeWaiver (c : t) : bool :=
  Qle_bool (minimum_balance_waiver_ c) (getAccountBalance c).

(** The body shared by [applyMonthlyMaintenanceFee] and the else branch
    of [applyInterest]:
    [BankAccount::applyWithdraw(monthly_maintenance_fee_);
     addTransaction(Transaction::FEE, monthly_maintenance_fee_, time(nullptr));].
    The call of the base class is not virtual; an exception it throws
    leaves the function before the FEE record is added. *)
Definition charge_fee (now1 now2 : Z) (c : t) : outcome unit * t :=
  match BankAccount.applyWithdraw (monthly_maintenance_fee_ c) now1 (base c) with
  | (Return _, b) =>
      (Return tt,
       with_base
         (BankAccount.addTransaction Transaction.FEE (monthly_maintenance_fee_ c) now2 b) c)
  | (Throw e, b) => (Throw e, with_base b c)
  | (OutOfFuel, b) => (OutOfFuel, with_base b c)
  end.

(** [onFeeWaived] only prints. *)
Definition applyMonthlyMaintenanceFee (now1 now2 : Z) (c : t) : outcome unit * t :=
  if negb (qualifiesForFeeWaiver c) then charge_fee now1 now2 c
  else (Return tt, c).

(** [CheckingAccount::applyInterest], the override of the abstract hook. *)
Definition applyInterest (now1 now2 : Z) (c : t) : outcome unit * t :=
  if Qltb (minimum_balance_waiver_ c) (getAccountBalance c)
  then (Return tt, with_monthly_maintenance_fee 0 c)
  else charge_fee now1 now2 c.

End CheckingAccount.

(** ** The account store and the virtual call [applyWithdraw] *)

(** The two concrete classes derived from the abstract [BankAccount]. *)
Inductive Account : Type :=
| Checking (c : CheckingAccount.t)
| Saving (s : SavingAccount.t).

Abbreviation heap := (gmap nat Account) (only parsing).

Definition account_base (a : Account) : BankAccount.t :=
  match a with
  | Checking c => CheckingAccount.base c
  | Saving s => SavingAccount.base s
  end.

Definition balance_of (a : Account) : Q :=
  BankAccount.account_balance_ (account_base a).

(** [std::weak_ptr::lock]: the pointer resolves when the store still holds
    an object at the observed address. *)
Definition lock (w : option addr) (h : heap) : option addr :=
  match w with
  | Some p => match h !! p with Some _ => Some p | None => None end
  | None => None
  end.

(** A call result together with the store it leaves. [Undefined] marks a
    member call through a pointer that owns no object (or an object of the
    wrong class), for which C++ defines no behaviour. *)
Inductive call (A : Type) : Type :=
| Done (r : outcome A) (h : heap)
| Undefined.

Arguments Done {A} r h.
Arguments Undefined {A}.

(** [CheckingAccount::applyWithdraw] for the object [c] stored at [this];
    [virt] is the virtual call [backup->applyWithdraw].  Sum and
    differences are taken in exact arithmetic; the function on binary64
    amounts is [B64.CheckingAccount_applyWithdraw]. *)
Definition CheckingAccount_applyWithdraw
    (virt : addr -> Q -> Z -> heap -> call bool)
    (this : addr) (c : CheckingAccount.t) (amount : Q) (now : Z) (h : heap) : call bool :=
  if Qle_bool amount 0 then Done (Return false) h
  else
    let currentBalance := CheckingAccount.getAccountBalance c in
    let available := (currentBalance + CheckingAccount.overdraft_limit_ c)%Q in
    if Qltb available amount then
      if negb (CheckingAccount.has_overdraft_protection_ c) then Done (Return false) h
      else
        match lock (CheckingAccount.overdraft_backup_account_ c) h with
        | None => Done (Return false) h
        | Some backup =>
            let neededFromBackup := (amount - available)%Q in
            match virt backup neededFromBackup now h with
            | Undefined => Undefined
            | Done (Return true) h1 =>
                match h1 !! this with
                | Some (Checking c1) =>
                    Done (Return true)
                         (<[this := Checking
                              (CheckingAccount.settle
                                 (- CheckingAccount.overdraft_limit_ c1)%Q amount now c1)]> h1)
                | _ => Undefined
                end
            | Done (Return false) h1 => Done (Return false) h1
            | Done (Throw e) h1 => Done (Throw e) h1
            | Done OutOfFuel h1 => Done OutOfFuel h1
            end
        end
    else
      Done (Return true)
           (<[this := Checking
                (CheckingAccount.settle (currentBalance - amount)%Q amount now c)]> h).

(** The virtual call [p->applyWithdraw(amount)], unfolded at most [fuel]
    calls deep (a chain of backup accounts may be cyclic). *)
Fixpoint applyWithdraw (fuel : nat) (this : addr) (amount : Q) (now : Z) (h : heap)
    {struct fuel} : call bool :=
  match fuel with
  | O => Done OutOfFuel h
  | S fuel' =>
      match h !! this with
      | Some (Checking c) =>
          CheckingAccount_applyWithdraw (applyWithdraw fuel') this c amount now h
      | Some (Saving s) =>
          let (r, s') := SavingAccount.applyWithdraw amount now s in
          Done r (<[this := Saving s']> h)
      | None => Undefined
      end
  end.

(** The deposit every account inherits from [BankAccount], called through
    a pointer. *)
Definition with_account_base (b : BankAccount.t) (a : Account) : Account :=
  match a with
  | Checking c => Checking (CheckingAccount.with_base b c)
  | Saving s => Saving (SavingAccount.with_base b s)
  end.

Definition applyDeposit (this : addr) (amount : Q) (now : Z) (h : heap) : call bool :=
  match h !! this with
  | Some a =>
      let (ok, b) := BankAccount.applyDeposit amount now (account_base a) in
      Done (Return ok) (<[this := with_account_base b a]> h)
  | None => Undefined
  end.

(** ** The process-wide state of the card code *)

(** [entropy] is the sequence of bytes that OpenSSL's generator will
    deliver next; [issued_numbers_] is the static registry of
    [CardGenerator]. *)
Record world : Type := mkWorld {
  entropy : list Byte.byte;
  issued_numbers_ : gset string
}.

(** Computations that read and write the [world] and may throw. *)
Definition M (A : Type) : Type := world -> outcome A * world.

Definition ret {A : Type} (v : A) : M A := fun w => (Return v, w).

Definition throw {A : Type} (e : exception) : M A := fun w => (Throw e, w).

Definition bind {A B : Type} (m : M A) (k : A -> M B) : M B :=
  fun w =>
    match m w with
    | (Return v, w1) => k v w1
    | (Throw e, w1) => (Throw e, w1)
    | (OutOfFuel, w1) => (OutOfFuel, w1)
    end.

Notation "'let*' x ':=' m 'in' k" := (bind m (fun x => k))
  (at level 10, x name, m at level 100, k at level 200).

(** [RAND_bytes(buf, n)]: [Some] bytes when the call reports success,
    [None] (buffer untouched) when it reports failure. *)
Definition RAND_bytes (n : nat) : M (option (list Byte.byte)) :=
  fun w =>
    if (n <=? length (entropy w))%nat
    then (Return (Some (take n (entropy w))),
          mkWorld (drop n (entropy w)) (issued_numbers_ w))
    else (Return None, w).

(** ** Characters and decimal digits *)

(** The value of a [char] as an [int] ([char] is signed on the target). *)
Definition char_to_int (c : ascii) : Z :=
  let v := Z.of_N (N_of_ascii c) in
  if v <? 128 then v else v - 256.

(** Conversion of an [int] to [char]. *)
Definition int_to_char (z : Z) : ascii := ascii_of_N (Z.to_N (z mod 256)).

(** Conversion of a value to a 32-bit [int]. *)
Definition to_int (z : Z) : Z := (z + 2 ^ 31) mod 2 ^ 32 - 2 ^ 31.

(** ['0' + (b % 10)] for an [unsigned char] [b]. *)
Definition digit_of_byte (b : Byte.byte) : ascii :=
  int_to_char (48 + Z.rem (Z.of_N (Byte.to_N b)) 10).

Definition isdigit (c : ascii) : bool :=
  (48 <=? Z.of_N (N_of_ascii c)) && (Z.of_N (N_of_ascii c) <=? 57).

Definition string_of_chars (l : list ascii) : string := string_of_list_ascii l.

Definition chars (s : string) : list ascii := list_ascii_of_string s.

(** ** CardGenerator.cpp *)

Module CardGenerator.

(** One step of the loop of [calculateLuhn]: the state is
    [(sum, alternate)]. *)
Definition luhn_step (st : Z * bool) (c : ascii) : Z * bool :=
  let '(sum, alternate) := st in
  let n := char_to_int c - 48 in
  let n := if alternate
           then let n2 := n * 2 in
                if 9 <? n2 then Z.quot n2 10 + Z.rem n2 10 else n2
           else n in
  (sum + n, negb alternate).

(** [calculateLuhn]: the loop runs over [number] from its last character
    to its first, starting with [alternate = false]. *)
Definition calculateLuhn (number : string) : ascii :=
  let sum := fst (fold_left luhn_step (rev (chars number)) (0, false)) in
  int_to_char (48 + Z.rem (10 - Z.rem sum 10) 10).

Definition generate (bin_prefix : string) : M string :=
  if negb (forallb isdigit (chars bin_prefix)) then
    throw (invalid_argument "BIN must contain only digits")
  else
    let remaining_length := to_int (16 - Z.of_nat (String.length bin_prefix) - 1) in
    if remaining_length <? 0 then
      throw (length_error "cannot create std::vector larger than max_size()")
    else
      let* r := RAND_bytes (Z.to_nat remaining_length) in
      match r with
      | None => throw (runtime_error "Secure random generation failed")
      | Some rand_bytes =>
          let number := (bin_prefix ++ string_of_chars (map digit_of_byte rand_bytes))%string in
          let number := (number ++ String (calculateLuhn number) EmptyString)%string in
          fun w => (Return number,
                    mkWorld (entropy w) ({[ number ]} ∪ issued_numbers_ w))
      end.

(** [number.back()] and [number.substr(0, number.length() - 1)]. *)
Definition back (number : string) : ascii :=
  List.last (chars number) Ascii.zero.

Definition all_but_last (number : string) : string :=
  string_of_chars (removelast (chars number)).

Definition validate (number : string) (issued : gset string) : bool :=
  if (String.length number <? 13)%nat || (19 <? String.length number)%nat then false
  else
    let base := all_but_last number in
    let actual_check := back number in
    let calculated_check := calculateLuhn base in
    Ascii.eqb actual_check calculated_check && bool_decide (number ∈ issued).

(** [pregenerate(count)]: [count] calls of [generate("5")]; an exception
    leaves the loop. *)
Fixpoint pregenerate (count : nat) : M unit :=
  match count with
  | O => ret tt
  | S count' =>
      let* number := generate "5" in
      pregenerate count'
  end.

End CardGenerator.

(** ** The Luhn formula of ISO/IEC 7812-1, for comparison *)

Module Luhn.

(** Value of a decimal digit character. *)
Definition digit_value (c : ascii) : Z := Z.of_N (N_of_ascii c) - 48.

Definition fold_digit (d : Z) : Z :=
  let d2 := 2 * d in if 9 <? d2 then d2 - 9 else d2.

(** Sum over the digits read from the right; [double] tells whether the
    digit at hand is doubled. *)
Fixpoint luhn_sum (double : bool) (from_right : list ascii) : Z :=
  match from_right with
  | [] => 0
  | c :: rest =>
      (if double then fold_digit (digit_value c) else digit_value c)
      + luhn_sum (negb double) rest
  end.

(** A complete number passes when the sum, taken from the check digit
    leftwards and doubling every second digit (the check digit itself is
    not doubled), is a multiple of ten. *)
Definition passes (number : string) : bool :=
  forallb isdigit (chars number)
  && (luhn_sum false (rev (chars number)) mod 10 =? 0).

(** The check digit for a payload: the payload's rightmost digit is the
    first one doubled. *)
Definition check_digit (payload : string) : ascii :=
  int_to_char (48 + (10 - luhn_sum true (rev (chars payload)) mod 10) mod 10).

End Luhn.

(** ** Card.hpp, Card.cpp *)

Module Card.

Record t : Type := mk {
  card_number_ : string;
  expiration_ : string;
  cvv_ : string;
  isActivated_ : bool;
  isExpired_ : bool
}.

(** [Card()]. *)
Definition default : t := mk "NONE" "NONE" "None" false false.

(** [std::setw(2) << std::setfill('0') << n]. *)
Definition setw2 (n : Z) : string :=
  let s := pretty n in
  if (String.length s <? 2)%nat then ("0" ++ s)%string else s.

(** [generateExpiryDate(validYears)]; [current_year] is
    [tm_year + 1900] of the local time.  The result of [RAND_bytes] is
    not inspected: on failure [month_byte] keeps its initial value 0. *)
Definition generateExpiryDate (current_year validYears : Z) : M string :=
  let* r := RAND_bytes 1 in
  let month_byte := match r with
                    | Some (b :: _) => Z.of_N (Byte.to_N b)
                    | _ => 0
                    end in
  let month := 1 + Z.rem month_byte 12 in
  let year := Z.rem (current_year + validYears) 100 in
  ret (setw2 month ++ "/" ++ setw2 year)%string.

Definition generateCVV : M string :=
  let* r := RAND_bytes 3 in
  match r with
  | Some (b0 :: _) => ret (pretty (100 + Z.rem (Z.of_N (Byte.to_N b0)) 900))
  | _ => throw (runtime_error "Failed to generate secure CVV")
  end.

(** [Card(const bool isActivated, const bool isExpired)]. *)
Definition create (current_year : Z) (isActivated isExpired : bool) : M t :=
  let* expiration :=
    (if negb isExpired then generateExpiryDate current_year 3 else ret "00/00"%string) in
  ret (mk "NONE" expiration "000" isActivated isExpired).

(** The protected constructor [Card(const std::string& bin_prefix, bool
    auto_generate)].  No constructor call of the sources selects it. *)
Definition create_generated (current_year : Z) (bin_prefix : string) (auto_generate : bool)
    : M t :=
  if auto_generate then
    let* number := CardGenerator.generate bin_prefix in
    let* expiration := generateExpiryDate current_year 3 in
    let* cvv := generateCVV in
    ret (mk number expiration cvv false false)
  else ret (mk "" "" "" false false).

Definition isActivated (c : t) : bool := isActivated_ c.

Definition setActivated (isActivate : bool) (c : t) : t :=
  mk (card_number_ c) (expiration_ c) (cvv_ c) isActivate (isExpired_ c).

Definition empty (s : string) : bool := String.eqb s "".

Definition validate (c : t) : bool :=
  if empty (card_number_ c) || String.eqb (card_number_ c) "NONE" then false
  else if empty (expiration_ c) || String.eqb (expiration_ c) "NONE" then false
  else if empty (cvv_ c) || String.eqb (cvv_ c) "None" then false
  else true.

Definition getCardNumber (c : t) : string := card_number_ c.

Definition markExpired (c : t) : t :=
  setActivated false (mk (card_number_ c) "00/00" (cvv_ c) (isActivated_ c) true).

Definition setCardNumber (number : string) (c : t) : t :=
  mk number (expiration_ c) (cvv_ c) (isActivated_ c) (isExpired_ c).

Definition setExpiration (expiration : string) (c : t) : t :=
  mk (card_number_ c) expiration (cvv_ c) (isActivated_ c) (isExpired_ c).

Definition setCvv (cvv : string) (c : t) : t :=
  mk (card_number_ c) (expiration_ c) cvv (isActivated_ c) (isExpired_ c).

(** [generateCardNumber(prefix)]: the prefix followed by fifteen draws of
    [std::uniform_int_distribution<int>(0, 9)] from a freshly seeded
    [std::mt19937]; [draws i] is the engine's [i]-th output, and the
    distribution maps it into 0..9. *)
Definition generateCardNumber (draws : nat -> N) (prefix : string) : string :=
  (prefix ++ string_of_chars
     (map (fun i => int_to_char (48 + Z.of_N (draws i mod 10)%N)) (seq 0 15)))%string.

(** [std::isspace] in the "C" locale. *)
Definition isspace (c : ascii) : bool :=
  let v := Z.of_N (N_of_ascii c) in (v =? 32) || ((9 <=? v) && (v <=? 13)).

Fixpoint skip_spaces (l : list ascii) : list ascii :=
  match l with
  | c :: rest => if isspace c then skip_spaces rest else l
  | [] => []
  end.

Definition digit (c : ascii) : Z := Z.of_N (N_of_ascii c) - 48.

(** The conversion [%2d] of [sscanf]: white space is skipped, then at
    most two characters are read, an optional sign followed by decimal
    digits.  [None] is a matching failure; otherwise the value and the
    input left. *)
Definition scan_2d (l : list ascii) : option (Z * list ascii) :=
  match skip_spaces l with
  | c1 :: rest =>
      if isdigit c1 then
        match rest with
        | c2 :: rest' =>
            if isdigit c2 then Some (10 * digit c1 + digit c2, rest')
            else Some (digit c1, rest)
        | [] => Some (digit c1, [])
        end
      else if Ascii.eqb c1 "+" then
        match rest with
        | c2 :: rest' => if isdigit c2 then Some (digit c2, rest') else None
        | [] => None
        end
      else if Ascii.eqb c1 "-" then
        match rest with
        | c2 :: rest' => if isdigit c2 then Some (- digit c2, rest') else None
        | [] => None
        end
      else None
  | [] => None
  end.

(** [std::sscanf(expiration_.c_str(), "%2d/%2d", &expiredMonth,
    &expiredYear)] on variables initialised to 0: a variable whose
    conversion is not reached or fails keeps 0. *)
Definition sscanf_month_year (expiration : string) : Z * Z :=
  match scan_2d (chars expiration) with
  | None => (0, 0)
  | Some (expiredMonth, rest) =>
      match rest with
      | c :: rest' =>
          if Ascii.eqb c "/" then
            match scan_2d rest' with
            | Some (expiredYear, _) => (expiredMonth, expiredYear)
            | None => (expiredMonth, 0)
            end
          else (expiredMonth, 0)
      | [] => (expiredMonth, 0)
      end
  end.

(** [isExpired()]; [currentYear] is [tm_year + 1900] and [currentMonth]
    is [tm_mon + 1] of the local time. *)
Definition isExpired (currentYear currentMonth : Z) (c : t) : bool :=
  let '(expiredMonth, expiredYear) := sscanf_month_year (expiration_ c) in
  let expiredYear := expiredYear + 2000 in
  if expiredYear <? currentYear then true
  else if (expiredYear =? currentYear) && (expiredMonth <? currentMonth) then true
  else false.

End Card.

(** ** DebitCard.hpp, DebitCard.cpp *)

Module DebitCard.

Record t : Type := mk {
  card : Card.t;
  salt_ : string;
  pin_hash_ : string;
  daily_withdrawal_limit_ : Q;
  daily_spend_amount_ : Q;
  contactless_enable_ : bool;
  failed_attempts_ : Z;
  linked_debit_card_account_ : option addr;
  pin_ : string
}.

Definition with_card (k : Card.t) (d : t) : t :=
  mk k (salt_ d) (pin_hash_ d) (daily_withdrawal_limit_ d) (daily_spend_amount_ d)
     (contactless_enable_ d) (failed_attempts_ d) (linked_debit_card_account_ d) (pin_ d).

Definition with_failed_attempts (n : Z) (d : t) : t :=
  mk (card d) (salt_ d) (pin_hash_ d) (daily_withdrawal_limit_ d) (daily_spend_amount_ d)
     (contactless_enable_ d) n (linked_debit_card_account_ d) (pin_ d).

Definition isActivated (d : t) : bool := Card.isActivated (card d).

Definition setActivated (b : bool) (d : t) : t := with_card (Card.setActivated b (card d)) d.

Definition markExpired (d : t) : t := with_card (Card.markExpired (card d)) d.

Definition setCardNumber (s : string) (d : t) : t := with_card (Card.setCardNumber s (card d)) d.

Definition setExpiration (s : string) (d : t) : t := with_card (Card.setExpiration s (card d)) d.

Definition setCvv (s : string) (d : t) : t := with_card (Card.setCvv s (card d)) d.

Definition getCardNumber (d : t) : string := Card.getCardNumber (card d).

Definition getDailySpendAmount (d : t) : Q := daily_spend_amount_ d.

Definition getDailyWithdrawalLimit (d : t) : Q := daily_withdrawal_limit_ d.

Definition SetDailySpendAmount (amount : Q) (d : t) : t :=
  mk (card d) (salt_ d) (pin_hash_ d) (daily_withdrawal_limit_ d) amount
     (contactless_enable_ d) (failed_attempts_ d) (linked_debit_card_account_ d) (pin_ d).

Definition SetDailyWithdrawalLimit (limit : Q) (d : t) : t :=
  mk (card d) (salt_ d) (pin_hash_ d) limit (daily_spend_amount_ d)
     (contactless_enable_ d) (failed_attempts_ d) (linked_debit_card_account_ d) (pin_ d).

Definition enableContactless (enable : bool) (d : t) : t :=
  mk (card d) (salt_ d) (pin_hash_ d) (daily_withdrawal_limit_ d) (daily_spend_amount_ d)
     enable (failed_attempts_ d) (linked_debit_card_account_ d) (pin_ d).

(** [generateCardNumberWithPrefix]: [todo] bounds the iterations of the
    [while (cardNumber.size() < 16)] loop, each of which adds one
    character. *)
Fixpoint fill_digits (todo : nat) (cardNumber : string) : M string :=
  match todo with
  | O => ret cardNumber
  | S todo' =>
      let* r := RAND_bytes 1 in
      match r with
      | Some (digit :: _) =>
          fill_digits todo' (cardNumber ++ String (digit_of_byte digit) EmptyString)%string
      | _ => throw (runtime_error "Failed to generate secure random digit")
      end
  end.

Definition generateCardNumberWithPrefix (prefix : string) : M string :=
  fill_digits (16 - String.length prefix)%nat prefix.

Section WithHash.

(** [SecurityHelper::hashPin(pin, salt)], the SHA-256 digest of
    [salt + pin]; the digest function itself is a parameter. *)
Variable hashPin : string -> string -> string.

Definition setPin (pin : string) (d : t) : M (bool * t) :=
  if (String.length pin <? 4)%nat || (6 <? String.length pin)%nat then ret (false, d)
  else
    let* r := RAND_bytes 16 in
    match r with
    | None => throw (runtime_error "Failed to generate secure salt")
    | Some new_salt =>
        let salt := string_of_list_byte new_salt in
        ret (true,
             mk (card d) salt (hashPin pin salt) (daily_withdrawal_limit_ d)
                (daily_spend_amount_ d) (contactless_enable_ d) (failed_attempts_ d)
                (linked_debit_card_account_ d) (pin_ d))
    end.

Definition verifyPin (attempt : string) (d : t) : bool * t :=
  if 3 <=? failed_attempts_ d then (false, d)
  else
    let attempt_hash := hashPin attempt (salt_ d) in
    if negb (String.eqb attempt_hash (pin_hash_ d)) then
      let d1 := with_failed_attempts (failed_attempts_ d + 1) d in
      let d2 := if 3 <=? failed_attempts_ d1 then setActivated false d1 else d1 in
      (false, d2)
    else (true, with_failed_attempts 0 d).

Definition changePin (old_pin new_pin : string) (d : t) : M (bool * t) :=
  let (ok, d1) := verifyPin old_pin d in
  if negb ok then ret (false, d1)
  else setPin new_pin d1.

Definition validate (d : t) : bool :=
  Card.validate (card d) && negb (Card.empty (pin_hash_ d))
  && Qltb 0 (daily_withdrawal_limit_ d).

(** [DebitCard(account, daily_withdrawal_limit, pin)]; [rand_status] is
    the value of [RAND_status()]. *)
Definition create (current_year : Z) (rand_status : bool)
    (account : option addr) (daily_withdrawal_limit : Q) (pin : string) : M t :=
  let* base := Card.create current_year true false in
  let d := mk base "" "" daily_withdrawal_limit 0 true 0 account "" in
  let* generatedNumber := generateCardNumberWithPrefix "4" in
  let d := setCardNumber generatedNumber d in
  if negb rand_status then
    throw (runtime_error "Insufficient entropy for secure operations")
  else
    let* r := setPin pin d in
    let* d :=
      (if fst r then ret (snd r)
       else
         let* r0 := setPin "0000" (snd r) in
         if fst r0 then ret (snd r0)
         else throw (runtime_error "Failed to set default PIN")) in
    if Card.empty (pin_hash_ d) then throw (runtime_error "PIN hash empty after constructor")
    else ret d.

End WithHash.

(** [processPayment]: returns the card as the call leaves it together with
    the result; the linked checking account lives in the store. *)
Definition processPayment (fuel : nat) (amount : Q) (now : Z) (d : t) (h : heap)
    : t * call bool :=
  if negb (isActivated d) then (d, Done (Return false) h)
  else
    match lock (linked_debit_card_account_ d) h with
    | None => (d, Done (Return false) h)
    | Some account =>
        match h !! account with
        | Some (Checking a) =>
            if Qltb (CheckingAccount.getAccountBalance a) amount
            then (d, Done (Return false) h)
            else (d, applyWithdraw fuel account amount now h)
        | _ => (d, Undefined)
        end
    end.

Definition checkIfExpired (currentYear currentMonth : Z) (d : t) : bool :=
  Card.isExpired currentYear currentMonth (card d).

End DebitCard.

(** ** CreditCard.hpp, CreditCard.cpp (construction) *)

Module CreditCard.

Record t : Type := mk {
  card : Card.t;
  credit_limit_ : Q;
  current_balance_ : Q;
  linked_account_ : option addr;
  contactless_enable_ : bool
}.

Definition with_card (k : Card.t) (c : t) : t :=
  mk k (credit_limit_ c) (current_balance_ c) (linked_account_ c) (contactless_enable_ c).

Definition getCardNumber (c : t) : string := Card.getCardNumber (card c).

(** [CreditCard(credit_limit, isActivated, linked_account)]; [draws] is the
    output of the engine seeded inside [generateCardNumber].  The base
    class is initialised by [Card("5", true)]: of the two constructors of
    [Card] with two parameters, overload resolution selects
    [Card(bool, bool)], since the literal converts to [bool] by a standard
    conversion and to [std::string] only by a user-defined one.  Both
    arguments are [true] (a string literal is not a null pointer). *)
Definition create (current_year : Z) (draws : nat -> N)
    (credit_limit : Q) (isActivated : bool) (linked_account : option addr) : M t :=
  let* base := Card.create current_year true true in
  let c := mk base credit_limit 0 linked_account false in
  let c := with_card (Card.setActivated isActivated (card c)) c in
  let c := with_card (Card.setCardNumber (Card.generateCardNumber draws "5") (card c)) c in
  let* cvv := Card.generateCVV in
  let c := with_card (Card.setCvv cvv (card c)) c in
  let* expiration := Card.generateExpiryDate current_year 3 in
  ret (with_card (Card.setExpiration expiration (card c)) c).

(** [CreditCard()]. *)
Definition default (current_year : Z) : M t :=
  let* base := Card.create current_year false false in
  ret (mk base 0 0 None false).

Definition isActivated (c : t) : bool := Card.isActivated (card c).

Definition setActivated (b : bool) (c : t) : t := with_card (Card.setActivated b (card c)) c.

Definition markExpired (c : t) : t := with_card (Card.markExpired (card c)) c.

Definition getCurrentBalance (c : t) : Q := current_balance_ c.

Definition getCreditLimit (c : t) : Q := credit_limit_ c.

Definition with_current_balance (balance : Q) (c : t) : t :=
  mk (card c) (credit_limit_ c) balance (linked_account_ c) (contactless_enable_ c).


Definition enableContactless (enable : bool) (c : t) : t :=
  mk (card c) (credit_limit_ c) (current_balance_ c) (linked_account_ c) enable.


Definition validate (c : t) : bool :=
  Card.validate (card c) && Qltb 0 (credit_limit_ c).

Definition charge (amount : Q) (c : t) : bool * t :=
  if negb (isActivated c) then (false, c)
  else if Qle_bool amount 0 then (false, c)
  else if Qltb (credit_limit_ c) (current_balance_ c + amount)%Q then (false, c)
  else (true, with_current_balance (current_balance_ c + amount)%Q c).


Definition processPayment (amount : Q) (c : t) : bool * t := charge amount c.

End CreditCard.

(** ** Cards owned by checking accounts *)

(** A [std::shared_ptr<Card>]: the dynamic class of the card and its
    address in the store of that class. *)
Inductive card_ref : Type :=
| DebitRef (k : addr)
| CreditRef (k : addr).

Module Bank.

(** The objects of the three stores: accounts, debit cards, credit
    cards.  [std::make_shared] places a new object at an address that no
    object of the store occupies. *)
Record t : Type := mk {
  accounts : gmap nat Account;
  debit_cards : gmap nat DebitCard.t;
  credit_cards : gmap nat CreditCard.t
}.

Definition with_debit_cards (cards : gmap nat DebitCard.t) (b : t) : t :=
  mk (accounts b) cards (credit_cards b).

(** The loop of [blockDebitCard]: the first card of the list whose
    number is [cardNumber]. *)
Fixpoint find_card (cards : gmap nat DebitCard.t) (l : list addr) (cardNumber : string)
    : option addr :=
  match l with
  | [] => None
  | k :: rest =>
      match cards !! k with
      | Some card =>
          if String.eqb (DebitCard.getCardNumber card) cardNumber then Some k
          else find_card cards rest cardNumber
      | None => find_card cards rest cardNumber
      end
  end.

(** [CheckingAccount::blockDebitCard]; [None] when [this] is not a live
    checking account. *)
Definition blockDebitCard (this : addr) (cardNumber : string) (b : t) : option (bool * t) :=
  match accounts b !! this with
  | Some (Checking c) =>
      match find_card (debit_cards b) (CheckingAccount.debit_cards_ c) cardNumber with
      | Some k =>
          match debit_cards b !! k with
          | Some card =>
              Some (true,
                    with_debit_cards
                      (<[k := DebitCard.markExpired (DebitCard.setActivated false card)]>
                         (debit_cards b)) b)
          | None => None
          end
      | None => Some (false, b)
      end
  | _ => None
  end.

(** [CheckingAccount::addCreditCard]: the outcome carries the stores after a
    successful call; a throwing call leaves them as they were. *)
Definition addCreditCard (current_year : Z) (draws : nat -> N) (this : addr)
    (creditLimit : Q) (isActivated : bool) (linked_account : option addr)
    (b : t) (w : world) : option (outcome t * world) :=
  match accounts b !! this with
  | Some (Checking c) =>
      if Qltb (CheckingAccount.getAccountBalance c * 2)%Q creditLimit then
        Some (Throw (invalid_argument "Credit limit exceeds 2 times account balance."), w)
      else
        match CreditCard.create current_year draws creditLimit isActivated linked_account w
        with
        | (Return card, w1) =>
            let k := fresh (dom (credit_cards b)) in
            Some (Return
                    (mk (<[this := Checking
                             (CheckingAccount.with_credit_cards
                                (CheckingAccount.credit_cards_ c ++ [k]) c)]> (accounts b))
                        (debit_cards b)
                        (<[k := card]> (credit_cards b))),
                  w1)
        | (Throw e, w1) => Some (Throw e, w1)
        | (OutOfFuel, w1) => Some (OutOfFuel, w1)
        end
  | _ => None
  end.

(** [CheckingAccount::issueCreditCard]: every exception is caught and
    reported on [std::cerr]. *)
Definition issueCreditCard (current_year : Z) (draws : nat -> N) (this : addr)
    (creditLimit : Q) (isActivated : bool) (b : t) (w : world) : option (t * world) :=
  match addCreditCard current_year draws this creditLimit isActivated (Some this) b w with
  | Some (Return b', w1) => Some (b', w1)
  | Some (_, w1) => Some (b, w1)
  | None => None
  end.

Section WithHash.

Variable hashPin : string -> string -> string.

(** [CheckingAccount::issueDebitCard]: every exception is caught and
    reported on [std::cerr]. *)
Definition issueDebitCard (current_year : Z) (rand_status : bool) (this : addr)
    (b : t) (w : world) : option (t * world) :=
  match accounts b !! this with
  | Some (Checking c) =>
      let initialPin := "0000"%string in
      match DebitCard.create hashPin current_year rand_status (Some this)
              (CheckingAccount.daily_withdrawal_limit_ c) initialPin w with
      | (Return debitCard, w1) =>
          let k := fresh (dom (debit_cards b)) in
          Some (mk (<[this := Checking
                        (CheckingAccount.with_debit_cards
                           (CheckingAccount.debit_cards_ c ++ [k]) c)]> (accounts b))
                   (<[k := debitCard]> (debit_cards b))
                   (credit_cards b),
                w1)
      | (_, w1) => Some (b, w1)
      end
  | _ => None
  end.

End WithHash.

End Bank.

(** ** Customers.hpp, Customers.cpp (account links) *)

Module Customers.

(** A [std::shared_ptr<BankAccount>] held in [account_] is observed by the
    code below only through [getAccountNumber()], and [account_number_] is
    [const]: the pointer is represented by the account number of the
    object it owns. *)
Record t : Type := mk {
  customers_name_ : string;
  customers_email_ : string;
  customers_phone_number_ : string;
  customers_id_ : string;
  customers_age_ : Z;
  customers_address_ : string;
  accounts_ : list Z;
  account_ : list Z;
  creditCard_ : list addr
}.

Definition with_account (l : list Z) (c : t) : t :=
  mk (customers_name_ c) (customers_email_ c) (customers_phone_number_ c)
     (customers_id_ c) (customers_age_ c) (customers_address_ c) (accounts_ c)
     l (creditCard_ c).

Definition getAccount (c : t) : list Z := account_ c.

Definition linkAccount (account : Z) (c : t) : t :=
  with_account (account_ c ++ [account]) c.

(** [std::remove_if] followed by [erase]: the entries that do not match
    stay, in order. *)
Definition removeAccount (account_number : Z) (c : t) : bool * t :=
  let kept := List.filter (fun acc => negb (acc =? account_number)) (account_ c) in
  if (length kept <? length (account_ c))%nat
  then (true, with_account kept c)
  else (false, c).

(** [std::isalpha], [std::toupper] in the "C" locale. *)
Definition isalpha (c : ascii) : bool :=
  let v := Z.of_N (N_of_ascii c) in
  ((65 <=? v) && (v <=? 90)) || ((97 <=? v) && (v <=? 122)).

Definition toupper (c : ascii) : ascii :=
  let v := Z.of_N (N_of_ascii c) in
  if (97 <=? v) && (v <=? 122) then ascii_of_N (Z.to_N (v - 32)) else c.

Definition getName (c : t) : string := customers_name_ c.

Definition getAge (c : t) : Z := customers_age_ c.

Definition getPhoneNumber (c : t) : string := customers_phone_number_ c.

(** The first loop of [setName]: [None] when a character is neither a
    letter nor a space, otherwise the final value of [has_alpha]. *)
Fixpoint scan_name (name : list ascii) (has_alpha : bool) : option bool :=
  match name with
  | [] => Some has_alpha
  | c :: rest =>
      if negb (isalpha c) && negb (Ascii.eqb c " ") then None
      else scan_name rest (if isalpha c then true else has_alpha)
  end.

Definition setName (name : string) (c : t) : bool * t :=
  if String.eqb name "" then (false, c)
  else
    match scan_name (chars name) false with
    | None => (false, c)
    | Some false => (false, c)
    | Some true =>
        (true,
         mk (string_of_chars
               (map (fun ch => if isalpha ch then toupper ch else ch) (chars name)))
            (customers_email_ c) (customers_phone_number_ c)
            (customers_id_ c) (customers_age_ c) (customers_address_ c) (accounts_ c)
            (account_ c) (creditCard_ c))
    end.

Definition setPhoneNumber (phone_number : string) (c : t) : bool * t :=
  let clean_number := string_of_chars (List.filter isdigit (chars phone_number)) in
  if negb (String.length clean_number =? 10)%nat then (false, c)
  else
    (true,
     mk (customers_name_ c) (customers_email_ c) clean_number
        (customers_id_ c) (customers_age_ c) (customers_address_ c) (accounts_ c)
        (account_ c) (creditCard_ c)).

Definition setAge (age : Z) (c : t) : bool * t :=
  if age <? 0 then (false, c)
  else
    (true,
     mk (customers_name_ c) (customers_email_ c) (customers_phone_number_ c)
        (customers_id_ c) age (customers_address_ c) (accounts_ c)
        (account_ c) (creditCard_ c)).

Definition setAddress (address : string) (c : t) : bool * t :=
  if String.eqb address "" || forallb Card.isspace (chars address) then (false, c)
  else
    (true,
     mk (customers_name_ c) (customers_email_ c) (customers_phone_number_ c)
        (customers_id_ c) (customers_age_ c)
        (string_of_chars (map toupper (chars address))) (accounts_ c)
        (account_ c) (creditCard_ c)).

(** [addAccount]: a null pointer ([None]) is not stored. *)
Definition addAccount (account : option Z) (c : t) : t :=
  match account with
  | Some n => with_account (account_ c ++ [n]) c
  | None => c
  end.

(** [Customers()] with the UUID [id] drawn by the generator. *)
Definition default (id : string) : t := mk "" "" "" id 0 "" [] [] [].

End Customers.

(** ** Services.hpp, Services.cpp (closing an account) *)

Module Services.

(** [customers_] holds shared pointers to customer objects (possibly null,
    possibly the same object twice); the objects live in [customer_store].
    [all_accounts_] holds shared pointers to accounts, each represented by
    the account number of its object, [None] being a null pointer. *)
Record t : Type := mk {
  customers_ : list (option addr);
  customer_store : gmap nat Customers.t;
  all_accounts_ : list (option Z)
}.

(** The loop over [customers_] in [closeAccount]; the state of the loop
    is the store together with the flag [unlinked].  A shared pointer owns
    a live object, so the lookup of a non-null entry succeeds in every
    well-formed state; an entry without object is passed over. *)
Definition unlink_step (account_number : Z)
    (st : gmap nat Customers.t * bool) (customer : option addr)
    : gmap nat Customers.t * bool :=
  let '(store, unlinked) := st in
  match customer with
  | None => (store, unlinked)
  | Some p =>
      match store !! p with
      | None => (store, unlinked)
      | Some c =>
          let '(removed, c') := Customers.removeAccount account_number c in
          (<[p := c']> store, if removed then true else unlinked)
      end
  end.

(** [std::find_if] over the registry, then [erase] of the element found. *)
Fixpoint erase_first (account_number : Z) (l : list (option Z))
    : option (list (option Z)) :=
  match l with
  | [] => None
  | acc :: rest =>
      match acc with
      | Some n =>
          if n =? account_number then Some rest
          else option_map (cons acc) (erase_first account_number rest)
      | None => option_map (cons acc) (erase_first account_number rest)
      end
  end.

Definition closeAccount (account_number : Z) (s : t) : bool * t :=
  let '(store, unlinked) :=
    fold_left (unlink_step account_number) (customers_ s) (customer_store s, false) in
  let s1 := mk (customers_ s) store (all_accounts_ s) in
  if negb unlinked then (false, s1)
  else
    match erase_first account_number (all_accounts_ s1) with
    | None => (false, s1)
    | Some registry => (true, mk (customers_ s1) (customer_store s1) registry)
    end.

(** What a caller can read of a customer through [customers_]. *)
Definition accounts_of (s : t) (p : addr) : option (list Z) :=
  Customers.getAccount <$> customer_store s !! p.

Definition addAccount (account : option Z) (s : t) : bool * t :=
  (true, mk (customers_ s) (customer_store s) (all_accounts_ s ++ [account])).

Definition addCustomers (NewCustomers : list (option addr)) (s : t) : bool * t :=
  (true, mk (customers_ s ++ NewCustomers) (customer_store s) (all_accounts_ s)).

(** [std::find_if] with pointer equality, then [erase]. *)
Fixpoint erase_customer (p : addr) (l : list (option addr)) : option (list (option addr)) :=
  match l with
  | [] => None
  | c :: rest =>
      match c with
      | Some q =>
          if (q =? p)%nat then Some rest
          else option_map (cons c) (erase_customer p rest)
      | None => option_map (cons c) (erase_customer p rest)
      end
  end.

Definition deleteCustomers (CustomersToDelete : option addr) (s : t) : bool * t :=
  match CustomersToDelete with
  | None => (false, s)
  | Some p =>
      match erase_customer p (customers_ s) with
      | Some l => (true, mk l (customer_store s) (all_accounts_ s))
      | None => (false, s)
      end
  end.

Inductive LoginRole : Type := invalid | Customer | Manager.

Section WithDigest.

(** The SHA-256 digest computed by [QCryptographicHash::hash]. *)
Variable sha256 : string -> string.

Definition isManagerLogin (username password : string) : bool :=
  let adminUser := "Manager"%string in
  String.eqb username adminUser && String.eqb (sha256 password) (sha256 "admin123").

(** The loop of [authenticate] over [customers_]. *)
Fixpoint find_login (store : gmap nat Customers.t) (username password : string)
    (l : list (option addr)) : option addr :=
  match l with
  | [] => None
  | c :: rest =>
      match c with
      | Some p =>
          match store !! p with
          | Some customer =>
              if String.eqb (Customers.getName customer) username
                 && String.eqb password "1234"
              then Some p
              else find_login store username password rest
          | None => find_login store username password rest
          end
      | None => find_login store username password rest
      end
  end.

(** [authenticate]: the role and the value left in [outCustomer]. *)
Definition authenticate (username password : string) (s : t) : LoginRole * option addr :=
  if isManagerLogin username password then (Manager, None)
  else
    match find_login (customer_store s) username password (customers_ s) with
    | Some p => (Customer, Some p)
    | None => (invalid, None)
    end.

End WithDigest.

(** [processTransaction] on the account at [account]: a returned value of
    the call is discarded, a thrown exception is caught. *)
Definition processTransaction (fuel : nat) (account : addr) (type : Transaction.Type_)
    (amount : Q) (now : Z) (h : heap) : call bool :=
  match type with
  | Transaction.DEPOSIT =>
      match applyDeposit account amount now h with
      | Done (Return _) h' => Done (Return true) h'
      | Done (Throw e) h' => Done (Return false) h'
      | Done OutOfFuel h' => Done OutOfFuel h'
      | Undefined => Undefined
      end
  | _ =>
      match applyWithdraw fuel account amount now h with
      | Done (Return _) h' => Done (Return true) h'
      | Done (Throw e) h' => Done (Return false) h'
      | Done OutOfFuel h' => Done OutOfFuel h'
      | Undefined => Undefined
      end
  end.

(** [processMonthlyFees] over the pointers of [all_accounts_], given as
    the addresses they hold ([None] for a null pointer); [clock i] are the
    two readings of the clock made for the [i]-th entry.  An exception
    thrown for one account leaves the loop. *)
Fixpoint processMonthlyFees_from (i : nat) (clock : nat -> Z * Z)
    (accounts : list (option addr)) (h : heap) : outcome unit * heap :=
  match accounts with
  | [] => (Return tt, h)
  | account :: rest =>
      match account with
      | Some p =>
          match h !! p with
          | Some (Checking checking) =>
              match CheckingAccount.applyMonthlyMaintenanceFee
                      (fst (clock i)) (snd (clock i)) checking with
              | (Return _, c') =>
                  processMonthlyFees_from (S i) clock rest (<[p := Checking c']> h)
              | (Throw e, c') => (Throw e, <[p := Checking c']> h)
              | (OutOfFuel, c') => (OutOfFuel, <[p := Checking c']> h)
              end
          | _ => processMonthlyFees_from (S i) clock rest h
          end
      | None => processMonthlyFees_from (S i) clock rest h
      end
  end.

Definition processMonthlyFees (clock : nat -> Z * Z) (accounts : list (option addr))
    (h : heap) : outcome unit * heap :=
  processMonthlyFees_from 0 clock accounts h.

(** [applyMonthlyInterestToAll]: [applyInterest] on every savings account
    of the list. *)
Fixpoint applyMonthlyInterestToAll_from (i : nat) (clock : nat -> Z * Z)
    (accounts : list (option addr)) (h : heap) : heap :=
  match accounts with
  | [] => h
  | account :: rest =>
      match account with
      | Some p =>
          match h !! p with
          | Some (Saving savings) =>
              applyMonthlyInterestToAll_from (S i) clock rest
                (<[p := Saving (SavingAccount.applyInterest
                                  (fst (clock i)) (snd (clock i)) savings)]> h)
          | _ => applyMonthlyInterestToAll_from (S i) clock rest h
          end
      | None => applyMonthlyInterestToAll_from (S i) clock rest h
      end
  end.

Definition applyMonthlyInterestToAll (clock : nat -> Z * Z)
    (accounts : list (option addr)) (h : heap) : heap :=
  applyMonthlyInterestToAll_from 0 clock accounts h.

(** [generateRandomPIN]: four draws of
    [std::uniform_int_distribution<>(0, 9)], each printed in decimal. *)
Definition generateRandomPIN (draws : nat -> N) : string :=
  string_of_chars
    (map (fun i => int_to_char (48 + Z.of_N (draws i mod 10)%N)) (seq 0 4)).

Section WithHash.

Variable hashPin : string -> string -> string.

(** [replaceCard]: the pointer returned ([None] for [nullptr]) or the
    exception a constructor threw, with the stores and the world as the
    call leaves them; the result is [None] when [old_card] owns no
    object. *)
Definition replaceCard (current_year : Z) (rand_status : bool)
    (pin_draws number_draws : nat -> N)
    (old_card : option card_ref) (b : Bank.t) (w : world)
    : option (outcome (option card_ref) * Bank.t * world) :=
  match old_card with
  | None => Some (Return None, b, w)
  | Some (DebitRef k) =>
      match Bank.debit_cards b !! k with
      | None => None
      | Some debit =>
          if negb (DebitCard.validate debit) then Some (Return None, b, w)
          else
            let debit1 := DebitCard.markExpired (DebitCard.setActivated false debit) in
            let b1 := Bank.with_debit_cards (<[k := debit1]> (Bank.debit_cards b)) b in
            match lock (DebitCard.linked_debit_card_account_ debit1) (Bank.accounts b1) with
            | None => Some (Return None, b1, w)
            | Some account =>
                match DebitCard.create hashPin current_year rand_status (Some account)
                        (DebitCard.getDailyWithdrawalLimit debit1)
                        (generateRandomPIN pin_draws) w with
                | (Return new_debit, w1) =>
                    let k' := fresh (dom (Bank.debit_cards b1)) in
                    Some (Return (Some (DebitRef k')),
                          Bank.with_debit_cards
                            (<[k' := new_debit]> (Bank.debit_cards b1)) b1,
                          w1)
                | (Throw e, w1) => Some (Throw e, b1, w1)
                | (OutOfFuel, w1) => Some (OutOfFuel, b1, w1)
                end
            end
      end
  | Some (CreditRef k) =>
      match Bank.credit_cards b !! k with
      | None => None
      | Some credit =>
          if negb (CreditCard.validate credit) then Some (Return None, b, w)
          else
            let credit1 := CreditCard.markExpired (CreditCard.setActivated false credit) in
            let b1 := Bank.mk (Bank.accounts b) (Bank.debit_cards b)
                        (<[k := credit1]> (Bank.credit_cards b)) in
            match lock (CreditCard.linked_account_ credit1) (Bank.accounts b1) with
            | None => Some (Return None, b1, w)
            | Some account =>
                match CreditCard.create current_year number_draws
                        (CreditCard.getCreditLimit credit1) true (Some account) w with
                | (Return new_credit, w1) =>
                    let k' := fresh (dom (Bank.credit_cards b1)) in
                    Some (Return (Some (CreditRef k')),
                          Bank.mk (Bank.accounts b1) (Bank.debit_cards b1)
                            (<[k' := new_credit]> (Bank.credit_cards b1)),
                          w1)
                | (Throw e, w1) => Some (Throw e, b1, w1)
                | (OutOfFuel, w1) => Some (OutOfFuel, b1, w1)
                end
            end
      end
  end.

End WithHash.

End Services.

(** * The withdrawals in binary64

    [BankAccount::applyWithdraw], [SavingAccount::applyWithdraw] and
    [CheckingAccount::applyWithdraw] compare a rounded sum or difference
    of [double] values, so that their outcome at a given amount is that
    of binary64 arithmetic.  The classes they belong to, and
    [DebitCard::processPayment], which calls them, are embedded a
    second time below, with every amount a binary64 number and every
    operation the IEEE 754 one.  The definitions follow the sources
    line by line, as those above do. *)

(** ** double *)

Module Double.

(** A [double] is a binary64 number in the representation of the
    Standard Library's [SpecFloat]: a signed zero, a signed infinity,
    NaN, or [(-1)^s * m * 2^e]. *)
Definition t : Type := spec_float.

Definition prec : Z := 53.

Definition emax : Z := 1024.

(** [x + y] and [x - y], rounded to nearest, ties to even, and [-x]. *)
Definition add (x y : t) : t := SFadd prec emax x y.

Definition sub (x y : t) : t := SFsub prec emax x y.

Definition opp (x : t) : t := SFopp x.

(** [x < y] and [x <= y]; [x > y] is [y < x].  A comparison with NaN is
    false. *)
Definition ltb (x y : t) : bool := SFltb x y.

Definition leb (x y : t) : bool := SFleb x y.

(** The conversion of an integer constant ([0], [500.0]). *)
Definition of_Z (z : Z) : t := binary_normalize prec emax z 0 false.

(** The [double] nearest to the decimal [n / 10^k], as a literal or the
    conversion of decimal input gives it: the correctly rounded quotient
    of two integers that convert exactly (below [2^53]). *)
Definition dec (n : Z) (k : nat) : t :=
  SFdiv prec emax (of_Z n) (of_Z (10 ^ Z.of_nat k)).

(** The number a finite [double] stands for. *)
Definition value (x : t) : Q :=
  match x with
  | S754_finite s m e =>
      ((if s then -1 else 1) * inject_Z (Z.pos m) * Qpower 2 e)%Q
  | _ => 0%Q
  end.

(** The representations that are binary64 numbers: the mantissa has at
    most 53 bits and the exponent is the one the format prescribes. *)
Definition is_double (x : t) : Prop := valid_binary prec emax x = true.

End Double.

Module B64.

(** ** Transaction.hpp *)

Module Transaction.

(** The enumeration [Transaction::Type] is the one of the embedding
    above. *)
Abbreviation Type_ := Transaction.Type_ (only parsing).
Abbreviation DEPOSIT := Transaction.DEPOSIT (only parsing).
Abbreviation WITHDRAWAL := Transaction.WITHDRAWAL (only parsing).

Record t : Type := mk {
  accountNumber_ : string;
  type_ : Type_;
  amount_ : Double.t;
  balanceAfter_ : Double.t;
  description_ : string;
  timestamp_ : Z
}.

End Transaction.

(** ** BankAccount.cpp *)

Module BankAccount.

Record t : Type := mk {
  account_number_ : Z;
  account_balance_ : Double.t;
  interest_rate_ : Double.t;
  accountType_ : string;
  hasLowBalance_ : bool;
  deposit_ : Double.t;
  withdrawal_ : Double.t;
  transactions_ : list Transaction.t
}.

Definition LOW_BALANCE_THRESHOLD : Double.t := Double.of_Z 500.

Definition setBalanceInternal (newBalance : Double.t) (a : t) : t :=
  mk (account_number_ a) newBalance (interest_rate_ a) (accountType_ a)
     (hasLowBalance_ a) (deposit_ a) (withdrawal_ a) (transactions_ a).

Definition getAccountBalance (a : t) : Double.t := account_balance_ a.

Definition getTransactions (a : t) : list Transaction.t := transactions_ a.

Definition setLowBalance (a : t) : t :=
  mk (account_number_ a) (account_balance_ a) (interest_rate_ a) (accountType_ a)
     (Double.ltb (account_balance_ a) LOW_BALANCE_THRESHOLD)
     (deposit_ a) (withdrawal_ a) (transactions_ a).

Definition emplace_back (tx : Transaction.t) (a : t) : t :=
  mk (account_number_ a) (account_balance_ a) (interest_rate_ a) (accountType_ a)
     (hasLowBalance_ a) (deposit_ a) (withdrawal_ a) (transactions_ a ++ [tx]).

Definition addTransaction (type : Transaction.Type_) (amount : Double.t) (timestamp : Z)
    (a : t) : t :=
  emplace_back
    (Transaction.mk (pretty (account_number_ a)) type amount (account_balance_ a)
                    "" timestamp) a.

(** Restore constructor [BankAccount(int, double, const std::string&)]. *)
Definition restore (exisiting_account_number : Z) (balance : Double.t)
    (accountType : string) : t :=
  setLowBalance
    (mk exisiting_account_number balance (Double.of_Z 0) accountType false
        (Double.of_Z 0) (Double.of_Z 0) []).

(** Full constructor; [number] is the value taken from the static counter
    [next_account_number_]. *)
Definition create (number : Z)
    (deposit withdrawal account_balance interest_rate : Double.t)
    (accountType : string) : t :=
  setLowBalance
    (mk number account_balance interest_rate accountType false deposit withdrawal []).

(** Default constructor. *)
Definition default (number : Z) : t :=
  mk number (Double.of_Z 0) (Double.of_Z 0) "NONE" false (Double.of_Z 0) (Double.of_Z 0) [].

Definition applyDeposit (amount : Double.t) (now : Z) (a : t) : bool * t :=
  if Double.leb amount (Double.of_Z 0) then (false, a)
  else
    let a1 := setBalanceInternal (Double.add (account_balance_ a) amount) a in
    let a2 := emplace_back
                (Transaction.mk (pretty (account_number_ a1)) Transaction.DEPOSIT amount
                                (account_balance_ a1) "Deposit" now) a1 in
    (true, setLowBalance a2).

Definition applyWithdraw (amount : Double.t) (now : Z) (a : t) : outcome bool * t :=
  if Double.leb amount (Double.of_Z 0) then
    (Throw (invalid_argument "Withdrawal amount must be positive"), a)
  else if Double.ltb (account_balance_ a) amount then
    (Throw (runtime_error "Insufficient funds for withdrawal"), a)
  else
    let a1 := setBalanceInternal (Double.sub (account_balance_ a) amount) a in
    let a2 := emplace_back
                (Transaction.mk (pretty (account_number_ a1)) Transaction.WITHDRAWAL amount
                                (account_balance_ a1) "Withdrawal" now) a1 in
    (Return true, setLowBalance a2).

End BankAccount.

(** ** SavingAccount.cpp *)

Module SavingAccount.

Record t : Type := mk {
  base : BankAccount.t;
  min_balance_ : Double.t;
  withdrawal_times_this_month_ : Z;
  interest_rate_ : Double.t
}.

Definition with_base (b : BankAccount.t) (s : t) : t :=
  mk b (min_balance_ s) (withdrawal_times_this_month_ s) (interest_rate_ s).

Definition getAccountBalance (s : t) : Double.t := BankAccount.getAccountBalance (base s).

(** [SavingAccount()]. *)
Definition default (number : Z) : t :=
  mk (BankAccount.default number) (Double.of_Z 500) 0 (Double.of_Z 0).

(** [SavingAccount(double initial_balance, double interest_rate)]. *)
Definition create (number : Z) (initial_balance interest_rate : Double.t) (now : Z) : t :=
  let s := mk (BankAccount.default number) (Double.of_Z 500) 0 interest_rate in
  if Double.ltb (Double.of_Z 0) initial_balance
  then with_base (snd (BankAccount.applyDeposit initial_balance now (base s))) s
  else s.

(** [SavingAccount(int, double, const std::string&)]. *)
Definition restore (accountNumber : Z) (balance : Double.t) (customerId : string) : t :=
  mk (BankAccount.restore accountNumber balance customerId)
     (Double.of_Z 500) 0 (Double.of_Z 0).

Definition applyWithdraw (amount : Double.t) (now : Z) (s : t) : outcome bool * t :=
  if Double.ltb (Double.sub (getAccountBalance s) amount) (min_balance_ s) then
    (Throw (runtime_error "Withdrawal violates minimum balance requirements"), s)
  else if 6 <=? withdrawal_times_this_month_ s then
    (Throw (runtime_error "Maximum monthly withdrawal exceeded."), s)
  else
    match BankAccount.applyWithdraw amount now (base s) with
    | (Return true, b) =>
        (Return true,
         mk b (min_balance_ s) (withdrawal_times_this_month_ s + 1) (interest_rate_ s))
    | (r, b) => (r, with_base b s)
    end.

Definition resetMonthlyWithdrawals (s : t) : t :=
  mk (base s) (min_balance_ s) 0 (interest_rate_ s).

End SavingAccount.

(** ** CheckingAccount.cpp *)

Module CheckingAccount.

Record t : Type := mk {
  base : BankAccount.t;
  overdraft_limit_ : Double.t;
  monthly_maintenance_fee_ : Double.t;
  minimum_balance_waiver_ : Double.t;
  has_overdraft_protection_ : bool;
  monthly_transaction_count_ : Z;
  credit_cards_ : list addr;
  debit_cards_ : list addr;
  is_business_account_ : bool;
  daily_withdrawal_limit_ : Double.t;
  overdraft_backup_account_ : option addr
}.

Definition with_base (b : BankAccount.t) (c : t) : t :=
  mk b (overdraft_limit_ c) (monthly_maintenance_fee_ c) (minimum_balance_waiver_ c)
     (has_overdraft_protection_ c) (monthly_transaction_count_ c) (credit_cards_ c)
     (debit_cards_ c) (is_business_account_ c) (daily_withdrawal_limit_ c)
     (overdraft_backup_account_ c).

Definition with_daily_withdrawal_limit (limit : Double.t) (c : t) : t :=
  mk (base c) (overdraft_limit_ c) (monthly_maintenance_fee_ c) (minimum_balance_waiver_ c)
     (has_overdraft_protection_ c) (monthly_transaction_count_ c) (credit_cards_ c)
     (debit_cards_ c) (is_business_account_ c) limit
     (overdraft_backup_account_ c).

(** [monthly_transaction_count_++]. *)
Definition count_transaction (c : t) : t :=
  mk (base c) (overdraft_limit_ c) (monthly_maintenance_fee_ c) (minimum_balance_waiver_ c)
     (has_overdraft_protection_ c) (monthly_transaction_count_ c + 1) (credit_cards_ c)
     (debit_cards_ c) (is_business_account_ c) (daily_withdrawal_limit_ c)
     (overdraft_backup_account_ c).

Definition getAccountBalance (c : t) : Double.t := BankAccount.getAccountBalance (base c).

Definition getDailyWithdrawalLimit (c : t) : Double.t := daily_withdrawal_limit_ c.

Definition getTransactions (c : t) : list Transaction.t :=
  BankAccount.getTransactions (base c).

(** [CheckingAccount(overdraft_limit, monthly_fee, fee_waiver_balance,
    daily_Withdrawal_limit, initial_balance)]. *)
Definition create (number : Z)
    (overdraft_limit monthly_fee fee_waiver_balance daily_Withdrawal_limit
       initial_balance : Double.t) : t :=
  mk (BankAccount.create number (Double.of_Z 0) (Double.of_Z 0) initial_balance
        (Double.of_Z 0) "None")
     overdraft_limit monthly_fee fee_waiver_balance false 0 [] [] false
     daily_Withdrawal_limit None.

Definition linkOverdraftProtection (backup : option addr) (c : t) : t :=
  mk (base c) (overdraft_limit_ c) (monthly_maintenance_fee_ c) (minimum_balance_waiver_ c)
     true (monthly_transaction_count_ c) (credit_cards_ c)
     (debit_cards_ c) (is_business_account_ c) (daily_withdrawal_limit_ c)
     backup.

(** The tail shared by both successful paths of [applyWithdraw]:
    [setBalanceInternal(b); addTransaction(WITHDRAWAL, amount, time(nullptr));
    monthly_transaction_count_++; setLowBalance();]. *)
Definition settle (newBalance amount : Double.t) (now : Z) (c : t) : t :=
  let b1 := BankAccount.setBalanceInternal newBalance (base c) in
  let b2 := BankAccount.addTransaction Transaction.WITHDRAWAL amount now b1 in
  let c1 := count_transaction (with_base b2 c) in
  with_base (BankAccount.setLowBalance (base c1)) c1.

End CheckingAccount.

(** ** The account store and the virtual call [applyWithdraw] *)

Inductive Account : Type :=
| Checking (c : CheckingAccount.t)
| Saving (s : SavingAccount.t).

Abbreviation heap := (gmap nat Account) (only parsing).

Definition account_base (a : Account) : BankAccount.t :=
  match a with
  | Checking c => CheckingAccount.base c
  | Saving s => SavingAccount.base s
  end.

Definition balance_of (a : Account) : Double.t :=
  BankAccount.account_balance_ (account_base a).

(** [std::weak_ptr::lock]. *)
Definition lock (w : option addr) (h : heap) : option addr :=
  match w with
  | Some p => match h !! p with Some _ => Some p | None => None end
  | None => None
  end.

(** A call result together with the store it leaves; [Undefined] marks a
    member call through a pointer that owns no object of the class. *)
Inductive call (A : Type) : Type :=
| Done (r : outcome A) (h : heap)
| Undefined.

Arguments Done {A} r h.
Arguments Undefined {A}.

(** [CheckingAccount::applyWithdraw] for the object [c] stored at [this];
    [virt] is the virtual call [backup->applyWithdraw]. *)
Definition CheckingAccount_applyWithdraw
    (virt : addr -> Double.t -> Z -> heap -> call bool)
    (this : addr) (c : CheckingAccount.t) (amount : Double.t) (now : Z) (h : heap)
    : call bool :=
  if Double.leb amount (Double.of_Z 0) then Done (Return false) h
  else
    let currentBalance := CheckingAccount.getAccountBalance c in
    let available := Double.add currentBalance (CheckingAccount.overdraft_limit_ c) in
    if Double.ltb available amount then
      if negb (CheckingAccount.has_overdraft_protection_ c) then Done (Return false) h
      else
        match lock (CheckingAccount.overdraft_backup_account_ c) h with
        | None => Done (Return false) h
        | Some backup =>
            let neededFromBackup := Double.sub amount available in
            match virt backup neededFromBackup now h with
            | Undefined => Undefined
            | Done (Return true) h1 =>
                match h1 !! this with
                | Some (Checking c1) =>
                    Done (Return true)
                         (<[this := Checking
                              (CheckingAccount.settle
                                 (Double.opp (CheckingAccount.overdraft_limit_ c1))
                                 amount now c1)]> h1)
                | _ => Undefined
                end
            | Done (Return false) h1 => Done (Return false) h1
            | Done (Throw e) h1 => Done (Throw e) h1
            | Done OutOfFuel h1 => Done OutOfFuel h1
            end
        end
    else
      Done (Return true)
           (<[this := Checking
                (CheckingAccount.settle (Double.sub currentBalance amount) amount now c)]> h).

(** The virtual call [p->applyWithdraw(amount)], unfolded at most [fuel]
    calls deep (a chain of backup accounts may be cyclic). *)
Fixpoint applyWithdraw (fuel : nat) (this : addr) (amount : Double.t) (now : Z) (h : heap)
    {struct fuel} : call bool :=
  match fuel with
  | O => Done OutOfFuel h
  | S fuel' =>
      match h !! this with
      | Some (Checking c) =>
          CheckingAccount_applyWithdraw (applyWithdraw fuel') this c amount now h
      | Some (Saving s) =>
          let (r, s') := SavingAccount.applyWithdraw amount now s in
          Done r (<[this := Saving s']> h)
      | None => Undefined
      end
  end.

(** ** DebitCard.cpp *)

Module DebitCard.

Record t : Type := mk {
  card : Card.t;
  salt_ : string;
  pin_hash_ : string;
  daily_withdrawal_limit_ : Double.t;
  daily_spend_amount_ : Double.t;
  contactless_enable_ : bool;
  failed_attempts_ : Z;
  linked_debit_card_account_ : option addr;
  pin_ : string
}.

Definition isActivated (d : t) : bool := Card.isActivated (card d).

Definition getDailySpendAmount (d : t) : Double.t := daily_spend_amount_ d.

Definition getDailyWithdrawalLimit (d : t) : Double.t := daily_withdrawal_limit_ d.

Definition SetDailyWithdrawalLimit (limit : Double.t) (d : t) : t :=
  mk (card d) (salt_ d) (pin_hash_ d) limit (daily_spend_amount_ d)
     (contactless_enable_ d) (failed_attempts_ d) (linked_debit_card_account_ d) (pin_ d).

(** [processPayment]: the card as the call leaves it, and the result
    with the store of accounts. *)
Definition processPayment (fuel : nat) (amount : Double.t) (now : Z) (d : t) (h : heap)
    : t * call bool :=
  if negb (isActivated d) then (d, Done (Return false) h)
  else
    match lock (linked_debit_card_account_ d) h with
    | None => (d, Done (Return false) h)
    | Some account =>
        match h !! account with
        | Some (Checking a) =>
            if Double.ltb (CheckingAccount.getAccountBalance a) amount
            then (d, Done (Return false) h)
            else (d, applyWithdraw fuel account amount now h)
        | _ => (d, Undefined)
        end
    end.

End DebitCard.

(** ** Vocabulary of the statements about binary64 amounts *)

(** [a'] has exactly one more transaction than [a], of type [ty], for
    [amount], stamped with the balance of [a']. *)
Definition appended_one (ty : Transaction.Type_) (amount : Double.t)
    (a a' : BankAccount.t) : Prop :=
  exists tx,
    BankAccount.transactions_ a' = BankAccount.transactions_ a ++ [tx]
    /\ Transaction.type_ tx = ty
    /\ Transaction.amount_ tx = amount
    /\ Transaction.balanceAfter_ tx = BankAccount.account_balance_ a'.

(** The backup account accepts a withdrawal of [needed] under its own
    rules, each evaluated as the code evaluates it: a positive amount
    within balance plus overdraft limit for a checking account; a
    positive amount within the balance that leaves the minimum balance,
    below the monthly cap, for a savings account. *)
Definition can_cover (backup : Account) (needed : Double.t) : Prop :=
  Double.ltb (Double.of_Z 0) needed = true
  /\ match backup with
     | Checking cb =>
         Double.leb needed
           (Double.add (CheckingAccount.getAccountBalance cb)
              (CheckingAccount.overdraft_limit_ cb)) = true
     | Saving sb =>
         Double.leb needed (SavingAccount.getAccountBalance sb) = true
         /\ Double.leb (SavingAccount.min_balance_ sb)
              (Double.sub (SavingAccount.getAccountBalance sb) needed) = true
         /\ SavingAccount.withdrawal_times_this_month_ sb < 6
     end.







(** Every savings account of the store has a balance that is not below
    its minimum balance. *)
Definition saving_floors (h : heap) : Prop :=
  forall (p : addr) (s : SavingAccount.t),
    h !! p = Some (Saving s) ->
    Double.ltb (SavingAccount.getAccountBalance s) (SavingAccount.min_balance_ s) = false.

End B64.

(** ** Vocabulary of the statements *)

(** The call raised an error of class [k]. *)
Definition raises {A : Type} (k : error_class) (r : outcome A) : Prop :=
  exists e, r = Throw e /\ classify e = k.

(** [a'] has exactly one more transaction than [a], of type [ty], for
    [amount], stamped with the balance of [a']. *)
Definition appended_one (ty : Transaction.Type_) (amount : Q) (a a' : BankAccount.t) : Prop :=
  exists tx,
    BankAccount.transactions_ a' = BankAccount.transactions_ a ++ [tx]
    /\ Transaction.type_ tx = ty
    /\ Transaction.amount_ tx = amount
    /\ Transaction.balanceAfter_ tx = BankAccount.account_balance_ a'.

(** The operations a holder of a [DebitCard] can invoke on it, with the
    arguments and the environment's answers they consume. *)
Inductive card_op : Type :=
| OpVerifyPin (attempt : string)
| OpSetPin (pin : string)
| OpChangePin (old_pin new_pin : string)
| OpSetActivated (b : bool)
| OpMarkExpired
| OpSetCardNumber (number : string)
| OpSetExpiration (expiration : string)
| OpSetCvv (cvv : string)
| OpEnableContactless (enable : bool)
| OpSetDailySpendAmount (amount : Q)
| OpSetDailyWithdrawalLimit (limit : Q)
| OpProcessPayment (fuel : nat) (amount : Q) (now : Z) (h : heap).

(** The card and the world after one operation; a call that throws leaves
    the card as it was when the exception left it. *)
Definition card_step (hashPin : string -> string -> string)
    (st : DebitCard.t * world) (o : card_op) : DebitCard.t * world :=
  let '(d, w) := st in
  match o with
  | OpVerifyPin attempt => (snd (DebitCard.verifyPin hashPin attempt d), w)
  | OpSetPin pin =>
      match DebitCard.setPin hashPin pin d w with
      | (Return r, w1) => (snd r, w1)
      | (_, w1) => (d, w1)
      end
  | OpChangePin old_pin new_pin =>
      match DebitCard.changePin hashPin old_pin new_pin d w with
      | (Return r, w1) => (snd r, w1)
      | (_, w1) => (snd (DebitCard.verifyPin hashPin old_pin d), w1)
      end
  | OpSetActivated b => (DebitCard.setActivated b d, w)
  | OpMarkExpired => (DebitCard.markExpired d, w)
  | OpSetCardNumber number => (DebitCard.setCardNumber number d, w)
  | OpSetExpiration expiration => (DebitCard.setExpiration expiration d, w)
  | OpSetCvv cvv => (DebitCard.setCvv cvv d, w)
  | OpEnableContactless enable => (DebitCard.enableContactless enable d, w)
  | OpSetDailySpendAmount amount => (DebitCard.SetDailySpendAmount amount d, w)
  | OpSetDailyWithdrawalLimit limit => (DebitCard.SetDailyWithdrawalLimit limit d, w)
  | OpProcessPayment fuel amount now h =>
      (fst (DebitCard.processPayment fuel amount now d h), w)
  end.

Definition card_run (hashPin : string -> string -> string)
    (st : DebitCard.t * world) (ops : list card_op) : DebitCard.t * world :=
  fold_left (card_step hashPin) ops st.

(** A PIN attempt is wrong for the card when its salted hash differs from
    the stored one. *)
Definition wrong_pin (hashPin : string -> string -> string)
    (d : DebitCard.t) (attempt : string) : Prop :=
  hashPin attempt (DebitCard.salt_ d) <> DebitCard.pin_hash_ d.

(** A computation that leaves the issued-number registry as it found it,
    whatever its outcome. *)
Definition keeps_registry {A : Type} (m : M A) : Prop :=
  forall w : world, issued_numbers_ (snd (m w)) = issued_numbers_ w.

(** Every value the computation returns satisfies [P]. *)
Definition returns {A : Type} (m : M A) (P : A -> Prop) : Prop :=
  forall (w w' : world) (v : A), m w = (Return v, w') -> P v.

(** A card number made of a one-character BIN prefix and fifteen decimal
    digits. *)
Definition prefixed_number (prefix : string) (number : string) : Prop :=
  exists digits : list ascii,
    number = (prefix ++ string_of_chars digits)%string
    /\ length digits = 15%nat
    /\ forallb isdigit digits = true.

(** The operations on a savings account, with the clock readings they
    make, and a run of them; the value a call returns or the exception
    it throws is dropped, the object is kept. *)
Inductive saving_op : Type :=
| SDeposit (amount : Q) (now : Z)
| SWithdraw (amount : Q) (now : Z)
| SMonthlyInterest (now1 now2 : Z)
| SInterest (now1 now2 : Z)
| SReset
| SSetEarningInterestRate (rate : Q).

Definition saving_step (s : SavingAccount.t) (o : saving_op) : SavingAccount.t :=
  match o with
  | SDeposit amount now => snd (SavingAccount.applyDeposit amount now s)
  | SWithdraw amount now => snd (SavingAccount.applyWithdraw amount now s)
  | SMonthlyInterest now1 now2 => SavingAccount.applyMonthlyInterest now1 now2 s
  | SInterest now1 now2 => SavingAccount.applyInterest now1 now2 s
  | SReset => SavingAccount.resetMonthlyWithdrawals s
  | SSetEarningInterestRate rate => snd (SavingAccount.setEarningInterestRate rate s)
  end.

Definition saving_run (s : SavingAccount.t) (ops : list saving_op) : SavingAccount.t :=
  fold_left saving_step ops s.

(** The number of withdrawals, among those of the list made one after
    the other, that return true. *)
Fixpoint successful_withdrawals (s : SavingAccount.t) (l : list (Q * Z)) : Z :=
  match l with
  | [] => 0
  | (amount, now) :: rest =>
      match SavingAccount.applyWithdraw amount now s with
      | (Return true, s') => 1 + successful_withdrawals s' rest
      | (_, s') => successful_withdrawals s' rest
      end
  end.

(** The balance that a history after [added] more records vouches for:
    the balance-after stamp of the last record added, or [balance] when
    none was added. *)
Definition stamped_balance (added : list Transaction.t) (balance : Q) : Q :=
  match last added with
  | Some tx => Transaction.balanceAfter_ tx
  | None => balance
  end.

(** The low-balance flag tells whether the balance is below the
    threshold. *)
Definition flag_accurate (a : BankAccount.t) : Prop :=
  BankAccount.isLowBalance a = Qltb (BankAccount.getAccountBalance a)
                                 BankAccount.LOW_BALANCE_THRESHOLD.

(** The card after a sequence of calls of [verifyPin]. *)
Definition verify_all (hashPin : string -> string -> string)
    (d : DebitCard.t) (attempts : list string) : DebitCard.t :=
  fold_left (fun d attempt => snd (DebitCard.verifyPin hashPin attempt d)) attempts d.

(** [wrong_pin] as a flag. *)
Definition is_wrong (hashPin : string -> string -> string)
    (d : DebitCard.t) (attempt : string) : bool :=
  negb (String.eqb (hashPin attempt (DebitCard.salt_ d)) (DebitCard.pin_hash_ d)).

(** Whether a list of flags has three consecutive entries set. *)
Fixpoint three_in_a_row (l : list bool) : bool :=
  match l with
  | [] => false
  | a :: rest =>
      (a && match rest with
            | b :: c :: _ => b && c
            | _ => false
            end)
      || three_in_a_row rest
  end.




(** * Properties *)

Local Open Scope Q_scope.

(** ** Comparisons on amounts *)

Lemma Qltb_true (x y : Q) : Qltb x y = true <-> x < y.
Proof.
  unfold Qltb. rewrite negb_true_iff.
  destruct (Qle_bool y x) eqn:E.
  - apply Qle_bool_iff in E. split; [discriminate | intros H; exfalso; lra].
  - split; [intros _ | reflexivity].
    apply Qnot_le_lt. intros H. apply Qle_bool_iff in H. congruence.
Qed.

Lemma Qltb_false (x y : Q) : Qltb x y = false <-> y <= x.
Proof.
  unfold Qltb. rewrite negb_false_iff. apply Qle_bool_iff.
Qed.

Lemma Qle_bool_false (x y : Q) : Qle_bool x y = false <-> y < x.
Proof.
  rewrite <- Qltb_true. unfold Qltb. rewrite negb_true_iff. reflexivity.
Qed.

(** ** BankAccount: deposits and withdrawals of the base class *)

Lemma applyDeposit_rejected (a : BankAccount.t) (amount : Q) (now : Z) :
  amount <= 0 -> BankAccount.applyDeposit amount now a = (false, a).
Proof.
  intros H. unfold BankAccount.applyDeposit.
  apply Qle_bool_iff in H. now rewrite H.
Qed.

Lemma applyDeposit_accepted (a : BankAccount.t) (amount : Q) (now : Z) :
  0 < amount ->
  exists a',
    BankAccount.applyDeposit amount now a = (true, a')
    /\ BankAccount.account_balance_ a' = BankAccount.account_balance_ a + amount
    /\ appended_one Transaction.DEPOSIT amount a a'.
Proof.
  intros H. unfold BankAccount.applyDeposit.
  apply Qle_bool_false in H. rewrite H.
  eexists. split; [reflexivity |]. split; [reflexivity |].
  eexists. cbn. repeat split.
Qed.

Lemma base_applyWithdraw_nonpositive (a : BankAccount.t) (amount : Q) (now : Z) :
  amount <= 0 ->
  BankAccount.applyWithdraw amount now a
  = (Throw (invalid_argument "Withdrawal amount must be positive"), a).
Proof.
  intros H. unfold BankAccount.applyWithdraw.
  apply Qle_bool_iff in H. now rewrite H.
Qed.

Lemma base_applyWithdraw_insufficient (a : BankAccount.t) (amount : Q) (now : Z) :
  0 < amount -> BankAccount.account_balance_ a < amount ->
  BankAccount.applyWithdraw amount now a
  = (Throw (runtime_error "Insufficient funds for withdrawal"), a).
Proof.
  intros H1 H2. unfold BankAccount.applyWithdraw.
  apply Qle_bool_false in H1. apply Qltb_true in H2. now rewrite H1, H2.
Qed.

Lemma base_applyWithdraw_accepted (a : BankAccount.t) (amount : Q) (now : Z) :
  0 < amount -> amount <= BankAccount.account_balance_ a ->
  exists a',
    BankAccount.applyWithdraw amount now a = (Return true, a')
    /\ BankAccount.account_balance_ a' = BankAccount.account_balance_ a - amount
    /\ appended_one Transaction.WITHDRAWAL amount a a'.
Proof.
  intros H1 H2. unfold BankAccount.applyWithdraw.
  apply Qle_bool_false in H1. apply Qltb_false in H2. rewrite H1, H2.
  eexists. split; [reflexivity |]. split; [reflexivity |].
  eexists. cbn. repeat split.
Qed.

(** The three cases of the base withdrawal cover every amount. *)
Lemma base_applyWithdraw_cases (a : BankAccount.t) (amount : Q) (now : Z) :
  (amount <= 0
   /\ BankAccount.applyWithdraw amount now a
      = (Throw (invalid_argument "Withdrawal amount must be positive"), a))
  \/ (0 < amount /\ BankAccount.account_balance_ a < amount
      /\ BankAccount.applyWithdraw amount now a
         = (Throw (runtime_error "Insufficient funds for withdrawal"), a))
  \/ (0 < amount /\ amount <= BankAccount.account_balance_ a
      /\ exists a',
           BankAccount.applyWithdraw amount now a = (Return true, a')
           /\ BankAccount.account_balance_ a' = BankAccount.account_balance_ a - amount
           /\ appended_one Transaction.WITHDRAWAL amount a a').
Proof.
  destruct (Qlt_le_dec 0 amount) as [Hpos | Hnon].
  - destruct (Qlt_le_dec (BankAccount.account_balance_ a) amount) as [Hlt | Hle].
    + right; left. auto using base_applyWithdraw_insufficient.
    + right; right. auto using base_applyWithdraw_accepted.
  - left. auto using base_applyWithdraw_nonpositive.
Qed.

(** C2, as the code has it.  [applyDeposit] returns false exactly when
    [amount <= 0] and then changes nothing; [applyWithdraw] raises an
    InvalidInput error exactly when [amount <= 0] and an
    InsufficientFunds error exactly when [0 < amount] and
    [amount > balance]; a raising withdrawal changes nothing; a successful
    deposit (withdrawal) appends exactly one DEPOSIT (WITHDRAWAL)
    transaction stamped with the new balance. *)
Theorem base_account_contract (a : BankAccount.t) (amount : Q) (now : Z) :
  (fst (BankAccount.applyDeposit amount now a) = false <-> amount <= 0)
  /\ (amount <= 0 -> snd (BankAccount.applyDeposit amount now a) = a)
  /\ (fst (BankAccount.applyDeposit amount now a) = true ->
      appended_one Transaction.DEPOSIT amount a
        (snd (BankAccount.applyDeposit amount now a)))
  /\ (raises InvalidInput (fst (BankAccount.applyWithdraw amount now a))
      <-> amount <= 0)
  /\ (raises InsufficientFunds (fst (BankAccount.applyWithdraw amount now a))
      <-> 0 < amount /\ BankAccount.account_balance_ a < amount)
  /\ (forall e, fst (BankAccount.applyWithdraw amount now a) = Throw e ->
      snd (BankAccount.applyWithdraw amount now a) = a)
  /\ (fst (BankAccount.applyWithdraw amount now a) = Return true ->
      appended_one Transaction.WITHDRAWAL amount a
        (snd (BankAccount.applyWithdraw amount now a))).
Proof.
  assert (Hdep : amount <= 0 \/ 0 < amount) by (destruct (Qlt_le_dec 0 amount); auto).
  pose proof (base_applyWithdraw_cases a amount now) as Hw.
  split; [| split; [| split; [| split; [| split; [| split]]]]].
  - split.
    + destruct Hdep as [H | H]; [auto |].
      destruct (applyDeposit_accepted a amount now H) as (a' & -> & _). discriminate.
    + intros H. now rewrite applyDeposit_rejected.
  - intros H. now rewrite applyDeposit_rejected.
  - destruct Hdep as [H | H].
    + rewrite applyDeposit_rejected by assumption. discriminate.
    + destruct (applyDeposit_accepted a amount now H) as (a' & -> & _ & Happ). auto.
  - split.
    + intros (e & He & Hk).
      destruct Hw as [(H & Hw) | [(H1 & H2 & Hw) | (H1 & H2 & a' & Hw & _)]];
        rewrite Hw in He; cbn in He; [assumption | | discriminate].
      injection He as <-. discriminate.
    + intros H. rewrite base_applyWithdraw_nonpositive by assumption.
      eexists; split; reflexivity.
  - split.
    + intros (e & He & Hk).
      destruct Hw as [(H & Hw) | [(H1 & H2 & Hw) | (H1 & H2 & a' & Hw & _)]];
        rewrite Hw in He; cbn in He; [| auto | discriminate].
      injection He as <-. discriminate.
    + intros (H1 & H2). rewrite base_applyWithdraw_insufficient by assumption.
      eexists; split; reflexivity.
  - intros e He.
    destruct Hw as [(H & Hw) | [(H1 & H2 & Hw) | (H1 & H2 & a' & Hw & _)]];
      rewrite Hw in *; cbn in *; [reflexivity | reflexivity | discriminate].
  - intros He.
    destruct Hw as [(H & Hw) | [(H1 & H2 & Hw) | (H1 & H2 & a' & Hw & _ & Happ)]];
      rewrite Hw in *; cbn in *; [discriminate | discriminate | assumption].
Qed.

(** C2 at a concrete account: a rejected deposit, an overdraw, and an
    accepted withdrawal of an account restored with balance 100. *)
Lemma base_account_contract_witness :
  let a := BankAccount.restore 1000 100 "CHECKING" in
  snd (BankAccount.applyDeposit (-5) 7 a) = a
  /\ raises InsufficientFunds (fst (BankAccount.applyWithdraw 150 7 a))
  /\ appended_one Transaction.WITHDRAWAL 40 a (snd (BankAccount.applyWithdraw 40 7 a)).
Proof.
  intros a. split; [| split].
  - apply (base_account_contract a (-5) 7%Z). vm_compute. discriminate.
  - apply (base_account_contract a 150 7%Z). split; reflexivity.
  - apply (base_account_contract a 40 7%Z). reflexivity.
Defined.

(** C2 as worded fails on an overdrawn account and a negative amount: the
    amount exceeds the balance, and the error raised is the InvalidInput
    one, not the InsufficientFunds one. *)
Lemma base_withdraw_negative_amount_overdrawn :
  let a := BankAccount.restore 1000 (-50) "CHECKING" in
  BankAccount.account_balance_ a < -10
  /\ raises InvalidInput (fst (BankAccount.applyWithdraw (-10) 7 a))
  /\ ~ raises InsufficientFunds (fst (BankAccount.applyWithdraw (-10) 7 a)).
Proof.
  intros a. split; [reflexivity | split].
  - eexists. split; reflexivity.
  - intros (e & He & Hk). cbn in He. injection He as <-. discriminate.
Qed.

(** ** binary64: order and sign *)

Section Binary64.

Local Open Scope Z_scope.

Lemma Double_compare_antisym (x y : Double.t) :
  SFcompare y x = match SFcompare x y with Some c => Some (CompOpp c) | None => None end.
Proof.
  destruct x as [sx | sx | | sx mx ex], y as [sy | sy | | sy my ey]; cbn;
    try reflexivity; try (destruct sx; reflexivity); try (destruct sy; reflexivity);
    try (destruct sx, sy; reflexivity).
  destruct sx, sy; try reflexivity; rewrite (Z.compare_antisym ex ey);
    destruct (ex ?= ey); cbn; try reflexivity;
    rewrite (ZC4 my mx); try reflexivity;
    now rewrite ?CompOpp_involutive.
Qed.

Lemma Double_ltb_leb (x y : Double.t) : Double.ltb x y = true -> Double.leb y x = false.
Proof.
  unfold Double.ltb, Double.leb, SFltb, SFleb. rewrite (Double_compare_antisym x y).
  now destruct (SFcompare x y) as [[| |] |].
Qed.

Lemma Double_leb_ltb (x y : Double.t) : Double.leb x y = true -> Double.ltb y x = false.
Proof.
  unfold Double.ltb, Double.leb, SFltb, SFleb. rewrite (Double_compare_antisym x y).
  now destruct (SFcompare x y) as [[| |] |].
Qed.

(** A number above zero is not below or equal to one that is not above
    zero. *)
Lemma Double_leb_positive_nonpositive (c r : Double.t) :
  Double.ltb (Double.of_Z 0) c = true ->
  Double.ltb (Double.of_Z 0) r = false ->
  Double.leb c r = false.
Proof.
  change (Double.of_Z 0) with (S754_zero false).
  destruct c as [sc | [|] | | [|] mc ec], r as [sr | [|] | | [|] mr er];
    cbn; intros; congruence.
Qed.

Lemma digits2_pos_size (m : positive) : digits2_pos m = Pos.size m.
Proof. induction m; cbn; now rewrite ?IHm. Qed.

(** The mantissa and the exponent of a binary64 number: at most 53 bits,
    and exactly 53 above the least exponent. *)
Lemma bounded_mantissa (m : positive) (e : Z) :
  bounded Double.prec Double.emax m e = true ->
  Z.pos m < 2 ^ 53 /\ -1074 <= e /\ (-1074 < e -> 2 ^ 52 <= Z.pos m).
Proof.
  unfold bounded, canonical_mantissa, fexp, emin, Double.prec, Double.emax.
  intros H. apply andb_prop in H as [H _]. apply Z.eqb_eq in H.
  rewrite digits2_pos_size in H.
  pose proof (Pos.size_gt m) as Hgt. pose proof (Pos.size_le m) as Hle.
  apply Pos2Z.pos_lt_pos in Hgt. apply Pos2Z.pos_le_pos in Hle.
  rewrite Pos2Z.inj_pow in Hgt, Hle.
  assert (Hs : Z.pos (Pos.size m) <= 53) by lia.
  split; [| split; [lia |]].
  - eapply Z.lt_le_trans; [exact Hgt |]. apply Z.pow_le_mono_r; lia.
  - intros He. assert (Hs53 : Z.pos (Pos.size m) = 53) by lia.
    rewrite Hs53 in Hle. change (2 ^ 53) with (2 * 2 ^ 52) in Hle. lia.
Qed.

Lemma shl_align_value (m : positive) (e e' : Z) :
  e' <= e -> Z.pos (fst (shl_align m e e')) = Z.pos m * 2 ^ (e - e').
Proof.
  intros H. unfold shl_align.
  destruct (e' - e) as [| d | d] eqn:E; try lia.
  - replace (e - e') with 0 by lia. cbn [fst]. lia.
  - cbn [fst]. change (Pos.iter xO m d) with (shift_pos d m).
    rewrite shift_pos_correct, Z.pow_pos_fold.
    replace (e - e') with (Z.pos d) by lia. lia.
Qed.

(** Rounding an integer that is not above zero gives a zero, a negative
    number or minus infinity. *)
Lemma binary_normalize_nonpositive (m e : Z) :
  m <= 0 ->
  Double.ltb (Double.of_Z 0) (binary_normalize Double.prec Double.emax m e false) = false.
Proof.
  change (Double.of_Z 0) with (S754_zero false).
  intros H. destruct m as [| p | p]; [reflexivity | lia |].
  unfold binary_normalize, binary_round.
  destruct (shl_align _ _ _) as [mz ez].
  unfold binary_round_aux.
  destruct (shr_fexp _ _ _ _ _) as [mrs' e'].
  destruct (shr_fexp _ _ _ _ _) as [mrs'' e''].
  destruct (shr_m mrs''); [reflexivity | | reflexivity].
  now destruct (e'' <=? _).
Qed.

(** Of two positive binary64 numbers, the mantissas brought to the
    lesser exponent are ordered as the comparison of exponents and
    mantissas says. *)
Lemma aligned_lt (mx my : positive) (ex ey : Z) :
  bounded Double.prec Double.emax mx ex = true ->
  bounded Double.prec Double.emax my ey = true ->
  match ex ?= ey with
  | Lt => True
  | Gt => False
  | Eq => Pos.compare_cont Eq mx my = Lt
  end ->
  Z.pos (fst (shl_align mx ex (Z.min ex ey))) < Z.pos (fst (shl_align my ey (Z.min ex ey))).
Proof.
  intros Hx Hy H.
  apply bounded_mantissa in Hx as (Hx1 & Hx2 & Hx3).
  apply bounded_mantissa in Hy as (Hy1 & Hy2 & Hy3).
  rewrite !shl_align_value by lia.
  destruct (Z.compare_spec ex ey) as [-> | Hlt | Hgt]; [| | contradiction].
  - rewrite Z.min_id, Z.sub_diag. change (2 ^ 0) with 1.
    change (mx < my)%positive in H. lia.
  - rewrite Z.min_l by lia. rewrite Z.sub_diag. change (2 ^ 0) with 1.
    assert (H52 : 2 ^ 52 <= Z.pos my) by (apply Hy3; lia).
    assert (H2 : 2 ^ 1 <= 2 ^ (ey - ex)) by (apply Z.pow_le_mono_r; lia).
    change (2 ^ 1) with 2 in H2. change (2 ^ 53) with (2 ^ 52 * 2) in Hx1.
    nia.
Qed.

(** The rounded difference of a number and a greater one is not above
    zero. *)
Lemma Double_sub_of_less (x y : Double.t) :
  Double.is_double x -> Double.is_double y ->
  Double.ltb x y = true ->
  Double.ltb (Double.of_Z 0) (Double.sub x y) = false.
Proof.
  unfold Double.is_double, Double.ltb, Double.sub, SFltb.
  destruct x as [sx | sx | | sx mx ex], y as [sy | sy | | sy my ey];
    cbn [SFcompare SFsub valid_binary]; intros Hx Hy H;
    try discriminate; try (destruct sx; discriminate); try (destruct sy; discriminate);
    try (destruct sx, sy; discriminate || reflexivity);
    try (destruct sx; discriminate || reflexivity);
    try (destruct sy; discriminate || reflexivity).
  apply binary_normalize_nonpositive.
  destruct sx, sy; cbn [cond_Zopp]; try discriminate; try lia.
  - assert (Hlt : Z.pos (fst (shl_align my ey (Z.min ey ex)))
                  < Z.pos (fst (shl_align mx ex (Z.min ey ex)))).
    { apply aligned_lt; try assumption.
      rewrite (Z.compare_antisym ex ey).
      destruct (ex ?= ey); cbn; try discriminate; try exact I.
      rewrite (ZC4 my mx).
      destruct (Pos.compare_cont Eq mx my); cbn in *; congruence. }
    rewrite (Z.min_comm ey ex) in Hlt. lia.
  - assert (Hlt : Z.pos (fst (shl_align mx ex (Z.min ex ey)))
                  < Z.pos (fst (shl_align my ey (Z.min ex ey)))).
    { apply aligned_lt; try assumption.
      destruct (ex ?= ey); try discriminate; try exact I.
      destruct (Pos.compare_cont Eq mx my); congruence. }
    lia.
Qed.

End Binary64.

(** The arithmetic at known values: 0.1 is [7205759403792794 * 2^-56],
    0.1 + 0.2 is 0.30000000000000004 and not the double nearest to 0.3,
    and ten deposits of 0.1 into an empty account leave
    0.9999999999999999. *)
Lemma Double_known_values :
  let deposit := fun a : B64.BankAccount.t =>
    snd (B64.BankAccount.applyDeposit (Double.dec 1 1) 7 a) in
  Double.dec 1 1 = S754_finite false 7205759403792794 (-56)
  /\ Double.add (Double.dec 1 1) (Double.dec 2 1) = S754_finite false 5404319552844596 (-54)
  /\ Double.dec 3 1 = S754_finite false 5404319552844595 (-54)
  /\ B64.BankAccount.account_balance_
       (Nat.iter 10 deposit (B64.BankAccount.restore 1 (Double.of_Z 0) "SAVINGS"))
     = S754_finite false 9007199254740991 (-53)
  /\ Double.ltb (S754_finite false 9007199254740991 (-53)) (Double.of_Z 1) = true.
Proof. repeat split; vm_compute; reflexivity. Qed.

(** ** SavingAccount: minimum balance and monthly cap *)

(** Every constructor sets the minimum balance to 500, and no member
    function assigns it. *)
Lemma b64_saving_min_balance_of_constructors
    (number : Z) (balance rate : Double.t) (now : Z) (id : string) :
  B64.SavingAccount.min_balance_ (B64.SavingAccount.default number) = Double.of_Z 500
  /\ B64.SavingAccount.min_balance_ (B64.SavingAccount.create number balance rate now)
     = Double.of_Z 500
  /\ B64.SavingAccount.min_balance_ (B64.SavingAccount.restore number balance id)
     = Double.of_Z 500.
Proof.
  split; [reflexivity | split; [| reflexivity]].
  unfold B64.SavingAccount.create. now destruct (Double.ltb (Double.of_Z 0) balance).
Qed.

Lemma b64_base_applyWithdraw_accepted
    (a : B64.BankAccount.t) (amount : Double.t) (now : Z) :
  Double.ltb (Double.of_Z 0) amount = true ->
  Double.ltb (B64.BankAccount.account_balance_ a) amount = false ->
  exists a',
    B64.BankAccount.applyWithdraw amount now a = (Return true, a')
    /\ B64.BankAccount.account_balance_ a'
       = Double.sub (B64.BankAccount.account_balance_ a) amount
    /\ B64.appended_one Transaction.WITHDRAWAL amount a a'.
Proof.
  intros Hpos Hfunds. unfold B64.BankAccount.applyWithdraw.
  rewrite (Double_ltb_leb _ _ Hpos), Hfunds.
  eexists. split; [reflexivity |]. split; [reflexivity |].
  eexists. cbn. repeat split.
Qed.

Lemma b64_saving_applyWithdraw_accepted
    (s : B64.SavingAccount.t) (amount : Double.t) (now : Z) :
  Double.ltb (Double.of_Z 0) amount = true ->
  Double.ltb (B64.SavingAccount.getAccountBalance s) amount = false ->
  Double.ltb (Double.sub (B64.SavingAccount.getAccountBalance s) amount)
    (B64.SavingAccount.min_balance_ s) = false ->
  (B64.SavingAccount.withdrawal_times_this_month_ s < 6)%Z ->
  exists s',
    B64.SavingAccount.applyWithdraw amount now s = (Return true, s')
    /\ B64.SavingAccount.getAccountBalance s'
       = Double.sub (B64.SavingAccount.getAccountBalance s) amount
    /\ B64.SavingAccount.withdrawal_times_this_month_ s'
       = (B64.SavingAccount.withdrawal_times_this_month_ s + 1)%Z
    /\ B64.SavingAccount.min_balance_ s' = B64.SavingAccount.min_balance_ s
    /\ B64.appended_one Transaction.WITHDRAWAL amount (B64.SavingAccount.base s)
         (B64.SavingAccount.base s').
Proof.
  intros Hpos Hfunds Hmin Hcap. unfold B64.SavingAccount.applyWithdraw.
  rewrite Hmin. apply Z.leb_gt in Hcap. rewrite Hcap.
  destruct (b64_base_applyWithdraw_accepted (B64.SavingAccount.base s) amount now Hpos Hfunds)
    as (b & -> & Hbal & Happ).
  eexists. split; [reflexivity |]. cbn. auto.
Qed.

(** A withdrawal that leaves a positive rounded difference is within
    the balance. *)
Lemma b64_funds_of_remainder (balance amount floor : Double.t) :
  Double.is_double balance -> Double.is_double amount ->
  Double.ltb (Double.of_Z 0) floor = true ->
  Double.leb floor (Double.sub balance amount) = true ->
  Double.ltb balance amount = false.
Proof.
  intros Hb Ha Hfloor Hkeep.
  destruct (Double.ltb balance amount) eqn:E; [| reflexivity].
  pose proof (Double_sub_of_less balance amount Hb Ha E) as Hneg.
  rewrite (Double_leb_positive_nonpositive _ _ Hfloor Hneg) in Hkeep.
  discriminate.
Qed.

(** C3, as the code has it.  The balance, the amount and the minimum
    balance 500 are binary64 numbers, and the remainder is the rounded
    difference [balance - amount] that the code computes.  On a savings
    account with fewer than six withdrawals in the cycle, a withdrawal
    whose remainder is below 500 raises an InsufficientFunds error and
    changes neither balance nor counter; a withdrawal of an amount above
    zero whose remainder is at least 500 succeeds, leaves the remainder
    as the balance and adds one to the counter. *)
Theorem saving_minimum_balance_enforced
    (s : B64.SavingAccount.t) (amount : Double.t) (now : Z)
    (Hbal : Double.is_double (B64.SavingAccount.getAccountBalance s))
    (Hamount : Double.is_double amount)
    (Hmin : B64.SavingAccount.min_balance_ s = Double.of_Z 500)
    (Hcap : (B64.SavingAccount.withdrawal_times_this_month_ s < 6)%Z) :
  let remainder := Double.sub (B64.SavingAccount.getAccountBalance s) amount in
  (Double.ltb remainder (Double.of_Z 500) = true ->
   raises InsufficientFunds (fst (B64.SavingAccount.applyWithdraw amount now s))
   /\ snd (B64.SavingAccount.applyWithdraw amount now s) = s)
  /\ (Double.ltb (Double.of_Z 0) amount = true ->
      Double.leb (Double.of_Z 500) remainder = true ->
      fst (B64.SavingAccount.applyWithdraw amount now s) = Return true
      /\ B64.SavingAccount.getAccountBalance
           (snd (B64.SavingAccount.applyWithdraw amount now s)) = remainder
      /\ B64.SavingAccount.withdrawal_times_this_month_
           (snd (B64.SavingAccount.applyWithdraw amount now s))
         = (B64.SavingAccount.withdrawal_times_this_month_ s + 1)%Z).
Proof.
  intros remainder. split.
  - intros H. unfold B64.SavingAccount.applyWithdraw. fold remainder.
    rewrite Hmin, H. cbn [fst snd].
    split; [| reflexivity]. eexists; split; reflexivity.
  - intros Hpos H.
    assert (Hfunds : Double.ltb (B64.SavingAccount.getAccountBalance s) amount = false).
    { apply (b64_funds_of_remainder _ _ (Double.of_Z 500)); auto. }
    assert (Hkeep : Double.ltb remainder (B64.SavingAccount.min_balance_ s) = false).
    { rewrite Hmin. now apply Double_leb_ltb. }
    destruct (b64_saving_applyWithdraw_accepted s amount now Hpos Hfunds Hkeep Hcap)
      as (s' & -> & ? & ? & _).
    auto.
Qed.

(** C3 on the account of the specification: balance 600, withdrawing 150
    is rejected, withdrawing 90 leaves 510. *)
Lemma saving_minimum_balance_enforced_witness :
  let s := B64.SavingAccount.restore 2000 (Double.of_Z 600) "cust" in
  (raises InsufficientFunds (fst (B64.SavingAccount.applyWithdraw (Double.of_Z 150) 7 s))
   /\ snd (B64.SavingAccount.applyWithdraw (Double.of_Z 150) 7 s) = s)
  /\ (fst (B64.SavingAccount.applyWithdraw (Double.of_Z 90) 7 s) = Return true
      /\ B64.SavingAccount.getAccountBalance
           (snd (B64.SavingAccount.applyWithdraw (Double.of_Z 90) 7 s)) = Double.of_Z 510
      /\ B64.SavingAccount.withdrawal_times_this_month_
           (snd (B64.SavingAccount.applyWithdraw (Double.of_Z 90) 7 s)) = 1%Z).
Proof.
  intros s.
  assert (Hbal : Double.is_double (B64.SavingAccount.getAccountBalance s))
    by (vm_compute; reflexivity).
  assert (H150 : Double.is_double (Double.of_Z 150)) by (vm_compute; reflexivity).
  assert (H90 : Double.is_double (Double.of_Z 90)) by (vm_compute; reflexivity).
  assert (Hmin : B64.SavingAccount.min_balance_ s = Double.of_Z 500) by reflexivity.
  assert (Hcap : (B64.SavingAccount.withdrawal_times_this_month_ s < 6)%Z) by reflexivity.
  split.
  - apply (saving_minimum_balance_enforced s (Double.of_Z 150) 7%Z Hbal H150 Hmin Hcap).
    vm_compute. reflexivity.
  - destruct (saving_minimum_balance_enforced s (Double.of_Z 90) 7%Z Hbal H90 Hmin Hcap)
      as [_ H].
    destruct H as (H1 & H2 & H3).
    + vm_compute. reflexivity.
    + vm_compute. reflexivity.
    + split; [exact H1 | split; [| exact H3]].
      rewrite H2. vm_compute. reflexivity.
Defined.

(** C3 as worded fails, since the code compares the rounded difference.
    With balance 500.01 and amount 0.01 (the doubles nearest to these
    decimals) the exact difference of the two doubles is below 500, yet
    the code computes 500, accepts the withdrawal and leaves 500.  With
    balance 512.04 and amount 12.04 the decimal difference is 500.00, yet
    the code computes 499.99999999999994 and raises the error. *)
Lemma saving_minimum_balance_rounding :
  let s1 := B64.SavingAccount.restore 2000 (Double.dec 50001 2) "cust" in
  let s2 := B64.SavingAccount.restore 2000 (Double.dec 51204 2) "cust" in
  ((Double.value (Double.dec 50001 2) - Double.value (Double.dec 1 2) < 500)%Q
   /\ fst (B64.SavingAccount.applyWithdraw (Double.dec 1 2) 7 s1) = Return true
   /\ B64.SavingAccount.getAccountBalance
        (snd (B64.SavingAccount.applyWithdraw (Double.dec 1 2) 7 s1)) = Double.of_Z 500)
  /\ ((500 <= (51204 # 100) - (1204 # 100))%Q
      /\ Double.ltb (Double.of_Z 0) (Double.dec 1204 2) = true
      /\ raises InsufficientFunds
           (fst (B64.SavingAccount.applyWithdraw (Double.dec 1204 2) 7 s2))
      /\ snd (B64.SavingAccount.applyWithdraw (Double.dec 1204 2) 7 s2) = s2).
Proof.
  intros s1 s2. split; [split; [| split] | split; [| split; [| split]]].
  - vm_compute. reflexivity.
  - vm_compute. reflexivity.
  - vm_compute. reflexivity.
  - vm_compute. discriminate.
  - vm_compute. reflexivity.
  - eexists. split; vm_compute; reflexivity.
  - vm_compute. reflexivity.
Qed.

(** C4.  On a savings account whose counter has reached six, every
    withdrawal that would otherwise be permitted, that is, which returns
    true once [resetMonthlyWithdrawals] has set the counter to zero,
    raises a LimitExceeded error and changes nothing.  The withdrawals
    permitted are those with sufficient funds that preserve the minimum
    balance 500 (an amount above zero, within the balance, leaving at
    least 500, each as the code evaluates it): such a withdrawal raises
    the error before the reset and succeeds after it, leaving the
    rounded difference as the balance and counting as the first of the
    cycle. *)
Theorem saving_monthly_cap (s : B64.SavingAccount.t) (amount : Double.t) (now : Z)
    (Hcap : (6 <= B64.SavingAccount.withdrawal_times_this_month_ s)%Z) :
  let s0 := B64.SavingAccount.resetMonthlyWithdrawals s in
  B64.SavingAccount.withdrawal_times_this_month_ s0 = 0%Z
  /\ (fst (B64.SavingAccount.applyWithdraw amount now s0) = Return true ->
      raises LimitExceeded (fst (B64.SavingAccount.applyWithdraw amount now s))
      /\ snd (B64.SavingAccount.applyWithdraw amount now s) = s)
  /\ (B64.SavingAccount.min_balance_ s = Double.of_Z 500 ->
      Double.ltb (Double.of_Z 0) amount = true ->
      Double.leb amount (B64.SavingAccount.getAccountBalance s) = true ->
      Double.leb (Double.of_Z 500)
        (Double.sub (B64.SavingAccount.getAccountBalance s) amount) = true ->
      raises LimitExceeded (fst (B64.SavingAccount.applyWithdraw amount now s))
      /\ snd (B64.SavingAccount.applyWithdraw amount now s) = s
      /\ fst (B64.SavingAccount.applyWithdraw amount now s0) = Return true
      /\ B64.SavingAccount.getAccountBalance
           (snd (B64.SavingAccount.applyWithdraw amount now s0))
         = Double.sub (B64.SavingAccount.getAccountBalance s) amount
      /\ B64.SavingAccount.withdrawal_times_this_month_
           (snd (B64.SavingAccount.applyWithdraw amount now s0)) = 1%Z).
Proof.
  intros s0.
  assert (Hcapped :
    Double.ltb (Double.sub (B64.SavingAccount.getAccountBalance s) amount)
      (B64.SavingAccount.min_balance_ s) = false ->
    raises LimitExceeded (fst (B64.SavingAccount.applyWithdraw amount now s))
    /\ snd (B64.SavingAccount.applyWithdraw amount now s) = s).
  { intros Hk. unfold B64.SavingAccount.applyWithdraw. rewrite Hk.
    apply Z.leb_le in Hcap. rewrite Hcap. cbn [fst snd].
    split; [eexists; split; reflexivity | reflexivity]. }
  split; [reflexivity | split].
  - intros Hok. apply Hcapped.
    unfold B64.SavingAccount.applyWithdraw in Hok.
    change (B64.SavingAccount.getAccountBalance s0)
      with (B64.SavingAccount.getAccountBalance s) in Hok.
    change (B64.SavingAccount.min_balance_ s0) with (B64.SavingAccount.min_balance_ s) in Hok.
    now destruct (Double.ltb (Double.sub _ amount) (B64.SavingAccount.min_balance_ s)).
  - intros Hmin Hpos Hfunds Hkeep.
    assert (Hk : Double.ltb (Double.sub (B64.SavingAccount.getAccountBalance s) amount)
                   (B64.SavingAccount.min_balance_ s) = false).
    { rewrite Hmin. now apply Double_leb_ltb. }
    assert (Hf : Double.ltb (B64.SavingAccount.getAccountBalance s) amount = false)
      by now apply Double_leb_ltb.
    destruct (Hcapped Hk) as [Hraise Hsame].
    split; [exact Hraise | split; [exact Hsame |]].
    assert (H3 : (B64.SavingAccount.withdrawal_times_this_month_ s0 < 6)%Z) by (cbn; lia).
    destruct (b64_saving_applyWithdraw_accepted s0 amount now Hpos Hf Hk H3)
      as (s' & -> & Hbal & Hcnt & _).
    cbn [fst snd]. split; [reflexivity |]. split; [exact Hbal |].
    rewrite Hcnt. reflexivity.
Qed.

(** C4 on an account whose counter stands at six, with balance 1000 and a
    withdrawal of 100. *)
Lemma saving_monthly_cap_witness :
  let s := B64.SavingAccount.mk (B64.BankAccount.restore 2000 (Double.of_Z 1000) "cust")
             (Double.of_Z 500) 6 (Double.of_Z 0) in
  raises LimitExceeded (fst (B64.SavingAccount.applyWithdraw (Double.of_Z 100) 7 s))
  /\ snd (B64.SavingAccount.applyWithdraw (Double.of_Z 100) 7 s) = s
  /\ fst (B64.SavingAccount.applyWithdraw (Double.of_Z 100) 7
            (B64.SavingAccount.resetMonthlyWithdrawals s))
     = Return true
  /\ B64.SavingAccount.getAccountBalance
       (snd (B64.SavingAccount.applyWithdraw (Double.of_Z 100) 7
               (B64.SavingAccount.resetMonthlyWithdrawals s)))
     = Double.of_Z 900.
Proof.
  intros s.
  assert (Hcap : (6 <= B64.SavingAccount.withdrawal_times_this_month_ s)%Z)
    by (vm_compute; discriminate).
  assert (Hmin : B64.SavingAccount.min_balance_ s = Double.of_Z 500) by reflexivity.
  assert (Hpos : Double.ltb (Double.of_Z 0) (Double.of_Z 100) = true)
    by (vm_compute; reflexivity).
  assert (Hfunds : Double.leb (Double.of_Z 100) (B64.SavingAccount.getAccountBalance s) = true)
    by (vm_compute; reflexivity).
  assert (Hkeep : Double.leb (Double.of_Z 500)
                    (Double.sub (B64.SavingAccount.getAccountBalance s) (Double.of_Z 100))
                  = true)
    by (vm_compute; reflexivity).
  destruct (saving_monthly_cap s (Double.of_Z 100) 7%Z Hcap) as (_ & _ & H).
  destruct (H Hmin Hpos Hfunds Hkeep) as (H1 & H2 & H3 & H4 & _).
  split; [exact H1 | split; [exact H2 | split; [exact H3 |]]].
  rewrite H4. vm_compute. reflexivity.
Defined.

(** ** CheckingAccount: overdraft and overdraft protection *)

Lemma b64_applyWithdraw_unfold
    (fuel : nat) (this : addr) (amount : Double.t) (now : Z) (h : B64.heap) :
  B64.applyWithdraw (S fuel) this amount now h
  = match h !! this with
    | Some (B64.Checking c) =>
        B64.CheckingAccount_applyWithdraw (B64.applyWithdraw fuel) this c amount now h
    | Some (B64.Saving s) =>
        let (r, s') := B64.SavingAccount.applyWithdraw amount now s in
        B64.Done r (<[this := B64.Saving s']> h)
    | None => B64.Undefined
    end.
Proof. reflexivity. Qed.

Lemma b64_settle_appended (newBalance amount : Double.t) (now : Z) (c : B64.CheckingAccount.t) :
  B64.appended_one Transaction.WITHDRAWAL amount (B64.CheckingAccount.base c)
    (B64.CheckingAccount.base (B64.CheckingAccount.settle newBalance amount now c)).
Proof. eexists. cbn. repeat split. Qed.

Lemma b64_checking_withdraw_within_available
    (fuel : nat) (h : B64.heap) (p : addr) (c : B64.CheckingAccount.t)
    (amount : Double.t) (now : Z) :
  h !! p = Some (B64.Checking c) ->
  Double.ltb (Double.of_Z 0) amount = true ->
  Double.leb amount
    (Double.add (B64.CheckingAccount.getAccountBalance c)
       (B64.CheckingAccount.overdraft_limit_ c)) = true ->
  B64.applyWithdraw (S fuel) p amount now h
  = B64.Done (Return true)
      (<[p := B64.Checking
           (B64.CheckingAccount.settle
              (Double.sub (B64.CheckingAccount.getAccountBalance c) amount) amount now c)]> h).
Proof.
  intros Hp Hpos Hle. rewrite b64_applyWithdraw_unfold, Hp.
  unfold B64.CheckingAccount_applyWithdraw.
  now rewrite (Double_ltb_leb _ _ Hpos), (Double_leb_ltb _ _ Hle).
Qed.

Lemma b64_checking_withdraw_unprotected
    (fuel : nat) (h : B64.heap) (p : addr) (c : B64.CheckingAccount.t)
    (amount : Double.t) (now : Z) :
  h !! p = Some (B64.Checking c) ->
  Double.ltb
    (Double.add (B64.CheckingAccount.getAccountBalance c)
       (B64.CheckingAccount.overdraft_limit_ c)) amount = true ->
  B64.CheckingAccount.has_overdraft_protection_ c = false ->
  B64.applyWithdraw (S fuel) p amount now h = B64.Done (Return false) h.
Proof.
  intros Hp Hgt Hprot. rewrite b64_applyWithdraw_unfold, Hp.
  unfold B64.CheckingAccount_applyWithdraw.
  rewrite Hgt, Hprot.
  now destruct (Double.leb amount (Double.of_Z 0)).
Qed.

(** A backup account whose own rules admit an amount pays it in one call
    and from its own balance. *)
Lemma b64_backup_pays
    (fuel : nat) (h : B64.heap) (b : addr) (ab : B64.Account) (needed : Double.t) (now : Z) :
  h !! b = Some ab ->
  B64.can_cover ab needed ->
  exists ab',
    B64.applyWithdraw (S fuel) b needed now h = B64.Done (Return true) (<[b := ab']> h)
    /\ B64.balance_of ab' = Double.sub (B64.balance_of ab) needed.
Proof.
  intros Hb [Hpos Hcover]. destruct ab as [cb | sb].
  - rewrite (b64_checking_withdraw_within_available fuel h b cb needed now Hb Hpos Hcover).
    eexists. split; reflexivity.
  - destruct Hcover as (Hfunds & Hmin & Hcap).
    rewrite b64_applyWithdraw_unfold, Hb.
    destruct (b64_saving_applyWithdraw_accepted sb needed now Hpos
                (Double_leb_ltb _ _ Hfunds) (Double_leb_ltb _ _ Hmin) Hcap)
      as (s' & -> & Hbal & _).
    eexists. split; [reflexivity | exact Hbal].
Qed.

Lemma b64_checking_withdraw_protected
    (fuel : nat) (h : B64.heap) (p b : addr) (c : B64.CheckingAccount.t) (ab : B64.Account)
    (amount : Double.t) (now : Z) :
  let available :=
    Double.add (B64.CheckingAccount.getAccountBalance c)
      (B64.CheckingAccount.overdraft_limit_ c) in
  h !! p = Some (B64.Checking c) ->
  Double.ltb available amount = true ->
  B64.CheckingAccount.has_overdraft_protection_ c = true ->
  B64.CheckingAccount.overdraft_backup_account_ c = Some b ->
  b <> p ->
  h !! b = Some ab ->
  Double.ltb (Double.of_Z 0) amount = true ->
  B64.can_cover ab (Double.sub amount available) ->
  exists ab',
    B64.applyWithdraw (S (S fuel)) p amount now h
    = B64.Done (Return true)
        (<[p := B64.Checking
             (B64.CheckingAccount.settle
                (Double.opp (B64.CheckingAccount.overdraft_limit_ c)) amount now c)]>
           (<[b := ab']> h))
    /\ B64.balance_of ab' = Double.sub (B64.balance_of ab) (Double.sub amount available).
Proof.
  intros available Hp Hgt Hprot Hback Hne Hb Hpos Hcover.
  destruct (b64_backup_pays fuel h b ab _ now Hb Hcover) as (ab' & Hcall & Hbal).
  exists ab'. split; [| exact Hbal].
  rewrite b64_applyWithdraw_unfold, Hp.
  unfold B64.CheckingAccount_applyWithdraw. fold available.
  rewrite (Double_ltb_leb _ _ Hpos), Hgt, Hprot, Hback. cbn [negb B64.lock].
  rewrite Hb, Hcall.
  rewrite lookup_insert_ne by exact Hne. rewrite Hp. reflexivity.
Qed.

(** C1, as the code has it.  Balance, overdraft limit and amount are
    binary64 numbers, [available] is the rounded sum
    [balance + overdraftLimit] and the differences are the rounded ones,
    as the code computes them.  For a checking account [c] stored at [p]:
    - a withdrawal with [0 < amount <= available] succeeds and leaves
      the rounded difference [balance - amount] as the balance;
    - a withdrawal with [amount > available] and overdraft protection
      disabled fails and leaves the store unchanged;
    - a withdrawal of an amount above zero with [amount > available],
      protection enabled and a backup account, another object of the
      store, whose own withdrawal rules admit the shortfall
      [amount - available], succeeds, takes the shortfall from the
      backup's balance, sets this balance to exactly [- overdraftLimit]
      and records one WITHDRAWAL transaction for the full [amount].
    In the first and the third case the account is left as the shared
    tail of the function leaves it ([settle]): the new balance, one more
    WITHDRAWAL record, one more counted transaction, the low-balance flag
    recomputed.  The results hold for every call depth that allows the
    calls made: one for the first two cases, two for the third. *)
Theorem checking_overdraft_arithmetic
    (h : B64.heap) (p : addr) (c : B64.CheckingAccount.t) (amount : Double.t) (now : Z)
    (fuel : nat)
    (Hp : h !! p = Some (B64.Checking c)) :
  let available :=
    Double.add (B64.CheckingAccount.getAccountBalance c)
      (B64.CheckingAccount.overdraft_limit_ c) in
  let paid :=
    B64.CheckingAccount.settle
      (Double.sub (B64.CheckingAccount.getAccountBalance c) amount) amount now c in
  let pinned :=
    B64.CheckingAccount.settle
      (Double.opp (B64.CheckingAccount.overdraft_limit_ c)) amount now c in
  (Double.ltb (Double.of_Z 0) amount = true ->
   Double.leb amount available = true ->
   B64.applyWithdraw (S fuel) p amount now h
   = B64.Done (Return true) (<[p := B64.Checking paid]> h)
   /\ B64.CheckingAccount.getAccountBalance paid
      = Double.sub (B64.CheckingAccount.getAccountBalance c) amount
   /\ B64.appended_one Transaction.WITHDRAWAL amount
        (B64.CheckingAccount.base c) (B64.CheckingAccount.base paid))
  /\ (Double.ltb available amount = true ->
      B64.CheckingAccount.has_overdraft_protection_ c = false ->
      B64.applyWithdraw (S fuel) p amount now h = B64.Done (Return false) h)
  /\ (forall (b : addr) (ab : B64.Account),
        Double.ltb available amount = true ->
        Double.ltb (Double.of_Z 0) amount = true ->
        B64.CheckingAccount.has_overdraft_protection_ c = true ->
        B64.CheckingAccount.overdraft_backup_account_ c = Some b ->
        b <> p ->
        h !! b = Some ab ->
        B64.can_cover ab (Double.sub amount available) ->
        exists ab',
          B64.applyWithdraw (S (S fuel)) p amount now h
          = B64.Done (Return true) (<[p := B64.Checking pinned]> (<[b := ab']> h))
          /\ B64.balance_of ab'
             = Double.sub (B64.balance_of ab) (Double.sub amount available)
          /\ B64.CheckingAccount.getAccountBalance pinned
             = Double.opp (B64.CheckingAccount.overdraft_limit_ c)
          /\ B64.appended_one Transaction.WITHDRAWAL amount
               (B64.CheckingAccount.base c) (B64.CheckingAccount.base pinned)).
Proof.
  intros available paid pinned. split; [| split].
  - intros Hpos Hle. split; [| split].
    + exact (b64_checking_withdraw_within_available fuel h p c amount now Hp Hpos Hle).
    + reflexivity.
    + apply b64_settle_appended.
  - intros Hgt Hprot.
    exact (b64_checking_withdraw_unprotected fuel h p c amount now Hp Hgt Hprot).
  - intros b ab Hgt Hpos Hprot Hback Hne Hb Hcover.
    destruct (b64_checking_withdraw_protected fuel h p b c ab amount now
                Hp Hgt Hprot Hback Hne Hb Hpos Hcover) as (ab' & Hcall & Hbal).
    exists ab'. split; [exact Hcall | split; [exact Hbal | split]].
    + reflexivity.
    + apply b64_settle_appended.
Qed.

(** C1 on the account of the specification: balance 100 and overdraft
    limit 50.  Withdrawing 150 leaves -50; 150.01 is refused without
    protection; with a savings backup holding 1000, withdrawing 200 pins
    the account to -50 and takes 50 from the backup. *)
Lemma checking_overdraft_arithmetic_witness :
  let c := B64.CheckingAccount.create 1001 (Double.of_Z 50) (Double.of_Z 10)
             (Double.of_Z 1500) (Double.of_Z 500) (Double.of_Z 100) in
  let cp := B64.CheckingAccount.linkOverdraftProtection (Some 2%nat) c in
  let sb := B64.Saving (B64.SavingAccount.restore 2002 (Double.of_Z 1000) "cust") in
  let h : B64.heap := <[1%nat := B64.Checking c]> (<[2%nat := sb]> ∅) in
  let hp : B64.heap := <[1%nat := B64.Checking cp]> (<[2%nat := sb]> ∅) in
  (exists c',
     B64.applyWithdraw 1 1 (Double.of_Z 150) 7 h
     = B64.Done (Return true) (<[1%nat := B64.Checking c']> h)
     /\ B64.CheckingAccount.getAccountBalance c' = Double.of_Z (-50))
  /\ B64.applyWithdraw 1 1 (Double.dec 15001 2) 7 h = B64.Done (Return false) h
  /\ (exists c' ab',
        B64.applyWithdraw 2 1 (Double.of_Z 200) 7 hp
        = B64.Done (Return true) (<[1%nat := B64.Checking c']> (<[2%nat := ab']> hp))
        /\ B64.CheckingAccount.getAccountBalance c' = Double.of_Z (-50)
        /\ B64.balance_of ab' = Double.of_Z 950).
Proof.
  intros c cp sb h hp.
  assert (Hp : h !! 1%nat = Some (B64.Checking c)) by reflexivity.
  assert (Hpp : hp !! 1%nat = Some (B64.Checking cp)) by reflexivity.
  split; [| split].
  - destruct (checking_overdraft_arithmetic h 1%nat c (Double.of_Z 150) 7%Z 0%nat Hp)
      as (H & _ & _).
    destruct H as (Hcall & Hbal & _);
      [vm_compute; reflexivity | vm_compute; reflexivity |].
    eexists. split; [exact Hcall |]. rewrite Hbal. vm_compute. reflexivity.
  - destruct (checking_overdraft_arithmetic h 1%nat c (Double.dec 15001 2) 7%Z 0%nat Hp)
      as (_ & H & _).
    apply H; vm_compute; reflexivity.
  - destruct (checking_overdraft_arithmetic hp 1%nat cp (Double.of_Z 200) 7%Z 0%nat Hpp)
      as (_ & _ & H).
    destruct (H 2%nat sb) as (ab' & Hcall & Hbackup & Hbal & _).
    + vm_compute. reflexivity.
    + vm_compute. reflexivity.
    + reflexivity.
    + reflexivity.
    + discriminate.
    + reflexivity.
    + split; [vm_compute; reflexivity |]. cbn.
      split; [| split]; vm_compute; reflexivity || discriminate.
    + eexists. exists ab'. split; [exact Hcall |]. rewrite Hbackup, Hbal.
      split; vm_compute; reflexivity.
Defined.

(** C1 as worded fails at five inputs.
    - Balance 12.07, overdraft limit 500, amount 512.07 (the doubles
      nearest to these decimals), protection disabled: the amount
      exceeds the exact sum of balance and limit, but not the rounded
      sum; the withdrawal is paid and leaves the balance below minus the
      limit.
    - Balance 64.07, limit 500, amount 564.07: the decimal sum of balance
      and limit is the amount, yet the rounded sum is less and the
      withdrawal is refused.
    - Balance 100, limit 50, amount 200, protection enabled with a
      savings backup that holds 520: the backup holds the shortfall of
      50, but its own minimum balance of 500 forbids the withdrawal, and
      the call ends with the backup's exception.
    - The same account linked as its own backup: the withdrawal of 200
      succeeds, the account pays the shortfall of 50 itself, which leaves
      50, and is then pinned, so that the backup ends at -50 and not 50
      lower than it was, with two WITHDRAWAL records.
    - Balance -100, limit 50, amount -10, protection enabled with a
      savings backup that holds 1000: the amount exceeds balance plus
      limit and the backup could pay the shortfall of 40, yet the call
      returns false. *)
Lemma checking_overdraft_as_worded :
  let account := fun balance limit =>
    B64.CheckingAccount.create 1001 limit (Double.of_Z 10) (Double.of_Z 1500)
      (Double.of_Z 500) balance in
  let saving := fun balance =>
    B64.Saving (B64.SavingAccount.restore 2002 balance "cust") in
  let c1 := account (Double.dec 1207 2) (Double.of_Z 500) in
  let h1 : B64.heap := <[1%nat := B64.Checking c1]> ∅ in
  let c2 := account (Double.dec 6407 2) (Double.of_Z 500) in
  let h2 : B64.heap := <[1%nat := B64.Checking c2]> ∅ in
  let c3 := B64.CheckingAccount.linkOverdraftProtection (Some 2%nat)
              (account (Double.of_Z 100) (Double.of_Z 50)) in
  let h3 : B64.heap := <[1%nat := B64.Checking c3]> (<[2%nat := saving (Double.of_Z 520)]> ∅) in
  let c4 := B64.CheckingAccount.linkOverdraftProtection (Some 1%nat)
              (account (Double.of_Z 100) (Double.of_Z 50)) in
  let h4 : B64.heap := <[1%nat := B64.Checking c4]> ∅ in
  let c5 := B64.CheckingAccount.linkOverdraftProtection (Some 2%nat)
              (account (Double.of_Z (-100)) (Double.of_Z 50)) in
  let h5 : B64.heap :=
    <[1%nat := B64.Checking c5]> (<[2%nat := saving (Double.of_Z 1000)]> ∅) in
  ((Double.value (Double.dec 1207 2) + Double.value (Double.of_Z 500)
    < Double.value (Double.dec 51207 2))%Q
   /\ B64.CheckingAccount.has_overdraft_protection_ c1 = false
   /\ B64.applyWithdraw 1 1 (Double.dec 51207 2) 7 h1
      = B64.Done (Return true)
          (<[1%nat := B64.Checking
               (B64.CheckingAccount.settle (S754_finite true 8796093022208001 (-44))
                  (Double.dec 51207 2) 7 c1)]> h1)
   /\ Double.ltb (S754_finite true 8796093022208001 (-44)) (Double.opp (Double.of_Z 500))
      = true)
  /\ (((6407 # 100) + 500 == (56407 # 100))%Q
      /\ B64.applyWithdraw 1 1 (Double.dec 56407 2) 7 h2 = B64.Done (Return false) h2)
  /\ (Double.leb (Double.of_Z 50) (Double.of_Z 520) = true
      /\ B64.applyWithdraw 2 1 (Double.of_Z 200) 7 h3
         = B64.Done
             (Throw (runtime_error "Withdrawal violates minimum balance requirements")) h3)
  /\ (B64.applyWithdraw 2 1 (Double.of_Z 200) 7 h4
      = B64.Done (Return true)
          (<[1%nat := B64.Checking
               (B64.CheckingAccount.settle (Double.of_Z (-50)) (Double.of_Z 200) 7
                  (B64.CheckingAccount.settle (Double.of_Z 50) (Double.of_Z 50) 7 c4))]> h4)
      /\ Double.sub (Double.of_Z 200) (Double.add (Double.of_Z 100) (Double.of_Z 50))
         = Double.of_Z 50)
  /\ (Double.ltb (Double.add (Double.of_Z (-100)) (Double.of_Z 50)) (Double.of_Z (-10))
      = true
      /\ Double.sub (Double.of_Z (-10)) (Double.add (Double.of_Z (-100)) (Double.of_Z 50))
         = Double.of_Z 40
      /\ B64.applyWithdraw 2 1 (Double.of_Z (-10)) 7 h5 = B64.Done (Return false) h5).
Proof.
  intros account saving c1 h1 c2 h2 c3 h3 c4 h4 c5 h5.
  split; [| split; [| split; [| split]]].
  - split; [vm_compute; reflexivity |]. split; [reflexivity |].
    split; vm_compute; reflexivity.
  - split; vm_compute; reflexivity.
  - split; vm_compute; reflexivity.
  - split; vm_compute; reflexivity.
  - split; [vm_compute; reflexivity |]. split; vm_compute; reflexivity.
Qed.

(** ** The withdrawals in exact arithmetic *)

Lemma applyWithdraw_unfold (fuel : nat) (this : addr) (amount : Q) (now : Z) (h : heap) :
  applyWithdraw (S fuel) this amount now h
  = match h !! this with
    | Some (Checking c) =>
        CheckingAccount_applyWithdraw (applyWithdraw fuel) this c amount now h
    | Some (Saving s) =>
        let (r, s') := SavingAccount.applyWithdraw amount now s in
        Done r (<[this := Saving s']> h)
    | None => Undefined
    end.
Proof. reflexivity. Qed.



Lemma processPayment_card_unchanged
    (fuel : nat) (amount : Q) (now : Z) (d : DebitCard.t) (h : heap) :
  fst (DebitCard.processPayment fuel amount now d h) = d.
Proof.
  unfold DebitCard.processPayment.
  destruct (negb (DebitCard.isActivated d)); [reflexivity |].
  destruct (lock _ h) as [p |]; [| reflexivity].
  destruct (h !! p) as [[a | s] |]; try reflexivity.
  now destruct (Qltb _ amount).
Qed.

(** ** The daily withdrawal limit does not influence withdrawals *)











(** ** DebitCard: PIN lockout *)

Section PinLockout.

Variable hashPin : string -> string -> string.

Local Open Scope Z_scope.

Lemma verifyPin_locked (attempt : string) (d : DebitCard.t) :
  3 <= DebitCard.failed_attempts_ d ->
  DebitCard.verifyPin hashPin attempt d = (false, d).
Proof.
  intros H. unfold DebitCard.verifyPin.
  apply Z.leb_le in H. now rewrite H.
Qed.

Lemma verifyPin_wrong (attempt : string) (d : DebitCard.t) :
  DebitCard.failed_attempts_ d < 3 ->
  wrong_pin hashPin d attempt ->
  let d' := snd (DebitCard.verifyPin hashPin attempt d) in
  fst (DebitCard.verifyPin hashPin attempt d) = false
  /\ DebitCard.failed_attempts_ d' = DebitCard.failed_attempts_ d + 1
  /\ DebitCard.salt_ d' = DebitCard.salt_ d
  /\ DebitCard.pin_hash_ d' = DebitCard.pin_hash_ d
  /\ (3 <= DebitCard.failed_attempts_ d + 1 -> DebitCard.isActivated d' = false)
  /\ (DebitCard.isActivated d = false -> DebitCard.isActivated d' = false).
Proof.
  intros Hlt Hwrong. unfold DebitCard.verifyPin.
  apply Z.leb_gt in Hlt. rewrite Hlt.
  apply String.eqb_neq in Hwrong. rewrite Hwrong. cbn [negb fst snd].
  cbn [DebitCard.with_failed_attempts DebitCard.failed_attempts_].
  destruct (3 <=? DebitCard.failed_attempts_ d + 1) eqn:E; cbn.
  - repeat split; trivial.
  - apply Z.leb_gt in E. repeat split; trivial. lia.
Qed.

(** A wrong attempt on a card whose lock implies deactivation: the call
    returns false, the counter does not decrease and stays non-negative,
    salt and hash stay, and the lock still implies deactivation. *)
Lemma verifyPin_wrong_progress (attempt : string) (d : DebitCard.t) :
  0 <= DebitCard.failed_attempts_ d ->
  (3 <= DebitCard.failed_attempts_ d -> DebitCard.isActivated d = false) ->
  wrong_pin hashPin d attempt ->
  let d' := snd (DebitCard.verifyPin hashPin attempt d) in
  fst (DebitCard.verifyPin hashPin attempt d) = false
  /\ Z.min 3 (DebitCard.failed_attempts_ d + 1) <= DebitCard.failed_attempts_ d'
  /\ DebitCard.salt_ d' = DebitCard.salt_ d
  /\ DebitCard.pin_hash_ d' = DebitCard.pin_hash_ d
  /\ (3 <= DebitCard.failed_attempts_ d' -> DebitCard.isActivated d' = false).
Proof.
  intros Hnonneg Hinv Hwrong.
  destruct (Z_lt_le_dec (DebitCard.failed_attempts_ d) 3) as [Hlt | Hge].
  - destruct (verifyPin_wrong attempt d Hlt Hwrong) as (H1 & H2 & H3 & H4 & H5 & _).
    cbn zeta. rewrite H2. repeat split; trivial. lia.
  - rewrite (verifyPin_locked attempt d Hge). cbn. repeat split; trivial; lia.
Qed.

Lemma card_step_keeps_lock (st : DebitCard.t * world) (o : card_op) :
  3 <= DebitCard.failed_attempts_ (fst st) ->
  3 <= DebitCard.failed_attempts_ (fst (card_step hashPin st o)).
Proof.
  destruct st as [d w]. cbn [fst]. intros Hlock.
  destruct o; cbn [card_step fst]; trivial.
  - now rewrite verifyPin_locked.
  - unfold DebitCard.setPin.
    destruct (_ || _); [exact Hlock |].
    unfold bind, RAND_bytes.
    destruct (16 <=? length (entropy w))%nat; exact Hlock.
  - unfold DebitCard.changePin. rewrite verifyPin_locked by exact Hlock.
    exact Hlock.
  - now rewrite processPayment_card_unchanged.
Qed.

Lemma card_run_keeps_lock (ops : list card_op) :
  forall st : DebitCard.t * world,
    3 <= DebitCard.failed_attempts_ (fst st) ->
    3 <= DebitCard.failed_attempts_ (fst (card_run hashPin st ops)).
Proof.
  induction ops as [| o ops IH]; intros st Hlock; [exact Hlock |].
  cbn. apply IH. now apply card_step_keeps_lock.
Qed.

End PinLockout.

(** C5, as the code has it.  Take a debit card whose counter is
    non-negative and which, if its counter has reached 3, is deactivated:
    a card that has not been re-activated since it was locked.  After
    three consecutive [verifyPin] calls with wrong PINs, each of which
    returns false, the card is deactivated; [verifyPin] then returns false
    for every PIN, the right one included, and keeps doing so after any
    sequence of operations on the card. *)
Theorem debit_card_pin_lockout
    (hashPin : string -> string -> string) (d : DebitCard.t) (a1 a2 a3 : string)
    (Hnonneg : (0 <= DebitCard.failed_attempts_ d)%Z)
    (Hinv : (3 <= DebitCard.failed_attempts_ d)%Z -> DebitCard.isActivated d = false)
    (H1 : wrong_pin hashPin d a1)
    (H2 : wrong_pin hashPin d a2)
    (H3 : wrong_pin hashPin d a3) :
  let d1 := snd (DebitCard.verifyPin hashPin a1 d) in
  let d2 := snd (DebitCard.verifyPin hashPin a2 d1) in
  let d3 := snd (DebitCard.verifyPin hashPin a3 d2) in
  fst (DebitCard.verifyPin hashPin a1 d) = false
  /\ fst (DebitCard.verifyPin hashPin a2 d1) = false
  /\ fst (DebitCard.verifyPin hashPin a3 d2) = false
  /\ DebitCard.isActivated d3 = false
  /\ (forall pin : string, fst (DebitCard.verifyPin hashPin pin d3) = false)
  /\ (forall (ops : list card_op) (w : world) (pin : string),
        fst (DebitCard.verifyPin hashPin pin (fst (card_run hashPin (d3, w) ops))) = false).
Proof.
  intros d1 d2 d3.
  destruct (verifyPin_wrong_progress hashPin a1 d Hnonneg Hinv H1)
    as (R1 & C1 & S1 & P1 & I1). fold d1 in C1, S1, P1, I1.
  assert (W2 : wrong_pin hashPin d1 a2) by (unfold wrong_pin; now rewrite S1, P1).
  assert (N1 : (0 <= DebitCard.failed_attempts_ d1)%Z) by lia.
  destruct (verifyPin_wrong_progress hashPin a2 d1 N1 I1 W2)
    as (R2 & C2 & S2 & P2 & I2). fold d2 in C2, S2, P2, I2.
  assert (W3 : wrong_pin hashPin d2 a3) by (unfold wrong_pin; now rewrite S2, P2, S1, P1).
  assert (N2 : (0 <= DebitCard.failed_attempts_ d2)%Z) by lia.
  destruct (verifyPin_wrong_progress hashPin a3 d2 N2 I2 W3)
    as (R3 & C3 & S3 & P3 & I3). fold d3 in C3, S3, P3, I3.
  assert (Hlock : (3 <= DebitCard.failed_attempts_ d3)%Z) by lia.
  split; [exact R1 | split; [exact R2 | split; [exact R3 | split; [auto | split]]]].
  - intros pin. now rewrite verifyPin_locked.
  - intros ops w pin. rewrite verifyPin_locked; [reflexivity |].
    now apply card_run_keeps_lock.
Qed.

(** C5 on a card with PIN 1234 (the digest function is instantiated by
    concatenation): three wrong attempts, then the right PIN is refused,
    also after the card is re-activated and the PIN is set again. *)
Lemma debit_card_pin_lockout_witness :
  let hashPin := fun pin salt : string => (salt ++ pin)%string in
  let d := DebitCard.mk (Card.mk "4000000000000000" "01/29" "000" true false)
             "s" (hashPin "1234" "s") 500 0 true 0 (Some 1%nat) "" in
  let d3 := snd (DebitCard.verifyPin hashPin "2222"
                   (snd (DebitCard.verifyPin hashPin "1111"
                           (snd (DebitCard.verifyPin hashPin "0000" d))))) in
  let w := mkWorld (repeat Byte.x00 16) ∅ in
  DebitCard.isActivated d3 = false
  /\ fst (DebitCard.verifyPin hashPin "1234" d3) = false
  /\ fst (DebitCard.verifyPin hashPin "1234"
            (fst (card_run hashPin (d3, w) [OpSetActivated true; OpSetPin "1234"]))) = false.
Proof.
  intros hashPin d d3 w.
  assert (Hnonneg : (0 <= DebitCard.failed_attempts_ d)%Z) by (vm_compute; discriminate).
  assert (Hinv : (3 <= DebitCard.failed_attempts_ d)%Z -> DebitCard.isActivated d = false)
    by (intros H; vm_compute in H; now contradiction H).
  assert (H1 : wrong_pin hashPin d "0000") by (vm_compute; discriminate).
  assert (H2 : wrong_pin hashPin d "1111") by (vm_compute; discriminate).
  assert (H3 : wrong_pin hashPin d "2222") by (vm_compute; discriminate).
  destruct (debit_card_pin_lockout hashPin d "0000" "1111" "2222" Hnonneg Hinv H1 H2 H3)
    as (_ & _ & _ & Hoff & Hfourth & Hlater).
  split; [exact Hoff | split; [apply Hfourth | apply Hlater]].
Defined.

(** C5 as worded fails on a locked card that has been re-activated.  A
    card with PIN 1234 is locked by three wrong attempts, which
    deactivate it, and is re-activated through [setActivated(true)].
    Three further consecutive attempts with wrong PINs each return false
    and leave the card activated: once the counter is 3, [verifyPin]
    returns before it touches the flag.  The right PIN is refused as
    well. *)
Lemma debit_card_pin_lockout_reactivated :
  let hashPin := fun pin salt : string => (salt ++ pin)%string in
  let wrong3 := fun d : DebitCard.t =>
    snd (DebitCard.verifyPin hashPin "2222"
           (snd (DebitCard.verifyPin hashPin "1111"
                   (snd (DebitCard.verifyPin hashPin "0000" d))))) in
  let d0 := DebitCard.mk (Card.mk "4000000000000000" "01/29" "000" true false)
              "s" (hashPin "1234" "s") 500 0 true 0 (Some 1%nat) "" in
  let d := DebitCard.setActivated true (wrong3 d0) in
  DebitCard.isActivated (wrong3 d0) = false
  /\ DebitCard.failed_attempts_ d = 3%Z
  /\ wrong_pin hashPin d "0000" /\ wrong_pin hashPin d "1111" /\ wrong_pin hashPin d "2222"
  /\ DebitCard.verifyPin hashPin "0000" d = (false, d)
  /\ DebitCard.verifyPin hashPin "1111" d = (false, d)
  /\ DebitCard.verifyPin hashPin "2222" d = (false, d)
  /\ DebitCard.isActivated (wrong3 d) = true
  /\ fst (DebitCard.verifyPin hashPin "1234" (wrong3 d)) = false.
Proof.
  intros hashPin wrong3 d0 d.
  repeat split; try reflexivity; vm_compute; discriminate.
Qed.

(** ** Card: validation *)

Lemma empty_spec (s : string) : Card.empty s = true <-> s = ""%string.
Proof. unfold Card.empty. apply String.eqb_eq. Qed.

(** What [Card::validate] tests: the three fields are non-empty and differ
    from the placeholders of the default constructor. *)
Lemma card_validate_spec (c : Card.t) :
  Card.validate c = true
  <-> (Card.card_number_ c <> "" /\ Card.card_number_ c <> "NONE")%string
      /\ (Card.expiration_ c <> "" /\ Card.expiration_ c <> "NONE")%string
      /\ (Card.cvv_ c <> "" /\ Card.cvv_ c <> "None")%string.
Proof.
  unfold Card.validate, Card.empty.
  destruct (String.eqb_spec (Card.card_number_ c) "") as [-> | N1]; cbn [orb].
  { split; [discriminate | intros ((H & _) & _); now contradiction H]. }
  destruct (String.eqb_spec (Card.card_number_ c) "NONE") as [E | N2].
  { split; [discriminate | intros ((_ & H) & _); now contradiction H]. }
  destruct (String.eqb_spec (Card.expiration_ c) "") as [E | N3]; cbn [orb].
  { split; [discriminate | intros (_ & (H & _) & _); now contradiction H]. }
  destruct (String.eqb_spec (Card.expiration_ c) "NONE") as [E | N4].
  { split; [discriminate | intros (_ & (_ & H) & _); now contradiction H]. }
  destruct (String.eqb_spec (Card.cvv_ c) "") as [E | N5]; cbn [orb].
  { split; [discriminate | intros (_ & _ & (H & _)); now contradiction H]. }
  destruct (String.eqb_spec (Card.cvv_ c) "None") as [E | N6].
  { split; [discriminate | intros (_ & _ & (_ & H)); now contradiction H]. }
  split; [intros _; auto | reflexivity].
Qed.

(** C8.  [Card::validate] at the inputs on which it departs from its
    documentation ("not empty and not placeholder values").  A card with
    a card number and an expiration date whose CVV is the placeholder
    "000" of [Card(bool, bool)] validates; every [DebitCard] leaves its
    constructor with this CVV, and validates.  A card whose expiration
    was forced to "00/00" by [markExpired()] validates as well. *)
Theorem card_validate_accepts_sentinels :
  let hashPin := fun pin salt : string => (salt ++ pin)%string in
  let w := mkWorld (repeat Byte.x00 32) ∅ in
  let c := Card.mk "4000000000000000" "01/29" "123" true false in
  let k := Card.mk "4000000000000000" "01/29" "000" true false in
  (Card.cvv_ k = "000"%string /\ Card.validate k = true)
  /\ (exists (d : DebitCard.t) (w' : world),
        DebitCard.create hashPin 2026 true (Some 1%nat) 500 "1234" w = (Return d, w')
        /\ Card.cvv_ (DebitCard.card d) = "000"%string
        /\ Card.validate (DebitCard.card d) = true)
  /\ (Card.expiration_ (Card.markExpired c) = "00/00"%string
      /\ Card.validate (Card.markExpired c) = true).
Proof.
  intros hashPin w c k. split; [| split].
  - split; reflexivity.
  - eexists. eexists. split; [vm_compute; reflexivity |].
    split; vm_compute; reflexivity.
  - split; reflexivity.
Qed.

(** ** Strings as character lists *)

Lemma chars_app (s1 s2 : string) : chars (s1 ++ s2)%string = chars s1 ++ chars s2.
Proof.
  unfold chars. induction s1 as [| c s1 IH]; [reflexivity |].
  change (c :: list_ascii_of_string (s1 ++ s2)%string
          = c :: (list_ascii_of_string s1 ++ list_ascii_of_string s2)).
  now rewrite IH.
Qed.

Lemma length_chars (s : string) : length (chars s) = String.length s.
Proof.
  unfold chars. induction s as [| c s IH]; cbn; [reflexivity | now rewrite IH].
Qed.

Lemma chars_string_of_chars (l : list ascii) : chars (string_of_chars l) = l.
Proof. apply list_ascii_of_string_of_list_ascii. Qed.

Lemma string_of_chars_chars (s : string) : string_of_chars (chars s) = s.
Proof. apply string_of_list_ascii_of_string. Qed.

Lemma string_length_app (s1 s2 : string) :
  String.length (s1 ++ s2)%string = (String.length s1 + String.length s2)%nat.
Proof. now rewrite <- !length_chars, chars_app, length_app. Qed.

Lemma all_but_last_snoc (s : string) (c : ascii) :
  CardGenerator.all_but_last (s ++ String c EmptyString)%string = s.
Proof.
  unfold CardGenerator.all_but_last. rewrite chars_app. cbn [chars list_ascii_of_string].
  rewrite removelast_last. apply string_of_chars_chars.
Qed.

Lemma back_snoc (s : string) (c : ascii) :
  CardGenerator.back (s ++ String c EmptyString)%string = c.
Proof.
  unfold CardGenerator.back. rewrite chars_app. cbn [chars list_ascii_of_string].
  apply last_last.
Qed.

(** ** CardGenerator: what holds of every generated number *)

Section Generator.

Local Open Scope Z_scope.

Lemma isdigit_int_to_char (z : Z) : 48 <= z <= 57 -> isdigit (int_to_char z) = true.
Proof.
  intros H.
  assert (E : z = 48 \/ z = 49 \/ z = 50 \/ z = 51 \/ z = 52 \/ z = 53 \/ z = 54
              \/ z = 55 \/ z = 56 \/ z = 57) by lia.
  repeat (destruct E as [-> | E]; [reflexivity |]). now subst.
Qed.

Lemma isdigit_digit_of_byte (b : Byte.byte) : isdigit (digit_of_byte b) = true.
Proof.
  unfold digit_of_byte. apply isdigit_int_to_char.
  assert (H : 0 <= Z.of_N (Byte.to_N b)) by lia.
  pose proof (Z.rem_bound_pos (Z.of_N (Byte.to_N b)) 10 H ltac:(lia)). lia.
Qed.

Lemma isdigit_value (c : ascii) : isdigit c = true -> 0 <= char_to_int c - 48 <= 9.
Proof.
  unfold isdigit, char_to_int. intros H.
  apply andb_true_iff in H as [H1 H2].
  apply Z.leb_le in H1, H2.
  destruct (Z.ltb_spec (Z.of_N (N_of_ascii c)) 128); lia.
Qed.

Lemma luhn_step_nonneg (st : Z * bool) (c : ascii) :
  isdigit c = true -> 0 <= fst st -> 0 <= fst (CardGenerator.luhn_step st c).
Proof.
  intros Hd Hs. destruct st as [sum alternate]. cbn [fst] in Hs.
  pose proof (isdigit_value c Hd) as Hv.
  unfold CardGenerator.luhn_step. destruct alternate; cbn [fst]; [| lia].
  destruct (Z.ltb_spec 9 ((char_to_int c - 48) * 2)); [| lia].
  pose proof (Z.quot_pos ((char_to_int c - 48) * 2) 10 ltac:(lia) ltac:(lia)).
  pose proof (Z.rem_nonneg ((char_to_int c - 48) * 2) 10 ltac:(lia) ltac:(lia)).
  lia.
Qed.

Lemma luhn_fold_nonneg (l : list ascii) :
  forall st : Z * bool,
    forallb isdigit l = true -> 0 <= fst st ->
    0 <= fst (fold_left CardGenerator.luhn_step l st).
Proof.
  induction l as [| c l IH]; intros st Hd Hs; [exact Hs |].
  cbn in Hd. apply andb_true_iff in Hd as [Hc Hl].
  cbn. apply IH; [exact Hl | now apply luhn_step_nonneg].
Qed.

Lemma forallb_rev {A : Type} (f : A -> bool) (l : list A) :
  forallb f (rev l) = forallb f l.
Proof.
  induction l as [| x l IH]; [reflexivity |].
  cbn. rewrite forallb_app, IH. cbn. rewrite andb_true_r. apply andb_comm.
Qed.

(** On a string of digits [calculateLuhn] returns a digit. *)
Lemma calculateLuhn_isdigit (number : string) :
  forallb isdigit (chars number) = true ->
  isdigit (CardGenerator.calculateLuhn number) = true.
Proof.
  intros Hd. unfold CardGenerator.calculateLuhn.
  apply isdigit_int_to_char.
  set (sum := fst (fold_left CardGenerator.luhn_step (rev (chars number)) (0, false))).
  assert (Hsum : 0 <= sum).
  { apply luhn_fold_nonneg; [now rewrite forallb_rev | cbn; lia]. }
  pose proof (Z.rem_bound_pos sum 10 Hsum ltac:(lia)) as H1.
  pose proof (Z.rem_bound_pos (10 - Z.rem sum 10) 10 ltac:(lia) ltac:(lia)) as H2.
  lia.
Qed.

End Generator.

Lemma RAND_bytes_length (n : nat) (w w' : world) (bs : list Byte.byte) :
  RAND_bytes n w = (Return (Some bs), w') ->
  length bs = n /\ issued_numbers_ w' = issued_numbers_ w.
Proof.
  unfold RAND_bytes. destruct (Nat.leb_spec n (length (entropy w))) as [H | H].
  - intros E. injection E as <- <-. split; [| reflexivity].
    rewrite length_take. lia.
  - discriminate.
Qed.

(** A number that was never issued is rejected, whatever its digits. *)
Lemma validate_rejects_unissued (number : string) (issued : gset string) :
  number ∉ issued -> CardGenerator.validate number issued = false.
Proof.
  intros H. unfold CardGenerator.validate.
  destruct (_ || _); [reflexivity |].
  rewrite bool_decide_eq_false_2 by exact H. apply andb_false_r.
Qed.

Lemma validate_issued_only (number : string) (issued : gset string) :
  CardGenerator.validate number issued = true -> number ∈ issued.
Proof.
  intros H. destruct (decide (number ∈ issued)) as [Hin | Hout]; [exact Hin |].
  rewrite validate_rejects_unissued in H by exact Hout. discriminate.
Qed.

(** For a prefix of at most fifteen characters, a returned number has
    sixteen decimal digits, ends in the digit that [calculateLuhn]
    computes from the first fifteen, is in the registry, and is accepted
    by [validate]. *)
Lemma generate_returns (bin_prefix : string) (w w' : world) (number : string) :
  (String.length bin_prefix <= 15)%nat ->
  CardGenerator.generate bin_prefix w = (Return number, w') ->
  String.length number = 16%nat
  /\ forallb isdigit (chars number) = true
  /\ (exists payload : string,
        number = (payload ++ String (CardGenerator.calculateLuhn payload) EmptyString)%string)
  /\ issued_numbers_ w' = {[ number ]} ∪ issued_numbers_ w
  /\ CardGenerator.validate number (issued_numbers_ w') = true.
Proof.
  intros Hlen. unfold CardGenerator.generate.
  destruct (forallb isdigit (chars bin_prefix)) eqn:Hdigits; cbn [negb]; [| discriminate].
  assert (Hrem : to_int (16 - Z.of_nat (String.length bin_prefix) - 1)
                 = (15 - Z.of_nat (String.length bin_prefix))%Z).
  { unfold to_int. rewrite Z.mod_small; lia. }
  rewrite Hrem.
  destruct (Z.ltb_spec (15 - Z.of_nat (String.length bin_prefix)) 0); [lia |].
  unfold bind.
  destruct (RAND_bytes _ w) as [[[rand_bytes |] | e |] w1] eqn:Hrand; try discriminate.
  apply RAND_bytes_length in Hrand as [Hbytes Hissued].
  intros E. injection E as <- <-. cbn [issued_numbers_ entropy].
  set (payload := (bin_prefix ++ string_of_chars (map digit_of_byte rand_bytes))%string).
  assert (Hpayload : forallb isdigit (chars payload) = true).
  { unfold payload. rewrite chars_app, forallb_app, Hdigits, chars_string_of_chars.
    cbn [andb]. apply forallb_forall. intros c Hc.
    apply in_map_iff in Hc as (b & <- & _). apply isdigit_digit_of_byte. }
  assert (Hsize : String.length payload = 15%nat).
  { unfold payload. rewrite string_length_app, <- (length_chars (string_of_chars _)),
      chars_string_of_chars, length_map, Hbytes. lia. }
  split; [| split; [| split; [| split]]].
  - rewrite string_length_app, Hsize. reflexivity.
  - rewrite chars_app, forallb_app, Hpayload. cbn.
    now rewrite calculateLuhn_isdigit.
  - exists payload. reflexivity.
  - now rewrite Hissued.
  - unfold CardGenerator.validate.
    rewrite string_length_app, Hsize. cbn [String.length Nat.add Nat.ltb Nat.leb orb].
    rewrite all_but_last_snoc, back_snoc, Ascii.eqb_refl. cbn [andb].
    apply bool_decide_eq_true_2, elem_of_union_l, elem_of_singleton_2. reflexivity.
Qed.

(** C6 at a failing input.  With the default prefix "5" and fourteen
    zero bytes from the random generator, [generate] returns
    5000000000000005: sixteen digits, recorded and accepted by
    [validate], yet the number does not pass the Luhn check, whose check
    digit for the payload 500000000000000 is 9.  Likewise the payload of
    the valid number 4539148803436467 is completed with 3 instead of 7. *)
Theorem generate_check_digit_not_luhn :
  let w := mkWorld (repeat Byte.x00 14) ∅ in
  fst (CardGenerator.generate "5" w) = Return "5000000000000005"%string
  /\ CardGenerator.validate "5000000000000005"
       (issued_numbers_ (snd (CardGenerator.generate "5" w))) = true
  /\ Luhn.passes "5000000000000005" = false
  /\ Luhn.check_digit "500000000000000" = "9"%char
  /\ CardGenerator.calculateLuhn "500000000000000" = "5"%char
  /\ Luhn.passes "4539148803436467" = true
  /\ fst (CardGenerator.generate "453914880343646" (mkWorld [] ∅))
     = Return "4539148803436463"%string
  /\ Luhn.passes "4539148803436463" = false.
Proof.
  intros w. repeat split; vm_compute; reflexivity.
Qed.

(** ** Card construction and the registry *)

Lemma keeps_registry_ret {A : Type} (v : A) : keeps_registry (ret v).
Proof. intros w. reflexivity. Qed.

Lemma keeps_registry_throw {A : Type} (e : exception) : keeps_registry (@throw A e).
Proof. intros w. reflexivity. Qed.

Lemma keeps_registry_bind {A B : Type} (m : M A) (k : A -> M B) :
  keeps_registry m -> (forall v, keeps_registry (k v)) -> keeps_registry (bind m k).
Proof.
  intros Hm Hk w. unfold bind. specialize (Hm w).
  destruct (m w) as [[v | e |] w1]; cbn [snd] in *; [| exact Hm | exact Hm].
  now rewrite Hk.
Qed.

Lemma keeps_registry_RAND_bytes (n : nat) : keeps_registry (RAND_bytes n).
Proof.
  intros w. unfold RAND_bytes. now destruct (n <=? length (entropy w))%nat.
Qed.

Lemma returns_ret {A : Type} (v : A) (P : A -> Prop) : P v -> returns (ret v) P.
Proof. intros H w w' v' E. injection E as <- _. exact H. Qed.

Lemma returns_throw {A : Type} (e : exception) (P : A -> Prop) : returns (throw e) P.
Proof. intros w w' v E. discriminate. Qed.

Lemma returns_bind {A B : Type} (m : M A) (k : A -> M B) (P : A -> Prop) (Q : B -> Prop) :
  returns m P -> (forall v, P v -> returns (k v) Q) -> returns (bind m k) Q.
Proof.
  intros Hm Hk w w' r. unfold bind.
  destruct (m w) as [[v | e |] w1] eqn:E; try discriminate.
  intros Ek. exact (Hk v (Hm w w1 v E) w1 w' r Ek).
Qed.

Lemma returns_any {A : Type} (m : M A) : returns m (fun _ => True).
Proof. intros w w' v _. exact I. Qed.

Ltac registry :=
  repeat first
    [ apply keeps_registry_bind; [| intros ? ]
    | apply keeps_registry_ret
    | apply keeps_registry_throw
    | apply keeps_registry_RAND_bytes
    | match goal with
      | |- keeps_registry (match ?x with _ => _ end) => destruct x
      | |- keeps_registry (if ?b then _ else _) => destruct b
      end ].

Lemma keeps_registry_generateExpiryDate (current_year validYears : Z) :
  keeps_registry (Card.generateExpiryDate current_year validYears).
Proof. unfold Card.generateExpiryDate. registry. Qed.

Lemma keeps_registry_generateCVV : keeps_registry Card.generateCVV.
Proof. unfold Card.generateCVV. registry. Qed.

Lemma keeps_registry_Card_create (current_year : Z) (isActivated isExpired : bool) :
  keeps_registry (Card.create current_year isActivated isExpired).
Proof.
  unfold Card.create. apply keeps_registry_bind; [| intros; apply keeps_registry_ret].
  destruct (negb isExpired);
    [apply keeps_registry_generateExpiryDate | apply keeps_registry_ret].
Qed.

Lemma keeps_registry_fill_digits (todo : nat) :
  forall cardNumber : string, keeps_registry (DebitCard.fill_digits todo cardNumber).
Proof.
  induction todo as [| todo IH]; intros cardNumber; cbn [DebitCard.fill_digits].
  - apply keeps_registry_ret.
  - apply keeps_registry_bind; [apply keeps_registry_RAND_bytes |].
    intros [[| digit rest] |]; auto using keeps_registry_throw.
Qed.

Lemma keeps_registry_setPin
    (hashPin : string -> string -> string) (pin : string) (d : DebitCard.t) :
  keeps_registry (DebitCard.setPin hashPin pin d).
Proof. unfold DebitCard.setPin. registry. Qed.

Lemma keeps_registry_DebitCard_create
    (hashPin : string -> string -> string) (current_year : Z) (rand_status : bool)
    (account : option addr) (daily_withdrawal_limit : Q) (pin : string) :
  keeps_registry
    (DebitCard.create hashPin current_year rand_status account daily_withdrawal_limit pin).
Proof.
  unfold DebitCard.create.
  apply keeps_registry_bind; [apply keeps_registry_Card_create | intros base].
  apply keeps_registry_bind; [apply keeps_registry_fill_digits | intros generatedNumber].
  destruct (negb rand_status); [apply keeps_registry_throw |].
  apply keeps_registry_bind; [apply keeps_registry_setPin | intros r].
  apply keeps_registry_bind.
  - destruct (fst r); [apply keeps_registry_ret |].
    apply keeps_registry_bind; [apply keeps_registry_setPin | intros r0].
    destruct (fst r0); [apply keeps_registry_ret | apply keeps_registry_throw].
  - intros d. destruct (Card.empty _); [apply keeps_registry_throw | apply keeps_registry_ret].
Qed.

Lemma string_of_chars_app (l1 l2 : list ascii) :
  string_of_chars (l1 ++ l2) = (string_of_chars l1 ++ string_of_chars l2)%string.
Proof.
  rewrite <- (string_of_chars_chars (_ ++ _)%string).
  now rewrite chars_app, !chars_string_of_chars.
Qed.

Lemma fill_digits_returns (todo : nat) :
  forall cardNumber : string,
    returns (DebitCard.fill_digits todo cardNumber)
      (fun r => exists digits : list ascii,
                  chars r = chars cardNumber ++ digits
                  /\ length digits = todo
                  /\ forallb isdigit digits = true).
Proof.
  induction todo as [| todo IH]; intros cardNumber; cbn [DebitCard.fill_digits].
  - apply returns_ret. exists []. now rewrite app_nil_r.
  - eapply returns_bind; [apply returns_any |].
    intros [[| digit rest] |] _; try apply returns_throw.
    intros w w' r E. destruct (IH _ w w' r E) as (digits & Hr & Hlen & Hdig).
    exists (digit_of_byte digit :: digits).
    rewrite Hr, chars_app. cbn [chars list_ascii_of_string].
    rewrite <- app_assoc. cbn [app length forallb].
    now rewrite Hlen, Hdig, isdigit_digit_of_byte.
Qed.

Lemma generateCardNumberWithPrefix_returns :
  returns (DebitCard.generateCardNumberWithPrefix "4") (prefixed_number "4").
Proof.
  intros w w' r E. unfold DebitCard.generateCardNumberWithPrefix in E.
  destruct (fill_digits_returns _ _ w w' r E) as (digits & Hr & Hlen & Hdig).
  exists digits. split; [| split; [exact Hlen | exact Hdig]].
  rewrite <- (string_of_chars_chars r), Hr, string_of_chars_app.
  now rewrite string_of_chars_chars.
Qed.

Lemma setPin_returns_card
    (hashPin : string -> string -> string) (pin : string) (d : DebitCard.t) :
  returns (DebitCard.setPin hashPin pin d) (fun r => DebitCard.card (snd r) = DebitCard.card d).
Proof.
  unfold DebitCard.setPin.
  destruct (_ || _); [now apply returns_ret |].
  eapply returns_bind; [apply returns_any |].
  intros [new_salt |] _; [now apply returns_ret | apply returns_throw].
Qed.

Lemma DebitCard_create_returns
    (hashPin : string -> string -> string) (current_year : Z) (rand_status : bool)
    (account : option addr) (daily_withdrawal_limit : Q) (pin : string) :
  returns
    (DebitCard.create hashPin current_year rand_status account daily_withdrawal_limit pin)
    (fun d => prefixed_number "4" (DebitCard.getCardNumber d)).
Proof.
  unfold DebitCard.create.
  eapply returns_bind; [apply returns_any | intros base _].
  eapply returns_bind; [apply generateCardNumberWithPrefix_returns |].
  intros generatedNumber Hnumber.
  destruct (negb rand_status); [apply returns_throw |].
  eapply returns_bind; [apply setPin_returns_card | intros r Hr].
  eapply returns_bind
    with (P := fun d => DebitCard.getCardNumber d = generatedNumber).
  - destruct (fst r).
    + apply returns_ret. unfold DebitCard.getCardNumber. now rewrite Hr.
    + eapply returns_bind; [apply setPin_returns_card | intros r0 Hr0].
      destruct (fst r0); [| apply returns_throw].
      apply returns_ret. unfold DebitCard.getCardNumber. now rewrite Hr0, Hr.
  - intros d Hd. destruct (Card.empty _); [apply returns_throw |].
    apply returns_ret. now rewrite Hd.
Qed.

Lemma generateCardNumber_prefixed (draws : nat -> N) :
  prefixed_number "5" (Card.generateCardNumber draws "5").
Proof.
  unfold Card.generateCardNumber. eexists. split; [reflexivity |].
  split; [now rewrite length_map, length_seq |].
  apply forallb_forall. intros c Hc. apply in_map_iff in Hc as (i & <- & _).
  apply isdigit_int_to_char.
  pose proof (N.mod_lt (draws i) 10 ltac:(discriminate)) as H.
  apply N2Z.inj_lt in H. change (Z.of_N 10) with 10%Z in H.
  pose proof (N2Z.is_nonneg (draws i mod 10)) as H0.
  split.
  - apply (Z.add_le_mono_l 0 _ 48) in H0. exact H0.
  - apply Zlt_succ_le. apply (Z.add_lt_mono_l _ _ 48) in H. exact H.
Qed.

(** The [CreditCard] constructor step by step: the base class takes
    nothing from the random generator, then a CVV and an expiry date are
    generated. *)
Lemma CreditCard_create_unfold
    (current_year : Z) (draws : nat -> N) (credit_limit : Q) (isActivated : bool)
    (linked_account : option addr) :
  CreditCard.create current_year draws credit_limit isActivated linked_account
  = (let* cvv := Card.generateCVV in
     let* expiration := Card.generateExpiryDate current_year 3 in
     ret (CreditCard.mk
            (Card.mk (Card.generateCardNumber draws "5") expiration cvv isActivated true)
            credit_limit 0 linked_account false)).
Proof. reflexivity. Qed.

(** The construction of a [CreditCard] does not call the Card Number
    Generator: the registry of issued numbers is as before. *)
Lemma keeps_registry_CreditCard_create
    (current_year : Z) (draws : nat -> N) (credit_limit : Q) (isActivated : bool)
    (linked_account : option addr) :
  keeps_registry
    (CreditCard.create current_year draws credit_limit isActivated linked_account).
Proof.
  rewrite CreditCard_create_unfold.
  apply keeps_registry_bind; [apply keeps_registry_generateCVV | intros cvv].
  apply keeps_registry_bind; [apply keeps_registry_generateExpiryDate | intros e].
  apply keeps_registry_ret.
Qed.

Lemma CreditCard_create_returns
    (current_year : Z) (draws : nat -> N) (credit_limit : Q) (isActivated : bool)
    (linked_account : option addr) :
  returns (CreditCard.create current_year draws credit_limit isActivated linked_account)
    (fun c => CreditCard.getCardNumber c = Card.generateCardNumber draws "5").
Proof.
  rewrite CreditCard_create_unfold.
  eapply returns_bind; [apply returns_any | intros cvv _].
  eapply returns_bind; [apply returns_any | intros e _].
  now apply returns_ret.
Qed.

(** C7, as the code has it.  The number a [DebitCard] gets at
    construction is "4" followed by fifteen random digits from
    [generateCardNumberWithPrefix], and the construction leaves the
    registry of issued numbers as it was.  The number a [CreditCard]
    gets is "5" followed by fifteen digits from
    [Card::generateCardNumber].  Neither number comes from the Card
    Number Generator, and [CardGenerator.validate] accepts an assigned
    number only if that very string is in the registry: for a debit
    card, was issued before the construction. *)
Theorem constructed_card_numbers
    (hashPin : string -> string -> string) (current_year : Z) (rand_status : bool)
    (account : option addr) (daily_withdrawal_limit : Q) (pin : string)
    (draws : nat -> N) (credit_limit : Q) (isActivated : bool)
    (linked_account : option addr) (w w' : world) :
  (forall d : DebitCard.t,
     DebitCard.create hashPin current_year rand_status account daily_withdrawal_limit pin w
     = (Return d, w') ->
     prefixed_number "4" (DebitCard.getCardNumber d)
     /\ issued_numbers_ w' = issued_numbers_ w
     /\ (CardGenerator.validate (DebitCard.getCardNumber d) (issued_numbers_ w') = true ->
         DebitCard.getCardNumber d ∈ issued_numbers_ w))
  /\ (forall c : CreditCard.t,
        CreditCard.create current_year draws credit_limit isActivated linked_account w
        = (Return c, w') ->
        CreditCard.getCardNumber c = Card.generateCardNumber draws "5"
        /\ prefixed_number "5" (CreditCard.getCardNumber c)
        /\ (CardGenerator.validate (CreditCard.getCardNumber c) (issued_numbers_ w') = true ->
            CreditCard.getCardNumber c ∈ issued_numbers_ w')).
Proof.
  split.
  - intros d E.
    pose proof (keeps_registry_DebitCard_create hashPin current_year rand_status account
                  daily_withdrawal_limit pin w) as Hkeep.
    rewrite E in Hkeep. cbn [snd] in Hkeep.
    split; [exact (DebitCard_create_returns _ _ _ _ _ _ w w' d E) |].
    split; [exact Hkeep |].
    intros Hvalid. apply validate_issued_only in Hvalid. now rewrite <- Hkeep.
  - intros c E.
    pose proof (CreditCard_create_returns _ _ _ _ _ w w' c E) as Hnumber.
    cbn beta in Hnumber.
    split; [exact Hnumber |].
    split; [rewrite Hnumber; apply generateCardNumber_prefixed |].
    intros Hvalid. now apply validate_issued_only in Hvalid.
Qed.

(** C7 at a concrete construction of each card, with an empty registry
    and zero bytes from the random generator. *)
Lemma constructed_card_numbers_witness :
  let hashPin := fun pin salt : string => (salt ++ pin)%string in
  let w := mkWorld (repeat Byte.x00 32) ∅ in
  (exists (d : DebitCard.t) (w' : world),
     DebitCard.create hashPin 2026 true (Some 1%nat) 500 "1234" w = (Return d, w')
     /\ prefixed_number "4" (DebitCard.getCardNumber d)
     /\ issued_numbers_ w' = issued_numbers_ w)
  /\ (exists (c : CreditCard.t) (w' : world),
        CreditCard.create 2026 (fun _ => 0%N) 1000 true (Some 1%nat) w = (Return c, w')
        /\ prefixed_number "5" (CreditCard.getCardNumber c)).
Proof.
  intros hashPin w. split.
  - destruct (DebitCard.create hashPin 2026 true (Some 1%nat) 500 "1234" w) as [r w']
      eqn:E.
    assert (Hr : exists d, r = Return d) by (vm_compute in E; injection E as <- _; eauto).
    destruct Hr as (d & ->). exists d, w'. split; [reflexivity |].
    destruct (constructed_card_numbers hashPin 2026 true (Some 1%nat) 500 "1234"
                (fun _ => 0%N) 1000 true (Some 1%nat) w w') as [H _].
    destruct (H d E) as (H1 & H2 & _). split; [exact H1 | exact H2].
  - destruct (CreditCard.create 2026 (fun _ => 0%N) 1000 true (Some 1%nat) w) as [r w']
      eqn:E.
    assert (Hr : exists c, r = Return c) by (vm_compute in E; injection E as <- _; eauto).
    destruct Hr as (c & ->). exists c, w'. split; [reflexivity |].
    destruct (constructed_card_numbers hashPin 2026 true (Some 1%nat) 500 "1234"
                (fun _ => 0%N) 1000 true (Some 1%nat) w w') as [_ H].
    destruct (H c E) as (_ & H2 & _). exact H2.
Defined.

(** C7 as worded fails: with an empty registry, the number assigned to a
    new debit card and the number assigned to a new credit card are not
    recorded, the registry is still empty after either construction, and
    [validate] rejects both numbers. *)
Lemma constructed_card_numbers_not_issued :
  let hashPin := fun pin salt : string => (salt ++ pin)%string in
  let w := mkWorld (repeat Byte.x00 32) ∅ in
  (exists (d : DebitCard.t) (w' : world),
     DebitCard.create hashPin 2026 true (Some 1%nat) 500 "1234" w = (Return d, w')
     /\ DebitCard.getCardNumber d = "4000000000000000"%string
     /\ issued_numbers_ w' = ∅
     /\ CardGenerator.validate (DebitCard.getCardNumber d) (issued_numbers_ w') = false)
  /\ (exists (c : CreditCard.t) (w' : world),
        CreditCard.create 2026 (fun _ => 0%N) 1000 true (Some 1%nat) w = (Return c, w')
        /\ CreditCard.getCardNumber c = "5000000000000000"%string
        /\ issued_numbers_ w' = ∅
        /\ CardGenerator.validate (CreditCard.getCardNumber c) (issued_numbers_ w') = false).
Proof.
  intros hashPin w. split.
  - eexists. eexists. split; [vm_compute; reflexivity |].
    repeat split; vm_compute; reflexivity.
  - eexists. eexists. split; [vm_compute; reflexivity |].
    repeat split; vm_compute; reflexivity.
Qed.

(** ** Services: closing an account *)

Section CloseAccount.

Local Open Scope Z_scope.

Variable account_number : Z.

Let other (acc : Z) : bool := negb (acc =? account_number).

Lemma filter_same_length {A : Type} (f : A -> bool) (l : list A) :
  length (List.filter f l) = length l -> List.filter f l = l.
Proof.
  induction l as [| x l IH]; [reflexivity |]. cbn.
  pose proof (filter_length_le f l) as Hle.
  destruct (f x); cbn; intros H.
  - f_equal. apply IH. lia.
  - lia.
Qed.

Lemma filter_other_idempotent (l : list Z) :
  List.filter other (List.filter other l) = List.filter other l.
Proof.
  induction l as [| x l IH]; [reflexivity |]. cbn.
  destruct (other x) eqn:E; cbn; [rewrite E; now f_equal | exact IH].
Qed.

Lemma filter_other_removes (l : list Z) : account_number ∉ List.filter other l.
Proof.
  intros H. apply list_elem_of_In, filter_In in H as [_ H].
  unfold other in H. now rewrite Z.eqb_refl in H.
Qed.

Lemma filter_other_shrinks (l : list Z) :
  account_number ∈ l -> (length (List.filter other l) < length l)%nat.
Proof.
  induction l as [| x l IH]; intros H; [now apply elem_of_nil in H |].
  cbn. pose proof (filter_length_le other l) as Hle.
  apply elem_of_cons in H as [<- | H].
  - unfold other at 1. rewrite Z.eqb_refl. cbn. lia.
  - specialize (IH H). destruct (other x); cbn; lia.
Qed.

(** [removeAccount] always leaves the filtered list, and reports whether
    the number was there. *)
Lemma removeAccount_account (c : Customers.t) :
  Customers.account_ (snd (Customers.removeAccount account_number c))
  = List.filter other (Customers.account_ c).
Proof.
  unfold Customers.removeAccount. fold other.
  destruct (Nat.ltb_spec (length (List.filter other (Customers.account_ c)))
              (length (Customers.account_ c))) as [H | H]; cbn; [reflexivity |].
  symmetry. apply filter_same_length.
  pose proof (filter_length_le other (Customers.account_ c)). lia.
Qed.

Lemma removeAccount_found (c : Customers.t) :
  account_number ∈ Customers.account_ c ->
  fst (Customers.removeAccount account_number c) = true.
Proof.
  intros H. unfold Customers.removeAccount. fold other.
  apply filter_other_shrinks in H. apply Nat.ltb_lt in H. now rewrite H.
Qed.

Lemma removeAccount_twice (c : Customers.t) :
  snd (Customers.removeAccount account_number
         (snd (Customers.removeAccount account_number c)))
  = snd (Customers.removeAccount account_number c).
Proof.
  set (c1 := snd (Customers.removeAccount account_number c)).
  assert (H1 : Customers.account_ c1 = List.filter other (Customers.account_ c))
    by apply removeAccount_account.
  unfold Customers.removeAccount at 1. fold other.
  rewrite H1, filter_other_idempotent, Nat.ltb_irrefl. reflexivity.
Qed.

Lemma unlink_step_store (st : gmap nat Customers.t) (u : bool) (q : option addr) (p : addr) :
  fst (Services.unlink_step account_number (st, u) q) !! p
  = if decide (q = Some p)
    then (fun c => snd (Customers.removeAccount account_number c)) <$> st !! p
    else st !! p.
Proof.
  unfold Services.unlink_step.
  destruct q as [a |]; [| now rewrite decide_False].
  destruct (decide (Some a = Some p)) as [E | N].
  - injection E as ->. destruct (st !! p) as [c |] eqn:Hc; [| cbn; now rewrite Hc].
    destruct (Customers.removeAccount account_number c) as [removed c'] eqn:E.
    cbn. now rewrite lookup_insert_eq, E.
  - destruct (st !! a) as [c |]; [| reflexivity].
    destruct (Customers.removeAccount account_number c) as [removed c'].
    cbn. rewrite lookup_insert_ne; [reflexivity | congruence].
Qed.

(** After the loop, each customer reached through [customers_] has lost
    the account, once, however often the customer occurs in the list. *)
Lemma unlink_loop_store (l : list (option addr)) :
  forall (st : gmap nat Customers.t) (u : bool) (p : addr),
    fst (fold_left (Services.unlink_step account_number) l (st, u)) !! p
    = if decide (Some p ∈ l)
      then (fun c => snd (Customers.removeAccount account_number c)) <$> st !! p
      else st !! p.
Proof.
  induction l as [| q l IH]; intros st u p.
  - cbn. rewrite decide_False; [reflexivity | apply not_elem_of_nil].
  - cbn [fold_left].
    destruct (Services.unlink_step account_number (st, u) q) as [st1 u1] eqn:E.
    rewrite IH.
    assert (H1 : st1 !! p = fst (Services.unlink_step account_number (st, u) q) !! p)
      by now rewrite E.
    rewrite H1, unlink_step_store.
    destruct (decide (q = Some p)) as [-> | N].
    + rewrite (decide_True (P := Some p ∈ Some p :: l)) by apply list_elem_of_here.
      destruct (decide (Some p ∈ l)); [| reflexivity].
      destruct (st !! p) as [c |]; [| reflexivity].
      cbn. now rewrite removeAccount_twice.
    + destruct (decide (Some p ∈ l)) as [Hin | Hout].
      * rewrite decide_True; [reflexivity | now apply list_elem_of_further].
      * rewrite decide_False; [reflexivity |].
        intros H. apply elem_of_cons in H as [H | H]; [congruence | contradiction].
Qed.

Lemma unlink_step_flag (st : gmap nat Customers.t) (q : option addr) :
  snd (Services.unlink_step account_number (st, true) q) = true.
Proof.
  unfold Services.unlink_step. destruct q as [a |]; [| reflexivity].
  destruct (st !! a) as [c |]; [| reflexivity].
  now destruct (Customers.removeAccount account_number c) as [[|] c'].
Qed.

Lemma unlink_loop_flag_kept (l : list (option addr)) :
  forall st : gmap nat Customers.t,
    snd (fold_left (Services.unlink_step account_number) l (st, true)) = true.
Proof.
  induction l as [| q l IH]; intros st; [reflexivity |].
  cbn [fold_left].
  destruct (Services.unlink_step account_number (st, true) q) as [st1 u1] eqn:E.
  assert (u1 = true) as -> by (now rewrite <- (unlink_step_flag st q), E).
  apply IH.
Qed.

(** The flag is raised when some customer of the list holds the account. *)
Lemma unlink_loop_flag (l : list (option addr)) :
  forall (st : gmap nat Customers.t) (u : bool) (p : addr) (c : Customers.t),
    Some p ∈ l -> st !! p = Some c -> account_number ∈ Customers.account_ c ->
    snd (fold_left (Services.unlink_step account_number) l (st, u)) = true.
Proof.
  induction l as [| q l IH]; intros st u p c Hin Hc Hn; [now apply elem_of_nil in Hin |].
  cbn [fold_left].
  destruct (decide (q = Some p)) as [-> | N].
  - unfold Services.unlink_step at 2. rewrite Hc.
    destruct (Customers.removeAccount account_number c) as [removed c'] eqn:E.
    assert (removed = true) as ->
      by (now rewrite <- (removeAccount_found c Hn), E).
    apply unlink_loop_flag_kept.
  - apply elem_of_cons in Hin as [Hin | Hin]; [congruence |].
    destruct (Services.unlink_step account_number (st, u) q) as [st1 u1] eqn:E.
    apply (IH st1 u1 p c Hin); [| exact Hn].
    assert (H1 : st1 !! p = fst (Services.unlink_step account_number (st, u) q) !! p)
      by now rewrite E.
    rewrite H1, unlink_step_store, decide_False; [exact Hc | exact N].
Qed.

Lemma erase_first_absent (l : list (option Z)) :
  (forall m : Z, Some m ∈ l -> m <> account_number) ->
  Services.erase_first account_number l = None.
Proof.
  induction l as [| acc l IH]; intros H; [reflexivity |].
  cbn. assert (Hl : Services.erase_first account_number l = None).
  { apply IH. intros m Hm. apply H. now apply list_elem_of_further. }
  destruct acc as [m |]; [| now rewrite Hl].
  destruct (Z.eqb_spec m account_number) as [-> | N]; [| now rewrite Hl].
  exfalso. apply (H account_number); [apply list_elem_of_here | reflexivity].
Qed.

End CloseAccount.

(** C9.  When some customer reached through [customers_] holds the
    account and the registry has no entry with that number,
    [closeAccount] returns false, yet every customer of the list has lost
    the account: the state after the call differs from the state before
    it in the customers' account lists, while the registry is as it
    was. *)
Theorem closeAccount_not_atomic
    (s : Services.t) (account_number : Z) (p : addr) (c : Customers.t)
    (Hp : Some p ∈ Services.customers_ s)
    (Hc : Services.customer_store s !! p = Some c)
    (Hn : account_number ∈ Customers.account_ c)
    (Hreg : forall m : Z, Some m ∈ Services.all_accounts_ s -> m <> account_number) :
  let s' := snd (Services.closeAccount account_number s) in
  fst (Services.closeAccount account_number s) = false
  /\ (forall (q : addr) (cq : Customers.t),
        Some q ∈ Services.customers_ s ->
        Services.customer_store s !! q = Some cq ->
        Services.accounts_of s' q
        = Some (List.filter (fun acc => negb (acc =? account_number)%Z)
                  (Customers.account_ cq)))
  /\ (exists l : list Z, Services.accounts_of s' p = Some l /\ account_number ∉ l)
  /\ Services.accounts_of s' p <> Services.accounts_of s p
  /\ Services.all_accounts_ s' = Services.all_accounts_ s
  /\ Services.customers_ s' = Services.customers_ s.
Proof.
  intros s'.
  pose proof (unlink_loop_flag account_number (Services.customers_ s)
                (Services.customer_store s) false p c Hp Hc Hn) as Hflag.
  pose proof (unlink_loop_store account_number (Services.customers_ s)
                (Services.customer_store s) false) as Hstore.
  pose proof (erase_first_absent account_number (Services.all_accounts_ s) Hreg) as Herase.
  assert (Hs' : s' = Services.mk (Services.customers_ s)
                       (fst (fold_left (Services.unlink_step account_number)
                               (Services.customers_ s) (Services.customer_store s, false)))
                       (Services.all_accounts_ s)
                /\ fst (Services.closeAccount account_number s) = false).
  { unfold s', Services.closeAccount.
    destruct (fold_left _ _ _) as [store unlinked]. cbn [fst snd] in *.
    subst unlinked. cbn [negb Services.all_accounts_]. rewrite Herase. split; reflexivity. }
  destruct Hs' as [Hs' Hret].
  assert (Hall : forall (q : addr) (cq : Customers.t),
            Some q ∈ Services.customers_ s ->
            Services.customer_store s !! q = Some cq ->
            Services.accounts_of s' q
            = Some (List.filter (fun acc => negb (acc =? account_number)%Z)
                      (Customers.account_ cq))).
  { intros q cq Hq Hcq. unfold Services.accounts_of.
    rewrite Hs'. cbn [Services.customer_store].
    rewrite Hstore, decide_True by exact Hq. rewrite Hcq. cbn.
    now rewrite removeAccount_account. }
  split; [exact Hret |]. split; [exact Hall |].
  split; [| split; [| split]].
  - eexists. split; [apply (Hall p c Hp Hc) |]. apply filter_other_removes.
  - rewrite (Hall p c Hp Hc). unfold Services.accounts_of. rewrite Hc. cbn.
    intros E. injection E as E.
    apply (filter_other_removes account_number (Customers.account_ c)).
    now rewrite E.
  - now rewrite Hs'.
  - now rewrite Hs'.
Qed.

(** C9 on a customer who holds accounts 1001 and 1002 while the registry
    lists only 1002: closing 1001 returns false and leaves the customer
    with 1002 alone. *)
Lemma closeAccount_not_atomic_witness :
  let c := Customers.mk "ADA" "ADA@EXAMPLE.ORG" "5550100200" "id-1" 36 "1 MAIN ST"
             [] [1001; 1002]%Z [] in
  let s := Services.mk [Some 1%nat] (<[1%nat := c]> ∅) [Some 1002%Z] in
  fst (Services.closeAccount 1001 s) = false
  /\ Services.accounts_of (snd (Services.closeAccount 1001 s)) 1%nat = Some [1002%Z]
  /\ Services.accounts_of s 1%nat = Some [1001; 1002]%Z.
Proof.
  intros c s.
  assert (Hp : Some 1%nat ∈ Services.customers_ s) by apply list_elem_of_here.
  assert (Hc : Services.customer_store s !! 1%nat = Some c) by reflexivity.
  assert (Hn : (1001 ∈ Customers.account_ c)%Z) by apply list_elem_of_here.
  assert (Hreg : forall m : Z, Some m ∈ Services.all_accounts_ s -> m <> 1001%Z).
  { intros m Hm. apply list_elem_of_singleton in Hm. injection Hm as ->. discriminate. }
  destruct (closeAccount_not_atomic s 1001%Z 1%nat c Hp Hc Hn Hreg) as (H1 & H2 & _).
  split; [exact H1 | split; [| reflexivity]].
  rewrite (H2 1%nat c Hp Hc). reflexivity.
Defined.

(** * Further properties of the modelled code *)

(** ** Transaction: type labels *)

(** X1.  [stringToType] inverts [typeToString] on every type, and
    [typeToString] inverts [stringToType] exactly on the six labels; every
    other string is read as [UNKNOWN]. *)
Theorem transaction_type_round_trip :
  (forall type : Transaction.Type_,
     Transaction.stringToType (Transaction.typeToString type) = type)
  /\ (forall str : string,
        Transaction.typeToString (Transaction.stringToType str) = str
        <-> exists type : Transaction.Type_, str = Transaction.typeToString type)
  /\ (forall str : string,
        (forall type : Transaction.Type_, str <> Transaction.typeToString type) ->
        Transaction.stringToType str = Transaction.UNKNOWN).
Proof.
  split; [intros []; reflexivity |].
  assert (Hcases : forall str : string,
            (exists type, str = Transaction.typeToString type)
            \/ ((forall type, str <> Transaction.typeToString type)
                /\ Transaction.stringToType str = Transaction.UNKNOWN)).
  { intros str. unfold Transaction.stringToType.
    destruct (String.eqb_spec str "DEPOSIT") as [-> | N1];
      [left; now exists Transaction.DEPOSIT |].
    destruct (String.eqb_spec str "WITHDRAWAL") as [-> | N2];
      [left; now exists Transaction.WITHDRAWAL |].
    destruct (String.eqb_spec str "INTEREST") as [-> | N3];
      [left; now exists Transaction.INTEREST |].
    destruct (String.eqb_spec str "FEE") as [-> | N4];
      [left; now exists Transaction.FEE |].
    destruct (String.eqb_spec str "PURCHASE") as [-> | N5];
      [left; now exists Transaction.PURCHASE |].
    destruct (String.eqb_spec str "UNKNOWN") as [-> | N6];
      [left; now exists Transaction.UNKNOWN |].
    right. split; [| reflexivity]. intros []; assumption. }
  split.
  - intros str. split.
    + intros <-. eauto.
    + intros (type & ->). now destruct type.
  - intros str Hnone. destruct (Hcases str) as [(type & ->) | [_ H]]; [| exact H].
    now contradiction (Hnone type).
Qed.

(** X1 at a label outside the table. *)
Lemma transaction_type_round_trip_witness :
  Transaction.stringToType "TRANSFER" = Transaction.UNKNOWN.
Proof.
  apply transaction_type_round_trip.
  intros []; discriminate.
Defined.

(** ** SavingAccount: runs of operations *)

Lemma saving_applyDeposit_cases (s : SavingAccount.t) (amount : Q) (now : Z) :
  (amount <= 0 /\ SavingAccount.applyDeposit amount now s = (false, s))
  \/ (0 < amount
      /\ exists s',
           SavingAccount.applyDeposit amount now s = (true, s')
           /\ BankAccount.transactions_ (SavingAccount.base s')
              = BankAccount.transactions_ (SavingAccount.base s)
                ++ [Transaction.mk
                      (pretty (BankAccount.account_number_ (SavingAccount.base s)))
                      Transaction.DEPOSIT amount
                      (SavingAccount.getAccountBalance s + amount) "Deposit" now]
           /\ SavingAccount.getAccountBalance s' = SavingAccount.getAccountBalance s + amount
           /\ flag_accurate (SavingAccount.base s')
           /\ SavingAccount.min_balance_ s' = SavingAccount.min_balance_ s
           /\ SavingAccount.withdrawal_times_this_month_ s'
              = SavingAccount.withdrawal_times_this_month_ s
           /\ SavingAccount.interest_rate_ s' = SavingAccount.interest_rate_ s).
Proof.
  unfold SavingAccount.applyDeposit, BankAccount.applyDeposit.
  destruct (Qle_bool amount 0) eqn:E.
  - left. apply Qle_bool_iff in E. split; [exact E |]. now destruct s.
  - right. apply Qle_bool_false in E. split; [exact E |].
    eexists. split; [reflexivity |]. cbn. repeat split; reflexivity.
Qed.

Lemma saving_applyWithdraw_cases (s : SavingAccount.t) (amount : Q) (now : Z) :
  (fst (SavingAccount.applyWithdraw amount now s) <> Return true
   /\ snd (SavingAccount.applyWithdraw amount now s) = s)
  \/ (0 < amount
      /\ SavingAccount.min_balance_ s <= SavingAccount.getAccountBalance s - amount
      /\ (SavingAccount.withdrawal_times_this_month_ s < 6)%Z
      /\ exists s',
           SavingAccount.applyWithdraw amount now s = (Return true, s')
           /\ BankAccount.transactions_ (SavingAccount.base s')
              = BankAccount.transactions_ (SavingAccount.base s)
                ++ [Transaction.mk
                      (pretty (BankAccount.account_number_ (SavingAccount.base s)))
                      Transaction.WITHDRAWAL amount
                      (SavingAccount.getAccountBalance s - amount) "Withdrawal" now]
           /\ SavingAccount.getAccountBalance s' = SavingAccount.getAccountBalance s - amount
           /\ flag_accurate (SavingAccount.base s')
           /\ SavingAccount.min_balance_ s' = SavingAccount.min_balance_ s
           /\ SavingAccount.withdrawal_times_this_month_ s'
              = (SavingAccount.withdrawal_times_this_month_ s + 1)%Z
           /\ SavingAccount.interest_rate_ s' = SavingAccount.interest_rate_ s).
Proof.
  unfold SavingAccount.applyWithdraw.
  destruct (Qltb (SavingAccount.getAccountBalance s - amount) (SavingAccount.min_balance_ s))
    eqn:E1; [left; split; [discriminate | reflexivity] |].
  apply Qltb_false in E1.
  destruct (6 <=? SavingAccount.withdrawal_times_this_month_ s)%Z eqn:E2;
    [left; split; [discriminate | reflexivity] |].
  apply Z.leb_gt in E2.
  destruct (base_applyWithdraw_cases (SavingAccount.base s) amount now)
    as [(H & ->) | [(H1 & H2 & ->) | (H1 & H2 & _)]].
  - left. split; [discriminate | now destruct s].
  - left. split; [discriminate | now destruct s].
  - right. split; [exact H1 |]. split; [exact E1 |]. split; [exact E2 |].
    unfold BankAccount.applyWithdraw.
    apply Qle_bool_false in H1. apply Qltb_false in H2. rewrite H1, H2.
    eexists. split; [reflexivity |]. cbn. repeat split; reflexivity.
Qed.

Lemma saving_applyDeposit_number (s : SavingAccount.t) (amount : Q) (now : Z) :
  BankAccount.account_number_ (SavingAccount.base (snd (SavingAccount.applyDeposit amount now s)))
  = BankAccount.account_number_ (SavingAccount.base s).
Proof.
  unfold SavingAccount.applyDeposit, BankAccount.applyDeposit.
  now destruct (Qle_bool amount 0).
Qed.

Lemma saving_applyInterest_cases (s : SavingAccount.t) (now1 now2 : Z) :
  let interest := SavingAccount.getAccountBalance s * (SavingAccount.interest_rate_ s / 12) in
  let s' := SavingAccount.applyInterest now1 now2 s in
  SavingAccount.applyMonthlyInterest now1 now2 s = s'
  /\ SavingAccount.min_balance_ s' = SavingAccount.min_balance_ s
  /\ SavingAccount.withdrawal_times_this_month_ s'
     = SavingAccount.withdrawal_times_this_month_ s
  /\ SavingAccount.interest_rate_ s' = SavingAccount.interest_rate_ s
  /\ (flag_accurate (SavingAccount.base s) -> flag_accurate (SavingAccount.base s'))
  /\ ((interest <= 0
       /\ SavingAccount.getAccountBalance s' = SavingAccount.getAccountBalance s
       /\ BankAccount.transactions_ (SavingAccount.base s')
          = BankAccount.transactions_ (SavingAccount.base s)
            ++ [Transaction.mk
                  (pretty (BankAccount.account_number_ (SavingAccount.base s)))
                  Transaction.INTEREST interest
                  (SavingAccount.getAccountBalance s) "" now2])
      \/ (0 < interest
          /\ SavingAccount.getAccountBalance s' = SavingAccount.getAccountBalance s + interest
          /\ BankAccount.transactions_ (SavingAccount.base s')
             = BankAccount.transactions_ (SavingAccount.base s)
               ++ [Transaction.mk
                     (pretty (BankAccount.account_number_ (SavingAccount.base s)))
                     Transaction.DEPOSIT interest
                     (SavingAccount.getAccountBalance s + interest) "Deposit" now1;
                   Transaction.mk
                     (pretty (BankAccount.account_number_ (SavingAccount.base s)))
                     Transaction.INTEREST interest
                     (SavingAccount.getAccountBalance s + interest) "" now2])).
Proof.
  intros interest s'. split; [reflexivity |].
  unfold s', SavingAccount.applyInterest, SavingAccount.getInterestRate.
  fold interest.
  pose proof (saving_applyDeposit_number s interest now1) as Hnum.
  destruct (saving_applyDeposit_cases s interest now1)
    as [(Hle & Heq) | (Hpos & s1 & Heq & Htx & Hbal & Hflag & Hmin & Hcnt & Hrate)];
    rewrite Heq in *; cbn [snd] in *.
  - repeat split; try reflexivity; [intros H; exact H |]. left.
    split; [exact Hle |]. split; reflexivity.
  - split; [exact Hmin |]. split; [exact Hcnt |]. split; [exact Hrate |].
    split; [intros _; exact Hflag |]. right.
    split; [exact Hpos |]. split; [exact Hbal |].
    cbn. rewrite Htx, <- app_assoc. cbn.
    unfold SavingAccount.getAccountBalance, BankAccount.getAccountBalance in Hbal.
    rewrite Hbal. now rewrite Hnum.
Qed.

(** What one operation does to the quantities the invariants speak of. *)
Lemma saving_step_facts (s : SavingAccount.t) (o : saving_op) :
  let s' := saving_step s o in
  (exists new : list Transaction.t,
     BankAccount.transactions_ (SavingAccount.base s')
     = BankAccount.transactions_ (SavingAccount.base s) ++ new
     /\ SavingAccount.getAccountBalance s'
        = stamped_balance new (SavingAccount.getAccountBalance s))
  /\ (flag_accurate (SavingAccount.base s) -> flag_accurate (SavingAccount.base s'))
  /\ SavingAccount.min_balance_ s' = SavingAccount.min_balance_ s
  /\ ((0 <= SavingAccount.withdrawal_times_this_month_ s <= 6)%Z ->
      (0 <= SavingAccount.withdrawal_times_this_month_ s' <= 6)%Z)
  /\ (SavingAccount.min_balance_ s <= SavingAccount.getAccountBalance s ->
      SavingAccount.min_balance_ s' <= SavingAccount.getAccountBalance s').
Proof.
  assert (Hnil : forall l : list Transaction.t, l = l ++ []) by (intros; now rewrite app_nil_r).
  destruct o as [amount now | amount now | now1 now2 | now1 now2 | | rate];
    cbn [saving_step]; cbv zeta.
  - destruct (saving_applyDeposit_cases s amount now)
      as [(Hle & ->) | (Hpos & s1 & -> & Htx & Hbal & Hflag & Hmin & Hcnt & Hrate)];
      cbn [snd].
    + split; [exists []; split; [apply Hnil |] | repeat split; auto; lia].
      reflexivity.
    + split; [| split; [auto | split; [exact Hmin | split; [now rewrite Hcnt |]]]].
      * eexists. split; [exact Htx |]. rewrite Hbal. reflexivity.
      * rewrite Hmin, Hbal. lra.
  - destruct (saving_applyWithdraw_cases s amount now)
      as [(_ & ->) | (Hpos & Hkeep & Hcap & s1 & -> & Htx & Hbal & Hflag & Hmin & Hcnt & _)];
      cbn [snd].
    + split; [exists []; split; [apply Hnil |] | repeat split; auto; lia].
      reflexivity.
    + split; [| split; [auto | split; [exact Hmin | split; [rewrite Hcnt; lia |]]]].
      * eexists. split; [exact Htx |]. rewrite Hbal. reflexivity.
      * rewrite Hmin, Hbal. intros _. exact Hkeep.
  - destruct (saving_applyInterest_cases s now1 now2)
      as (-> & Hmin & Hcnt & _ & Hflag & Hcases).
    split; [| split; [exact Hflag | split; [exact Hmin | split; [now rewrite Hcnt |]]]].
    + destruct Hcases as [(_ & Hbal & Htx) | (_ & Hbal & Htx)];
        (eexists; split; [exact Htx |]); rewrite Hbal; reflexivity.
    + rewrite Hmin.
      destruct Hcases as [(_ & Hbal & _) | (Hpos & Hbal & _)]; rewrite Hbal; lra.
  - destruct (saving_applyInterest_cases s now1 now2)
      as (_ & Hmin & Hcnt & _ & Hflag & Hcases).
    split; [| split; [exact Hflag | split; [exact Hmin | split; [now rewrite Hcnt |]]]].
    + destruct Hcases as [(_ & Hbal & Htx) | (_ & Hbal & Htx)];
        (eexists; split; [exact Htx |]); rewrite Hbal; reflexivity.
    + rewrite Hmin.
      destruct Hcases as [(_ & Hbal & _) | (Hpos & Hbal & _)]; rewrite Hbal; lra.
  - split; [exists []; split; [apply Hnil |] | repeat split; auto; cbn; lia].
    reflexivity.
  - split; [exists []; split; [apply Hnil |] | repeat split; auto; cbn; lia].
    reflexivity.
Qed.

(** X2.  Over any run of operations on a savings account the history
    only grows, and the balance is the one the history vouches for: the
    balance-after stamp of the last record added during the run, or the
    balance before the run when no record was added. *)
Theorem saving_ledger_consistent (ops : list saving_op) :
  forall s : SavingAccount.t,
    exists added : list Transaction.t,
      BankAccount.transactions_ (SavingAccount.base (saving_run s ops))
      = BankAccount.transactions_ (SavingAccount.base s) ++ added
      /\ SavingAccount.getAccountBalance (saving_run s ops)
         = stamped_balance added (SavingAccount.getAccountBalance s).
Proof.
  induction ops as [| o ops IH]; intros s.
  - exists []. cbn. split; [now rewrite app_nil_r | reflexivity].
  - cbn [saving_run fold_left].
    destruct (saving_step_facts s o) as ((new1 & Htx1 & Hbal1) & _).
    destruct (IH (saving_step s o)) as (new2 & Htx2 & Hbal2).
    exists (new1 ++ new2). unfold saving_run in *. split.
    + rewrite Htx2, Htx1. now rewrite app_assoc.
    + rewrite Hbal2, Hbal1. unfold stamped_balance. rewrite last_app.
      now destruct (last new2).
Qed.

(** X3.  The low-balance flag is accurate on every account built by the
    restore constructor or the full constructor, and an accurate flag
    stays accurate over any run of operations on a savings account. *)
Theorem low_balance_flag_accurate :
  (forall (number : Z) (balance : Q) (accountType : string),
     flag_accurate (BankAccount.restore number balance accountType))
  /\ (forall (number : Z) (deposit withdrawal balance rate : Q) (accountType : string),
        flag_accurate (BankAccount.create number deposit withdrawal balance rate accountType))
  /\ (forall (ops : list saving_op) (s : SavingAccount.t),
        flag_accurate (SavingAccount.base s) ->
        flag_accurate (SavingAccount.base (saving_run s ops))).
Proof.
  split; [reflexivity | split; [reflexivity |]].
  induction ops as [| o ops IH]; intros s H; [exact H |].
  cbn [saving_run fold_left]. apply IH.
  now apply (saving_step_facts s o).
Qed.

(** X3 on a restored savings account after a deposit, a withdrawal and a
    posting of interest. *)
Lemma low_balance_flag_accurate_witness :
  let s := SavingAccount.restore 2000 600 "cust" in
  flag_accurate
    (SavingAccount.base
       (saving_run s [SDeposit 50 1; SWithdraw 120 2; SInterest 3 4])).
Proof.
  intros s. apply low_balance_flag_accurate. reflexivity.
Defined.



(** X5.  The withdrawal counter of a savings account stays between 0
    and 6 over any run of operations, and of any withdrawals made one
    after the other without a reset at most [6 - counter] return true. *)
Theorem saving_withdrawal_cap (s : SavingAccount.t)
    (Hcount : (0 <= SavingAccount.withdrawal_times_this_month_ s <= 6)%Z) :
  (forall ops : list saving_op,
     (0 <= SavingAccount.withdrawal_times_this_month_ (saving_run s ops) <= 6)%Z)
  /\ (forall l : list (Q * Z),
        (0 <= successful_withdrawals s l
         <= 6 - SavingAccount.withdrawal_times_this_month_ s)%Z).
Proof.
  split.
  - intros ops. revert s Hcount.
    induction ops as [| o ops IH]; intros s H; [exact H |].
    cbn [saving_run fold_left]. apply IH. now apply (saving_step_facts s o).
  - intros l. revert s Hcount.
    induction l as [| [amount now] l IH]; intros s H; [cbn; lia |].
    cbn [successful_withdrawals].
    destruct (saving_applyWithdraw_cases s amount now)
      as [(Hfail & Hsame) | (_ & _ & Hcap & s1 & Heq & _ & _ & _ & _ & Hcnt & _)].
    + destruct (SavingAccount.applyWithdraw amount now s) as [[[|] | e |] s'] eqn:E;
        cbn [fst snd] in *; subst s'; try (apply IH; exact H).
      now contradiction Hfail.
    + rewrite Heq. specialize (IH s1). rewrite Hcnt in IH. lia.
Qed.

(** X5 on a restored account with balance 2000: of eight withdrawals of
    100 exactly six succeed. *)
Lemma saving_withdrawal_cap_witness :
  let s := SavingAccount.restore 2000 2000 "cust" in
  (successful_withdrawals s (repeat (100%Q, 7%Z) 8) <= 6)%Z
  /\ successful_withdrawals s (repeat (100%Q, 7%Z) 8) = 6%Z.
Proof.
  intros s.
  assert (Hcount : (0 <= SavingAccount.withdrawal_times_this_month_ s <= 6)%Z)
    by (vm_compute; split; discriminate).
  destruct (saving_withdrawal_cap s Hcount) as [_ H].
  split; [| reflexivity].
  specialize (H (repeat (100%Q, 7%Z) 8)).
  change (SavingAccount.withdrawal_times_this_month_ s) with 0%Z in H.
  change (6 - 0)%Z with 6%Z in H. apply H.
Defined.

(** X6.  Posting interest on a savings account, with
    [interest = balance * (rate / 12)] computed from the rate member of
    the savings class: [applyMonthlyInterest] and [applyInterest] do the
    same; a positive interest raises the balance by it and appends a
    DEPOSIT and then an INTEREST record for it; an interest that is zero
    or negative leaves the balance alone and still appends an INTEREST
    record; the withdrawal counter stays; and the rate written by
    [setEarningInterestRate] plays no part. *)
Theorem saving_interest_posting (s : SavingAccount.t) (now1 now2 : Z) (other_rate : Q) :
  let interest := SavingAccount.getAccountBalance s * (SavingAccount.interest_rate_ s / 12) in
  let s' := SavingAccount.applyInterest now1 now2 s in
  SavingAccount.applyMonthlyInterest now1 now2 s = s'
  /\ SavingAccount.withdrawal_times_this_month_ s'
     = SavingAccount.withdrawal_times_this_month_ s
  /\ (0 < interest ->
      SavingAccount.getAccountBalance s' = SavingAccount.getAccountBalance s + interest
      /\ exists d i : Transaction.t,
           BankAccount.transactions_ (SavingAccount.base s')
           = BankAccount.transactions_ (SavingAccount.base s) ++ [d; i]
           /\ Transaction.type_ d = Transaction.DEPOSIT
           /\ Transaction.amount_ d = interest
           /\ Transaction.type_ i = Transaction.INTEREST
           /\ Transaction.amount_ i = interest)
  /\ (interest <= 0 ->
      SavingAccount.getAccountBalance s' = SavingAccount.getAccountBalance s
      /\ exists i : Transaction.t,
           BankAccount.transactions_ (SavingAccount.base s')
           = BankAccount.transactions_ (SavingAccount.base s) ++ [i]
           /\ Transaction.type_ i = Transaction.INTEREST
           /\ Transaction.amount_ i = interest)
  /\ SavingAccount.getAccountBalance
       (SavingAccount.applyInterest now1 now2
          (snd (SavingAccount.setEarningInterestRate other_rate s)))
     = SavingAccount.getAccountBalance s'.
Proof.
  intros interest s'.
  destruct (saving_applyInterest_cases s now1 now2) as (H1 & _ & Hcnt & _ & _ & Hcases).
  fold interest s' in H1, Hcnt, Hcases.
  split; [exact H1 | split; [exact Hcnt | split; [| split]]].
  - intros Hpos. destruct Hcases as [(Hle & _) | (_ & Hbal & Htx)]; [lra |].
    split; [exact Hbal |]. eexists. eexists. split; [exact Htx |]. repeat split.
  - intros Hle. destruct Hcases as [(_ & Hbal & Htx) | (Hpos & _)]; [| lra].
    split; [exact Hbal |]. eexists. split; [exact Htx |]. repeat split.
  - unfold s', SavingAccount.applyInterest, SavingAccount.applyDeposit,
      SavingAccount.setEarningInterestRate, BankAccount.setEarningInterestRate,
      BankAccount.applyDeposit.
    cbn [snd SavingAccount.with_base SavingAccount.getInterestRate
         SavingAccount.interest_rate_ SavingAccount.getAccountBalance
         SavingAccount.base BankAccount.getAccountBalance BankAccount.account_balance_].
    now destruct (Qle_bool _ 0).
Qed.

(** X6 on a savings account opened with 1200 at a rate of 6 percent:
    the monthly interest is 6. *)
Lemma saving_interest_posting_witness :
  let s := SavingAccount.create 3000 1200 (6 # 100) 1 in
  SavingAccount.getAccountBalance (SavingAccount.applyInterest 2 3 s)
  = SavingAccount.getAccountBalance s
    + SavingAccount.getAccountBalance s * (SavingAccount.interest_rate_ s / 12)
  /\ SavingAccount.getAccountBalance s
     * (SavingAccount.interest_rate_ s / 12) == 6.
Proof.
  intros s. split; [| reflexivity].
  destruct (saving_interest_posting s 2 3 0) as (_ & _ & H & _).
  apply H. reflexivity.
Defined.

(** ** CheckingAccount: the monthly fee *)

Lemma charge_fee_cases (now1 now2 : Z) (c : CheckingAccount.t) :
  let fee := CheckingAccount.monthly_maintenance_fee_ c in
  (fee <= 0
   /\ CheckingAccount.charge_fee now1 now2 c
      = (Throw (invalid_argument "Withdrawal amount must be positive"), c))
  \/ (0 < fee /\ CheckingAccount.getAccountBalance c < fee
      /\ CheckingAccount.charge_fee now1 now2 c
         = (Throw (runtime_error "Insufficient funds for withdrawal"), c))
  \/ (0 < fee /\ fee <= CheckingAccount.getAccountBalance c
      /\ exists c',
           CheckingAccount.charge_fee now1 now2 c = (Return tt, c')
           /\ CheckingAccount.getAccountBalance c' = CheckingAccount.getAccountBalance c - fee
           /\ CheckingAccount.monthly_maintenance_fee_ c' = fee
           /\ CheckingAccount.monthly_transaction_count_ c'
              = CheckingAccount.monthly_transaction_count_ c
           /\ CheckingAccount.getTransactions c'
              = CheckingAccount.getTransactions c
                ++ [Transaction.mk
                      (pretty (BankAccount.account_number_ (CheckingAccount.base c)))
                      Transaction.WITHDRAWAL fee
                      (CheckingAccount.getAccountBalance c - fee) "Withdrawal" now1;
                    Transaction.mk
                      (pretty (BankAccount.account_number_ (CheckingAccount.base c)))
                      Transaction.FEE fee
                      (CheckingAccount.getAccountBalance c - fee) "" now2]).
Proof.
  intros fee. unfold CheckingAccount.charge_fee. fold fee.
  destruct (base_applyWithdraw_cases (CheckingAccount.base c) fee now1)
    as [(H & ->) | [(H1 & H2 & ->) | (H1 & H2 & _)]].
  - left. split; [exact H | now destruct c].
  - right; left. split; [exact H1 |]. split; [exact H2 | now destruct c].
  - right; right. split; [exact H1 |]. split; [exact H2 |].
    unfold BankAccount.applyWithdraw.
    apply Qle_bool_false in H1. apply Qltb_false in H2.
    unfold CheckingAccount.getAccountBalance, BankAccount.getAccountBalance in *.
    rewrite H1, H2.
    eexists. split; [reflexivity |]. cbn. rewrite <- app_assoc. repeat split.
Qed.

(** X7.  [applyMonthlyMaintenanceFee]: an account whose balance reaches
    the waiver balance is left alone; otherwise a fee within the balance
    is taken once and entered twice, as WITHDRAWAL and as FEE, without
    counting as a monthly transaction; a fee above the balance raises an
    InsufficientFunds error whatever the overdraft limit is, and a fee
    that is not positive raises an InvalidInput error, both leaving the
    account unchanged. *)
Theorem checking_monthly_fee (now1 now2 : Z) (c : CheckingAccount.t) :
  let fee := CheckingAccount.monthly_maintenance_fee_ c in
  let balance := CheckingAccount.getAccountBalance c in
  let r := CheckingAccount.applyMonthlyMaintenanceFee now1 now2 c in
  (CheckingAccount.minimum_balance_waiver_ c <= balance -> r = (Return tt, c))
  /\ (balance < CheckingAccount.minimum_balance_waiver_ c ->
      0 < fee -> fee <= balance ->
      fst r = Return tt
      /\ CheckingAccount.getAccountBalance (snd r) = balance - fee
      /\ CheckingAccount.monthly_transaction_count_ (snd r)
         = CheckingAccount.monthly_transaction_count_ c
      /\ exists w f : Transaction.t,
           CheckingAccount.getTransactions (snd r)
           = CheckingAccount.getTransactions c ++ [w; f]
           /\ Transaction.type_ w = Transaction.WITHDRAWAL
           /\ Transaction.amount_ w = fee
           /\ Transaction.type_ f = Transaction.FEE
           /\ Transaction.amount_ f = fee)
  /\ (balance < CheckingAccount.minimum_balance_waiver_ c ->
      0 < fee -> balance < fee ->
      raises InsufficientFunds (fst r) /\ snd r = c)
  /\ (balance < CheckingAccount.minimum_balance_waiver_ c ->
      fee <= 0 ->
      raises InvalidInput (fst r) /\ snd r = c).
Proof.
  intros fee balance r. unfold r, CheckingAccount.applyMonthlyMaintenanceFee,
    CheckingAccount.qualifiesForFeeWaiver. fold balance.
  pose proof (charge_fee_cases now1 now2 c) as Hcases. fold fee balance in Hcases.
  split; [| split; [| split]].
  - intros H. apply Qle_bool_iff in H. now rewrite H.
  - intros H Hpos Hle. apply Qle_bool_false in H. rewrite H. cbn [negb].
    destruct Hcases as [(H1 & _) | [(_ & H1 & _) | (_ & _ & c' & -> & Hb & _ & Hc & Ht)]];
      [lra | lra |].
    cbn [fst snd]. split; [reflexivity | split; [exact Hb | split; [exact Hc |]]].
    eexists. eexists. split; [exact Ht |]. repeat split.
  - intros H Hpos Hlt. apply Qle_bool_false in H. rewrite H. cbn [negb].
    destruct Hcases as [(H1 & _) | [(_ & _ & ->) | (_ & H1 & _)]]; [lra | | lra].
    split; [eexists; split; reflexivity | reflexivity].
  - intros H Hle. apply Qle_bool_false in H. rewrite H. cbn [negb].
    destruct Hcases as [(_ & ->) | [(H1 & _) | (H1 & _)]]; [| lra | lra].
    split; [eexists; split; reflexivity | reflexivity].
Qed.

(** X7 on an account with balance 5, fee 10 and an overdraft limit of
    500: the fee is refused although a withdrawal of 10 would pass. *)
Lemma checking_monthly_fee_witness :
  let c := CheckingAccount.create 1001 500 10 1500 500 5 in
  raises InsufficientFunds (fst (CheckingAccount.applyMonthlyMaintenanceFee 1 2 c))
  /\ snd (CheckingAccount.applyMonthlyMaintenanceFee 1 2 c) = c.
Proof.
  intros c.
  destruct (checking_monthly_fee 1 2 c) as (_ & _ & H & _).
  apply H; reflexivity.
Defined.

(** X8.  [CheckingAccount::applyInterest] on an account whose balance
    exceeds the waiver balance sets the monthly fee to zero and touches
    nothing else; and an account whose fee is zero is never charged
    again: [applyMonthlyMaintenanceFee] either waives or raises an
    InvalidInput error, and both functions leave the fee at zero. *)
Theorem checking_fee_zeroed (now1 now2 : Z) (c : CheckingAccount.t)
    (Habove : CheckingAccount.minimum_balance_waiver_ c < CheckingAccount.getAccountBalance c) :
  let c1 := snd (CheckingAccount.applyInterest now1 now2 c) in
  fst (CheckingAccount.applyInterest now1 now2 c) = Return tt
  /\ c1 = CheckingAccount.with_monthly_maintenance_fee 0 c
  /\ CheckingAccount.monthly_maintenance_fee_ c1 == 0
  /\ (forall (n1 n2 : Z) (c2 : CheckingAccount.t),
        CheckingAccount.monthly_maintenance_fee_ c2 == 0 ->
        (CheckingAccount.applyMonthlyMaintenanceFee n1 n2 c2 = (Return tt, c2)
         \/ (raises InvalidInput (fst (CheckingAccount.applyMonthlyMaintenanceFee n1 n2 c2))
             /\ snd (CheckingAccount.applyMonthlyMaintenanceFee n1 n2 c2) = c2))
        /\ CheckingAccount.monthly_maintenance_fee_
             (snd (CheckingAccount.applyMonthlyMaintenanceFee n1 n2 c2)) == 0
        /\ CheckingAccount.monthly_maintenance_fee_
             (snd (CheckingAccount.applyInterest n1 n2 c2)) == 0).
Proof.
  intros c1. unfold c1, CheckingAccount.applyInterest.
  apply Qltb_true in Habove. rewrite Habove. cbn [fst snd].
  split; [reflexivity | split; [reflexivity | split; [reflexivity |]]].
  intros n1 n2 c2 Hzero.
  assert (Hfee : CheckingAccount.charge_fee n1 n2 c2
                 = (Throw (invalid_argument "Withdrawal amount must be positive"), c2)).
  { destruct (charge_fee_cases n1 n2 c2) as [(_ & H) | [(H & _) | (H & _)]];
      [exact H | lra | lra]. }
  unfold CheckingAccount.applyMonthlyMaintenanceFee.
  rewrite Hfee.
  split; [| split].
  - destruct (negb _); [right | left; reflexivity].
    split; [eexists; split; reflexivity | reflexivity].
  - now destruct (negb _).
  - destruct (Qltb (CheckingAccount.minimum_balance_waiver_ c2)
                (CheckingAccount.getAccountBalance c2)); [reflexivity | exact Hzero].
Qed.

(** X8 on an account with balance 2000 and waiver balance 1500: after
    [applyInterest] the fee is gone, and when the balance has fallen to
    100 the fee run raises an InvalidInput error. *)
Lemma checking_fee_zeroed_witness :
  let c := CheckingAccount.create 1001 0 10 1500 500 2000 in
  let c1 := snd (CheckingAccount.applyInterest 1 2 c) in
  let c2 := CheckingAccount.setAccountBalance 100 c1 in
  CheckingAccount.monthly_maintenance_fee_ c1 == 0
  /\ raises InvalidInput (fst (CheckingAccount.applyMonthlyMaintenanceFee 3 4 c2)).
Proof.
  intros c c1 c2.
  assert (Habove : CheckingAccount.minimum_balance_waiver_ c
                   < CheckingAccount.getAccountBalance c) by reflexivity.
  destruct (checking_fee_zeroed 1 2 c Habove) as (_ & _ & Hzero & Hlater).
  split; [exact Hzero |].
  destruct (Hlater 3%Z 4%Z c2) as ([H | [H _]] & _).
  - reflexivity.
  - vm_compute in H. discriminate H.
  - exact H.
Defined.

(** ** The account store under withdrawals *)

Lemma applyWithdraw_failure_store (fuel : nat) :
  forall (p : addr) (amount : Q) (now : Z) (h h' : heap) (r : outcome bool),
    applyWithdraw fuel p amount now h = Done r h' ->
    r <> Return true ->
    h' = h.
Proof.
  induction fuel as [| fuel IH]; intros p amount now h h' r Hcall Hr.
  - cbn in Hcall. now injection Hcall as _ <-.
  - rewrite applyWithdraw_unfold in Hcall.
    destruct (h !! p) as [[c | s] |] eqn:Hp; [| | discriminate].
    + unfold CheckingAccount_applyWithdraw in Hcall.
      destruct (Qle_bool amount 0); [now injection Hcall as _ <- |].
      destruct (Qltb _ amount).
      * destruct (negb _); [now injection Hcall as _ <- |].
        destruct (lock _ h) as [b |]; [| now injection Hcall as _ <-].
        destruct (applyWithdraw fuel b _ now h) as [[[|] | e |] h1 |] eqn:Hb;
          try discriminate.
        -- destruct (h1 !! p) as [[c1 | s1] |]; try discriminate.
           injection Hcall as <- _. now contradiction Hr.
        -- injection Hcall as _ <-. now apply (IH _ _ _ _ _ _ Hb).
        -- injection Hcall as _ <-. now apply (IH _ _ _ _ _ _ Hb).
        -- injection Hcall as _ <-. now apply (IH _ _ _ _ _ _ Hb).
      * injection Hcall as <- _. now contradiction Hr.
    + destruct (saving_applyWithdraw_cases s amount now)
        as [(Hfail & Hsame) | (_ & _ & _ & s1 & Heq & _)].
      * destruct (SavingAccount.applyWithdraw amount now s) as [r0 s'].
        cbn [snd] in Hsame. subst s'. injection Hcall as _ <-.
        now apply insert_id.
      * rewrite Heq in Hcall. injection Hcall as <- _. now contradiction Hr.
Qed.

(** X9.  A withdrawal that does not return true, at whatever depth of
    the backup chain it stops (refusal, exception, or exhausted call
    depth), leaves every account of the store as it was. *)
Theorem applyWithdraw_failure_atomic (fuel : nat) :
  forall (p : addr) (amount : Q) (now : Z) (h h' : heap) (r : outcome bool),
    applyWithdraw fuel p amount now h = Done r h' ->
    r <> Return true ->
    h' = h.
Proof. apply applyWithdraw_failure_store. Qed.

(** X9 on an account with balance 100 and overdraft limit 50 whose
    backup, a savings account holding 520, cannot give 50. *)
Lemma applyWithdraw_failure_atomic_witness :
  let c := CheckingAccount.linkOverdraftProtection (Some 2%nat)
             (CheckingAccount.create 1001 50 10 1500 500 100) in
  let h : heap :=
    <[1%nat := Checking c]>
      (<[2%nat := Saving (SavingAccount.restore 2002 520 "cust")]> ∅) in
  exists e : exception, applyWithdraw 2 1 200 7 h = Done (Throw e) h.
Proof.
  intros c h.
  destruct (applyWithdraw 2 1 200 7 h) as [r h' |] eqn:E; [| vm_compute in E; discriminate].
  assert (Hr : exists e, r = Throw e).
  { vm_compute in E. injection E as <- _. eauto. }
  destruct Hr as (e & ->). exists e.
  now rewrite (applyWithdraw_failure_atomic 2 1%nat 200 7%Z h h' (Throw e) E).
Defined.

Lemma saving_floors_insert_checking (h : B64.heap) (p : addr) (c : B64.CheckingAccount.t) :
  B64.saving_floors h -> B64.saving_floors (<[p := B64.Checking c]> h).
Proof.
  intros Hh q s Hq. destruct (decide (p = q)) as [-> | N].
  - rewrite lookup_insert_eq in Hq. discriminate.
  - rewrite lookup_insert_ne in Hq by exact N. exact (Hh q s Hq).
Qed.

Lemma saving_floors_insert_saving (h : B64.heap) (p : addr) (s : B64.SavingAccount.t) :
  B64.saving_floors h ->
  Double.ltb (B64.SavingAccount.getAccountBalance s) (B64.SavingAccount.min_balance_ s)
  = false ->
  B64.saving_floors (<[p := B64.Saving s]> h).
Proof.
  intros Hh Hs q s0 Hq. destruct (decide (p = q)) as [-> | N].
  - rewrite lookup_insert_eq in Hq. now injection Hq as <-.
  - rewrite lookup_insert_ne in Hq by exact N. exact (Hh q s0 Hq).
Qed.

(** Whatever its outcome, a withdrawal leaves a savings account that was
    not below its minimum balance not below it: the balance changes only
    to a rounded difference that has passed the test. *)
Lemma b64_saving_applyWithdraw_floor
    (s : B64.SavingAccount.t) (amount : Double.t) (now : Z) :
  let s' := snd (B64.SavingAccount.applyWithdraw amount now s) in
  Double.ltb (B64.SavingAccount.getAccountBalance s) (B64.SavingAccount.min_balance_ s)
  = false ->
  Double.ltb (B64.SavingAccount.getAccountBalance s') (B64.SavingAccount.min_balance_ s')
  = false.
Proof.
  intros s' Hs. unfold s', B64.SavingAccount.applyWithdraw.
  destruct (Double.ltb (Double.sub _ amount) _) eqn:E1; [exact Hs |].
  destruct (6 <=? _)%Z; [exact Hs |].
  unfold B64.BankAccount.applyWithdraw.
  destruct (Double.leb amount (Double.of_Z 0)); [exact Hs |].
  destruct (Double.ltb _ amount); [exact Hs |].
  exact E1.
Qed.

(** X10.  No withdrawal, whichever way the chain of backup accounts
    runs and whatever its outcome, takes a savings account below its
    minimum balance, in the binary64 arithmetic of the code: a store in
    which no savings account is below its minimum stays so. *)
Theorem applyWithdraw_keeps_saving_floors (fuel : nat) :
  forall (p : addr) (amount : Double.t) (now : Z) (h h' : B64.heap) (r : outcome bool),
    B64.saving_floors h ->
    B64.applyWithdraw fuel p amount now h = B64.Done r h' ->
    B64.saving_floors h'.
Proof.
  induction fuel as [| fuel IH]; intros p amount now h h' r Hh Hcall.
  - cbn in Hcall. now injection Hcall as _ <-.
  - rewrite b64_applyWithdraw_unfold in Hcall.
    destruct (h !! p) as [[c | s] |] eqn:Hp; [| | discriminate].
    + unfold B64.CheckingAccount_applyWithdraw in Hcall.
      destruct (Double.leb amount (Double.of_Z 0)); [now injection Hcall as _ <- |].
      destruct (Double.ltb _ amount).
      * destruct (negb _); [now injection Hcall as _ <- |].
        destruct (B64.lock _ h) as [b |]; [| now injection Hcall as _ <-].
        destruct (B64.applyWithdraw fuel b _ now h) as [[[|] | e |] h1 |] eqn:Hb;
          try discriminate;
          pose proof (IH _ _ _ _ _ _ Hh Hb) as Hh1;
          try (now injection Hcall as _ <-).
        destruct (h1 !! p) as [[c1 | s1] |]; try discriminate.
        injection Hcall as _ <-.
        now apply saving_floors_insert_checking.
      * injection Hcall as _ <-. now apply saving_floors_insert_checking.
    + pose proof (b64_saving_applyWithdraw_floor s amount now (Hh p s Hp)) as Hfloor.
      destruct (B64.SavingAccount.applyWithdraw amount now s) as [r0 s'].
      injection Hcall as _ <-. now apply saving_floors_insert_saving.
Qed.

(** X10 on the store of the overdraft example, with a savings backup
    that holds 520: the withdrawal of 200 from the checking account ends
    with the backup's exception, and the backup is not below its
    minimum. *)
Lemma applyWithdraw_keeps_saving_floors_witness :
  let c := B64.CheckingAccount.linkOverdraftProtection (Some 2%nat)
             (B64.CheckingAccount.create 1001 (Double.of_Z 50) (Double.of_Z 10)
                (Double.of_Z 1500) (Double.of_Z 500) (Double.of_Z 100)) in
  let sb := B64.SavingAccount.restore 2002 (Double.of_Z 520) "cust" in
  let h : B64.heap := <[1%nat := B64.Checking c]> (<[2%nat := B64.Saving sb]> ∅) in
  exists (r : outcome bool) (h' : B64.heap),
    B64.applyWithdraw 2 1 (Double.of_Z 200) 7 h = B64.Done r h' /\ B64.saving_floors h'.
Proof.
  intros c sb h.
  assert (Hh : B64.saving_floors h).
  { apply saving_floors_insert_checking, saving_floors_insert_saving;
      [| vm_compute; reflexivity].
    intros q s Hq. now rewrite lookup_empty in Hq. }
  destruct (B64.applyWithdraw 2 1 (Double.of_Z 200) 7 h) as [r h' |] eqn:E;
    [| vm_compute in E; discriminate].
  exists r, h'. split; [reflexivity |].
  exact (applyWithdraw_keeps_saving_floors 2 1%nat (Double.of_Z 200) 7%Z h h' r Hh E).
Defined.

(** ** DebitCard: setting, changing and checking the PIN *)

Section PinRoundTrip.

Variable hashPin : string -> string -> string.

Lemma setPin_cases (pin : string) (d : DebitCard.t) (w : world) :
  ((String.length pin < 4 \/ 6 < String.length pin)%nat
   /\ DebitCard.setPin hashPin pin d w = (Return (false, d), w))
  \/ ((4 <= String.length pin <= 6)%nat /\ (length (entropy w) < 16)%nat
      /\ DebitCard.setPin hashPin pin d w
         = (Throw (runtime_error "Failed to generate secure salt"), w))
  \/ ((4 <= String.length pin <= 6)%nat /\ (16 <= length (entropy w))%nat
      /\ exists salt : string,
           DebitCard.setPin hashPin pin d w
           = (Return
                (true,
                 DebitCard.mk (DebitCard.card d) salt (hashPin pin salt)
                   (DebitCard.daily_withdrawal_limit_ d) (DebitCard.daily_spend_amount_ d)
                   (DebitCard.contactless_enable_ d) (DebitCard.failed_attempts_ d)
                   (DebitCard.linked_debit_card_account_ d) (DebitCard.pin_ d)),
              mkWorld (drop 16 (entropy w)) (issued_numbers_ w))).
Proof.
  unfold DebitCard.setPin.
  destruct (Nat.ltb_spec (String.length pin) 4) as [H1 | H1]; cbn [orb].
  { left. split; [lia | reflexivity]. }
  destruct (Nat.ltb_spec 6 (String.length pin)) as [H2 | H2].
  { left. split; [lia | reflexivity]. }
  right. unfold bind, RAND_bytes.
  destruct (Nat.leb_spec 16 (length (entropy w))) as [H3 | H3].
  - right. split; [lia |]. split; [exact H3 |]. eexists. reflexivity.
  - left. split; [lia |]. split; [exact H3 | reflexivity].
Qed.

Lemma verifyPin_right (pin : string) (d : DebitCard.t) :
  (DebitCard.failed_attempts_ d < 3)%Z ->
  hashPin pin (DebitCard.salt_ d) = DebitCard.pin_hash_ d ->
  DebitCard.verifyPin hashPin pin d = (true, DebitCard.with_failed_attempts 0 d).
Proof.
  intros Hlt Hhash. unfold DebitCard.verifyPin.
  apply Z.leb_gt in Hlt. rewrite Hlt, Hhash, String.eqb_refl. reflexivity.
Qed.

(** X11.  [setPin] looks at the length of the PIN only: outside 4..6 it
    returns false and changes neither card nor generator state; inside,
    any characters are accepted, sixteen bytes are drawn for the salt (a
    failing draw throws and changes nothing), the failed-attempt counter
    is kept, and on a card that is not locked [verifyPin] with the same
    PIN then returns true and clears the counter. *)
Theorem setPin_verifyPin_round_trip (pin : string) (d : DebitCard.t) (w : world) :
  ((String.length pin < 4 \/ 6 < String.length pin)%nat ->
   DebitCard.setPin hashPin pin d w = (Return (false, d), w))
  /\ ((4 <= String.length pin <= 6)%nat -> (length (entropy w) < 16)%nat ->
      DebitCard.setPin hashPin pin d w
      = (Throw (runtime_error "Failed to generate secure salt"), w))
  /\ ((4 <= String.length pin <= 6)%nat -> (16 <= length (entropy w))%nat ->
      exists d' : DebitCard.t,
        DebitCard.setPin hashPin pin d w
        = (Return (true, d'), mkWorld (drop 16 (entropy w)) (issued_numbers_ w))
        /\ DebitCard.failed_attempts_ d' = DebitCard.failed_attempts_ d
        /\ DebitCard.card d' = DebitCard.card d
        /\ ((DebitCard.failed_attempts_ d < 3)%Z ->
            DebitCard.verifyPin hashPin pin d'
            = (true, DebitCard.with_failed_attempts 0 d'))).
Proof.
  destruct (setPin_cases pin d w)
    as [(H & E) | [(H1 & H2 & E) | (H1 & H2 & salt & E)]].
  - split; [intros _; exact E | split; intros; lia].
  - split; [intros; lia | split; [intros _ _; exact E | intros; lia]].
  - split; [intros; lia | split; [intros; lia |]].
    intros _ _. eexists. split; [exact E |]. cbn.
    split; [reflexivity | split; [reflexivity |]].
    intros Hlt. now apply verifyPin_right.
Qed.

(** X12.  [changePin] on a card that is not locked: a wrong old PIN
    returns false, counts as a failed attempt and keeps the stored hash;
    a right old PIN with a new PIN of 4 to 6 characters (and sixteen
    random bytes at hand) returns true, after which [verifyPin] accepts
    the new PIN; a right old PIN with a new PIN of another length
    returns false, the stored hash stays, and the counter is cleared. *)
Theorem changePin_behaviour (old_pin new_pin : string) (d : DebitCard.t) (w : world)
    (Hopen : (DebitCard.failed_attempts_ d < 3)%Z) :
  (wrong_pin hashPin d old_pin ->
   exists d' : DebitCard.t,
     DebitCard.changePin hashPin old_pin new_pin d w = (Return (false, d'), w)
     /\ DebitCard.failed_attempts_ d' = (DebitCard.failed_attempts_ d + 1)%Z
     /\ DebitCard.pin_hash_ d' = DebitCard.pin_hash_ d
     /\ DebitCard.salt_ d' = DebitCard.salt_ d)
  /\ (hashPin old_pin (DebitCard.salt_ d) = DebitCard.pin_hash_ d ->
      (4 <= String.length new_pin <= 6)%nat -> (16 <= length (entropy w))%nat ->
      exists (d' : DebitCard.t) (w' : world),
        DebitCard.changePin hashPin old_pin new_pin d w = (Return (true, d'), w')
        /\ DebitCard.verifyPin hashPin new_pin d'
           = (true, DebitCard.with_failed_attempts 0 d'))
  /\ (hashPin old_pin (DebitCard.salt_ d) = DebitCard.pin_hash_ d ->
      (String.length new_pin < 4 \/ 6 < String.length new_pin)%nat ->
      DebitCard.changePin hashPin old_pin new_pin d w
      = (Return (false, DebitCard.with_failed_attempts 0 d), w)).
Proof.
  split; [| split].
  - intros Hwrong.
    destruct (verifyPin_wrong hashPin old_pin d Hopen Hwrong) as (R & C & S & P & _).
    unfold DebitCard.changePin.
    destruct (DebitCard.verifyPin hashPin old_pin d) as [ok d1].
    cbn [fst snd] in *. subst ok. cbn [negb].
    exists d1. repeat split; assumption.
  - intros Hright Hlen Hent. unfold DebitCard.changePin.
    rewrite (verifyPin_right old_pin d Hopen Hright). cbn [negb].
    destruct (setPin_cases new_pin (DebitCard.with_failed_attempts 0 d) w)
      as [(H & _) | [(_ & H & _) | (_ & _ & salt & E)]]; [lia | lia |].
    rewrite E. eexists. eexists. split; [reflexivity |].
    apply verifyPin_right; [cbn; lia | reflexivity].
  - intros Hright Hlen. unfold DebitCard.changePin.
    rewrite (verifyPin_right old_pin d Hopen Hright). cbn [negb].
    destruct (setPin_cases new_pin (DebitCard.with_failed_attempts 0 d) w)
      as [(_ & E) | [(H & _) | (H & _)]]; [exact E | lia | lia].
Qed.

End PinRoundTrip.

(** X11 with a PIN that is no number. *)
Lemma setPin_verifyPin_round_trip_witness :
  let hashPin := fun pin salt : string => (salt ++ pin)%string in
  let d := DebitCard.mk (Card.mk "4000000000000000" "01/29" "000" true false)
             "" "" 500 0 true 0 (Some 1%nat) "" in
  let w := mkWorld (repeat Byte.x00 16) ∅ in
  exists d' : DebitCard.t,
    fst (DebitCard.setPin hashPin "ab-cd" d w) = Return (true, d').
Proof.
  intros hashPin d w.
  destruct (setPin_verifyPin_round_trip hashPin "ab-cd" d w) as (_ & _ & H).
  destruct H as (d' & E & _); [cbn; lia | cbn; lia |].
  exists d'. now rewrite E.
Defined.

(** X12 on a card with PIN 1234: a change attempted with the old PIN
    0000 fails and is counted. *)
Lemma changePin_behaviour_witness :
  let hashPin := fun pin salt : string => (salt ++ pin)%string in
  let d := DebitCard.mk (Card.mk "4000000000000000" "01/29" "000" true false)
             "s" (hashPin "1234" "s") 500 0 true 0 (Some 1%nat) "" in
  let w := mkWorld (repeat Byte.x00 16) ∅ in
  exists d' : DebitCard.t,
    DebitCard.changePin hashPin "0000" "4321" d w = (Return (false, d'), w)
    /\ DebitCard.failed_attempts_ d' = 1%Z.
Proof.
  intros hashPin d w.
  assert (Hopen : (DebitCard.failed_attempts_ d < 3)%Z) by reflexivity.
  destruct (changePin_behaviour hashPin "0000" "4321" d w Hopen) as (H & _).
  destruct H as (d' & E & C & _); [vm_compute; discriminate |].
  exists d'. split; [exact E | exact C].
Defined.

(** ** DebitCard: when the lock engages *)

Section PinStreak.

Variable hashPin : string -> string -> string.

Lemma verify_all_cons (d : DebitCard.t) (a : string) (l : list string) :
  verify_all hashPin d (a :: l)
  = verify_all hashPin (snd (DebitCard.verifyPin hashPin a d)) l.
Proof. reflexivity. Qed.

Lemma verify_all_locked (attempts : list string) :
  forall d : DebitCard.t,
    (3 <= DebitCard.failed_attempts_ d)%Z -> verify_all hashPin d attempts = d.
Proof.
  induction attempts as [| a l IH]; intros d Hlock; [reflexivity |].
  rewrite verify_all_cons, verifyPin_locked by exact Hlock. now apply IH.
Qed.

Lemma is_wrong_same (d d' : DebitCard.t) (l : list string) :
  DebitCard.salt_ d' = DebitCard.salt_ d ->
  DebitCard.pin_hash_ d' = DebitCard.pin_hash_ d ->
  map (is_wrong hashPin d') l = map (is_wrong hashPin d) l.
Proof.
  intros Hs Hh. apply map_ext. intros a. unfold is_wrong. now rewrite Hs, Hh.
Qed.

Lemma verify_all_streak (attempts : list string) :
  forall (d : DebitCard.t) (c : nat),
    DebitCard.failed_attempts_ d = Z.of_nat c -> (c < 3)%nat ->
    let d' := verify_all hashPin d attempts in
    let t := three_in_a_row (repeat true c ++ map (is_wrong hashPin d) attempts) in
    (t = true -> (3 <= DebitCard.failed_attempts_ d')%Z /\ DebitCard.isActivated d' = false)
    /\ (t = false ->
        (DebitCard.failed_attempts_ d' < 3)%Z
        /\ DebitCard.isActivated d' = DebitCard.isActivated d).
Proof.
  induction attempts as [| a l IH]; intros d c Hc Hlt.
  - cbn [verify_all fold_left map]. rewrite app_nil_r.
    destruct c as [| [| [| c]]]; try lia; cbn;
      (split; [discriminate | intros _; split; [lia | reflexivity]]).
  - rewrite verify_all_cons. cbn [map].
    unfold DebitCard.verifyPin.
    destruct (Z.leb_spec 3 (DebitCard.failed_attempts_ d)) as [Hge | _]; [lia |].
    fold (is_wrong hashPin d a).
    destruct (is_wrong hashPin d a) eqn:W; cbn [snd].
    + cbn [DebitCard.with_failed_attempts DebitCard.failed_attempts_].
      destruct (Z.leb_spec 3 (DebitCard.failed_attempts_ d + 1)) as [Hthird | Hopen].
      * rewrite verify_all_locked by (cbn; lia).
        assert (c = 2%nat) as -> by lia.
        cbn. split; [intros _; split; [lia | reflexivity] | discriminate].
      * set (d1 := DebitCard.with_failed_attempts (DebitCard.failed_attempts_ d + 1) d).
        assert (H1 : DebitCard.failed_attempts_ d1 = Z.of_nat (S c)) by (cbn; lia).
        specialize (IH d1 (S c) H1 ltac:(lia)).
        rewrite (is_wrong_same d d1 l eq_refl eq_refl) in IH.
        replace (repeat true c ++ true :: map (is_wrong hashPin d) l)
          with (repeat true (S c) ++ map (is_wrong hashPin d) l)
          by (destruct c as [| [| c]]; [reflexivity | reflexivity | lia]).
        exact IH.
    + set (d1 := DebitCard.with_failed_attempts 0 d).
      specialize (IH d1 0%nat eq_refl ltac:(lia)).
      rewrite (is_wrong_same d d1 l eq_refl eq_refl) in IH.
      replace (three_in_a_row (repeat true c ++ false :: map (is_wrong hashPin d) l))
        with (three_in_a_row (repeat true 0 ++ map (is_wrong hashPin d) l)).
      * exact IH.
      * destruct c as [| [| [| c]]]; try lia; cbn;
          destruct (map (is_wrong hashPin d) l) as [| x [| y m]]; reflexivity.
Qed.

(** X13.  On a card whose counter is 0, a sequence of PIN checks locks
    the card exactly when it contains three wrong attempts in a row: a
    right PIN in between clears the counter.  When the lock engages the
    card is deactivated; as long as it does not, the checks leave the
    activation flag as it was. *)
Theorem pin_lock_iff_three_wrong_in_a_row (d : DebitCard.t) (attempts : list string) :
  DebitCard.failed_attempts_ d = 0%Z ->
  let d' := verify_all hashPin d attempts in
  ((3 <= DebitCard.failed_attempts_ d')%Z
   <-> three_in_a_row (map (is_wrong hashPin d) attempts) = true)
  /\ ((3 <= DebitCard.failed_attempts_ d')%Z -> DebitCard.isActivated d' = false)
  /\ ((DebitCard.failed_attempts_ d' < 3)%Z ->
      DebitCard.isActivated d' = DebitCard.isActivated d).
Proof.
  intros H0 d'.
  destruct (verify_all_streak attempts d 0%nat H0 ltac:(lia)) as [Ht Hf].
  cbn [repeat app] in Ht, Hf. fold d' in Ht, Hf.
  destruct (three_in_a_row (map (is_wrong hashPin d) attempts)).
  - destruct (Ht eq_refl) as [H1 H2].
    split; [split; [reflexivity | intros _; exact H1] |].
    split; [intros _; exact H2 | lia].
  - destruct (Hf eq_refl) as [H1 H2].
    split; [split; [lia | discriminate] |].
    split; [lia | intros _; exact H2].
Qed.

End PinStreak.

(** X13 on a card with PIN 1234: two wrong attempts, the right PIN, two
    wrong attempts again leave the card open. *)
Lemma pin_lock_iff_three_wrong_in_a_row_witness :
  let hashPin := fun pin salt : string => (salt ++ pin)%string in
  let d := DebitCard.mk (Card.mk "4000000000000000" "01/29" "000" true false)
             "s" (hashPin "1234" "s") 500 0 true 0 (Some 1%nat) "" in
  let attempts := ["0000"; "1111"; "1234"; "2222"; "3333"]%string in
  (DebitCard.failed_attempts_ (verify_all hashPin d attempts) < 3)%Z
  /\ DebitCard.isActivated (verify_all hashPin d attempts) = true.
Proof.
  intros hashPin d attempts.
  destruct (pin_lock_iff_three_wrong_in_a_row hashPin d attempts eq_refl)
    as (Hiff & _ & Hact).
  assert (Hopen : (DebitCard.failed_attempts_ (verify_all hashPin d attempts) < 3)%Z)
    by (vm_compute; reflexivity).
  split; [exact Hopen | exact (Hact Hopen)].
Defined.

(** ** DebitCard: payments *)



(** ** Card: expiry dates *)

Lemma expiry_text_scans (m y : Z) :
  (1 <= m <= 12)%Z -> (0 <= y <= 99)%Z ->
  Card.sscanf_month_year (Card.setw2 m ++ "/" ++ Card.setw2 y)%string = (m, y).
Proof.
  intros Hm Hy.
  set (check := fun m y : nat =>
         let r := Card.sscanf_month_year
                    (Card.setw2 (Z.of_nat m) ++ "/" ++ Card.setw2 (Z.of_nat y))%string in
         (fst r =? Z.of_nat m)%Z && (snd r =? Z.of_nat y)%Z).
  assert (Hall : forallb (fun m => forallb (check m) (seq 0 100)) (seq 1 12) = true)
    by (vm_compute; reflexivity).
  rewrite forallb_forall in Hall.
  specialize (Hall (Z.to_nat m)). rewrite forallb_forall in Hall.
  specialize (Hall ltac:(apply in_seq; lia) (Z.to_nat y) ltac:(apply in_seq; lia)).
  unfold check in Hall. cbn zeta in Hall.
  rewrite !Z2Nat.id in Hall by lia.
  apply andb_true_iff in Hall as [H1 H2].
  apply Z.eqb_eq in H1, H2.
  destruct (Card.sscanf_month_year _) as [a b]. cbn in H1, H2. congruence.
Qed.

Lemma byte_month_bounds (b : Byte.byte) :
  (1 <= 1 + Z.rem (Z.of_N (Byte.to_N b)) 12 <= 12)%Z.
Proof.
  pose proof (N2Z.is_nonneg (Byte.to_N b)) as H.
  pose proof (Z.rem_bound_pos (Z.of_N (Byte.to_N b)) 12 H ltac:(lia)). lia.
Qed.

(** X15.  [generateExpiryDate] always returns, and when the year of
    expiry [current_year + validYears] lies in 2000..2099 the text it
    returns is read back by [isExpired] as a month 1..12 of that very
    year: the card counts as expired from the month after that month
    on, and not before. *)
Theorem generated_expiry_date (current_year validYears : Z) (w : world) :
  (2000 <= current_year + validYears < 2100)%Z ->
  exists (month : Z) (e : string),
    (1 <= month <= 12)%Z
    /\ fst (Card.generateExpiryDate current_year validYears w) = Return e
    /\ Card.sscanf_month_year e = (month, (current_year + validYears - 2000)%Z)
    /\ forall (Y M : Z) (c : Card.t),
         Card.expiration_ c = e ->
         Card.isExpired Y M c
         = ((current_year + validYears <? Y)%Z
            || ((current_year + validYears =? Y)%Z && (month <? M)%Z)).
Proof.
  intros Hyear.
  assert (Hrem : Z.rem (current_year + validYears) 100
                 = (current_year + validYears - 2000)%Z).
  { rewrite Z.rem_mod_nonneg by lia.
    symmetry. apply (Z.mod_unique _ _ 20); lia. }
  assert (Hscan : forall month : Z,
            (1 <= month <= 12)%Z ->
            forall (Y M : Z) (c : Card.t),
              Card.expiration_ c
              = (Card.setw2 month ++ "/"
                 ++ Card.setw2 (current_year + validYears - 2000))%string ->
              Card.isExpired Y M c
              = ((current_year + validYears <? Y)%Z
                 || ((current_year + validYears =? Y)%Z && (month <? M)%Z))).
  { intros month Hm Y M c Hc. unfold Card.isExpired.
    rewrite Hc, expiry_text_scans by lia.
    replace (current_year + validYears - 2000 + 2000)%Z
      with (current_year + validYears)%Z by lia.
    destruct (_ <? Y)%Z; [reflexivity |].
    destruct (_ && _); reflexivity. }
  unfold Card.generateExpiryDate, bind, RAND_bytes.
  destruct (1 <=? length (entropy w))%nat.
  - destruct (take 1 (entropy w)) as [| b rest]; cbn [fst ret]; rewrite Hrem.
    + exists 1%Z. eexists. split; [lia |]. split; [reflexivity |].
      split; [apply (expiry_text_scans 1); lia | apply (Hscan 1%Z); lia].
    + eexists. eexists. split; [apply (byte_month_bounds b) |].
      split; [reflexivity |].
      split; [apply expiry_text_scans; [apply byte_month_bounds | lia] |].
      apply Hscan, byte_month_bounds.
  - cbn [fst ret]. rewrite Hrem.
    exists 1%Z. eexists. split; [lia |]. split; [reflexivity |].
    split; [apply (expiry_text_scans 1); lia | apply (Hscan 1%Z); lia].
Qed.

(** X15 for a card made in 2026 with three years of validity. *)
Lemma generated_expiry_date_witness :
  exists (month : Z) (e : string),
    fst (Card.generateExpiryDate 2026 3 (mkWorld [Byte.x05] ∅)) = Return e
    /\ Card.sscanf_month_year e = (month, 29%Z).
Proof.
  destruct (generated_expiry_date 2026 3 (mkWorld [Byte.x05] ∅) ltac:(lia))
    as (month & e & _ & He & Hscan & _).
  exists month, e. split; [exact He | exact Hscan].
Defined.

(** X16.  [isExpired] reads the expiration text only.  A text that does
    not begin (after white space) with a digit or a sign leaves both
    numbers at 0 and counts as month 0 of the year 2000, and so does the
    text that [markExpired] writes: a card built by the default
    constructor, and every card after [markExpired], is reported expired
    at every date from January 2000 on; [markExpired] also deactivates
    the card. *)
Theorem expiry_without_date (c : Card.t) (Y M : Z) :
  (match Card.skip_spaces (chars (Card.expiration_ c)) with
   | [] => True
   | ch :: _ => isdigit ch = false /\ ch <> "+"%char /\ ch <> "-"%char
   end ->
   Card.isExpired Y M c = ((2000 <? Y)%Z || ((2000 =? Y)%Z && (0 <? M)%Z)))
  /\ Card.isExpired Y M (Card.markExpired c)
     = ((2000 <? Y)%Z || ((2000 =? Y)%Z && (0 <? M)%Z))
  /\ Card.isActivated (Card.markExpired c) = false
  /\ ((2000 <= Y)%Z -> (1 <= M)%Z ->
      Card.isExpired Y M Card.default = true
      /\ Card.isExpired Y M (Card.markExpired c) = true).
Proof.
  assert (Hform : forall b1 b2 b3 : bool,
            (if b1 then true else if b2 && b3 then true else false) = b1 || (b2 && b3))
    by (intros [] [] []; reflexivity).
  assert (Hmark : Card.isExpired Y M (Card.markExpired c)
                  = ((2000 <? Y)%Z || ((2000 =? Y)%Z && (0 <? M)%Z)))
    by (unfold Card.isExpired; cbn; apply Hform).
  assert (Htext : forall c0 : Card.t,
            match Card.skip_spaces (chars (Card.expiration_ c0)) with
            | [] => True
            | ch :: _ => isdigit ch = false /\ ch <> "+"%char /\ ch <> "-"%char
            end ->
            Card.isExpired Y M c0 = ((2000 <? Y)%Z || ((2000 =? Y)%Z && (0 <? M)%Z))).
  { intros c0 H. unfold Card.isExpired, Card.sscanf_month_year, Card.scan_2d.
    destruct (Card.skip_spaces (chars (Card.expiration_ c0))) as [| ch rest].
    - cbn. apply Hform.
    - destruct H as (Hd & Hp & Hm). rewrite Hd.
      apply Ascii.eqb_neq in Hp, Hm. rewrite Hp, Hm. cbn. apply Hform. }
  split; [exact (Htext c) | split; [exact Hmark | split; [reflexivity |]]].
  intros HY HM. rewrite Hmark.
  assert (Hdate : ((2000 <? Y)%Z || ((2000 =? Y)%Z && (0 <? M)%Z)) = true).
  { destruct (Z.ltb_spec 2000 Y); [reflexivity |].
    assert (Y = 2000%Z) as -> by lia. cbn.
    apply Z.ltb_lt. lia. }
  split; [| exact Hdate].
  rewrite Htext; [exact Hdate |].
  cbn. repeat split; discriminate.
Qed.

(** X16 for a card whose expiration text was never set. *)
Lemma expiry_without_date_witness :
  Card.isExpired 2026 10 Card.default = true.
Proof.
  destruct (expiry_without_date Card.default 2026 10) as (_ & _ & _ & H).
  destruct H as [H _]; [lia | lia | exact H].
Defined.

(** ** DebitCard: the constructed card *)

Lemma slash_text_not_placeholder (a b : string) :
  Card.empty (a ++ "/" ++ b)%string = false
  /\ String.eqb (a ++ "/" ++ b)%string "NONE" = false.
Proof.
  assert (Hin : In "/"%char (chars (a ++ "/" ++ b)%string)).
  { rewrite chars_app. apply in_or_app. right. left. reflexivity. }
  split.
  - unfold Card.empty. apply String.eqb_neq. intros E. rewrite E in Hin. exact Hin.
  - apply String.eqb_neq. intros E. rewrite E in Hin. cbn in Hin.
    repeat (destruct Hin as [Hin | Hin]; [discriminate |]). exact Hin.
Qed.

Lemma Card_create_fresh (current_year : Z) (w w1 : world) (base : Card.t) :
  Card.create current_year true false w = (Return base, w1) ->
  exists month year : string,
    base = Card.mk "NONE" (month ++ "/" ++ year)%string "000" true false.
Proof.
  unfold Card.create, Card.generateExpiryDate, bind, RAND_bytes. cbn [negb].
  destruct (1 <=? length (entropy w))%nat; cbn [ret]; intros E;
    injection E as <- _; eexists; eexists; reflexivity.
Qed.

Lemma DebitCard_create_facts
    (hashPin : string -> string -> string) (current_year : Z) (rand_status : bool)
    (account : option addr) (daily_withdrawal_limit : Q) (pin : string)
    (w w' : world) (d : DebitCard.t) :
  DebitCard.create hashPin current_year rand_status account daily_withdrawal_limit pin w
  = (Return d, w') ->
  rand_status = true
  /\ DebitCard.isActivated d = true
  /\ DebitCard.failed_attempts_ d = 0%Z
  /\ DebitCard.linked_debit_card_account_ d = account
  /\ DebitCard.daily_withdrawal_limit_ d = daily_withdrawal_limit
  /\ DebitCard.daily_spend_amount_ d = 0
  /\ DebitCard.contactless_enable_ d = true
  /\ Card.cvv_ (DebitCard.card d) = "000"%string
  /\ fst (DebitCard.verifyPin hashPin
            (if (4 <=? String.length pin)%nat && (String.length pin <=? 6)%nat
             then pin else "0000"%string) d) = true
  /\ DebitCard.validate d = Qltb 0 daily_withdrawal_limit.
Proof.
  unfold DebitCard.create, bind. intros E.
  destruct (Card.create current_year true false w) as [[base | e |] w1] eqn:E1;
    try discriminate.
  apply Card_create_fresh in E1 as (month & year & ->).
  destruct (DebitCard.generateCardNumberWithPrefix "4" w1) as [[number | e |] w2] eqn:E2;
    try discriminate.
  pose proof (generateCardNumberWithPrefix_returns w1 w2 number E2)
    as (digits & Hnumber & _).
  destruct rand_status; cbn [negb] in E; [| discriminate].
  assert (Hcard : forall (salt hash : string),
            Card.empty hash = false ->
            let d0 := DebitCard.mk
                        (Card.mk number (month ++ "/" ++ year)%string "000" true false)
                        salt hash daily_withdrawal_limit 0 true 0 account "" in
            DebitCard.validate d0 = Qltb 0 daily_withdrawal_limit).
  { intros salt hash Hhash. unfold DebitCard.validate, Card.validate. cbn.
    destruct (slash_text_not_placeholder month year) as [He Hn].
    unfold Card.empty in *. rewrite He, Hn, Hhash, Hnumber. cbn. reflexivity. }
  assert (Hverify : forall (salt p0 : string),
            let d0 := DebitCard.mk
                        (Card.mk number (month ++ "/" ++ year)%string "000" true false)
                        salt (hashPin p0 salt) daily_withdrawal_limit 0 true 0 account "" in
            fst (DebitCard.verifyPin hashPin p0 d0) = true).
  { intros salt p0. unfold DebitCard.verifyPin. cbn. now rewrite String.eqb_refl. }
  match type of E with
  | context [DebitCard.setPin hashPin pin ?d0 w2] =>
      destruct (setPin_cases hashPin pin d0 w2)
        as [(Hlen & Eset) | [(_ & _ & Eset) | (Hlen & _ & salt & Eset)]];
        rewrite Eset in E; cbn [fst snd] in E
  end.
  - match type of E with
    | context [DebitCard.setPin hashPin "0000" ?d0 w2] =>
        destruct (setPin_cases hashPin "0000" d0 w2)
          as [(Hlen0 & _) | [(_ & _ & Eset0) | (_ & _ & salt & Eset0)]];
          [cbn in Hlen0; lia | rewrite Eset0 in E; discriminate
          | rewrite Eset0 in E; cbn [fst snd] in E]
    end.
    unfold ret, throw in E. cbn [fst snd DebitCard.pin_hash_] in E.
    destruct (Card.empty (hashPin "0000" salt)) eqn:Hhash; [discriminate |].
    injection E as <- _.
    assert (Hpin : (4 <=? String.length pin)%nat && (String.length pin <=? 6)%nat = false).
    { destruct Hlen as [Hlen | Hlen].
      - apply Nat.leb_gt in Hlen. now rewrite Hlen.
      - apply Nat.leb_gt in Hlen. rewrite Hlen. apply andb_false_r. }
    rewrite Hpin.
    repeat split; try reflexivity; [apply Hverify | apply Hcard, Hhash].
  - discriminate.
  - unfold ret, throw in E. cbn [fst snd DebitCard.pin_hash_] in E.
    destruct (Card.empty (hashPin pin salt)) eqn:Hhash; [discriminate |].
    injection E as <- _.
    assert (Hpin : (4 <=? String.length pin)%nat && (String.length pin <=? 6)%nat = true).
    { apply andb_true_iff. split; apply Nat.leb_le; lia. }
    rewrite Hpin.
    repeat split; try reflexivity; [apply Hverify | apply Hcard, Hhash].
Qed.

(** X17.  A [DebitCard] that its constructor returns: the entropy pool
    reported ready; the card is activated, not locked, linked to the
    account given, carries the limit given, a spent amount of 0,
    contactless enabled and the CVV 000; its PIN is the one given when
    that has 4 to 6 characters and 0000 otherwise, so [verifyPin] with
    that PIN returns true; and [validate] accepts the card exactly when
    the limit is positive. *)
Theorem debit_card_constructed
    (hashPin : string -> string -> string) (current_year : Z) (rand_status : bool)
    (account : option addr) (daily_withdrawal_limit : Q) (pin : string)
    (w w' : world) (d : DebitCard.t) :
  DebitCard.create hashPin current_year rand_status account daily_withdrawal_limit pin w
  = (Return d, w') ->
  rand_status = true
  /\ DebitCard.isActivated d = true
  /\ DebitCard.failed_attempts_ d = 0%Z
  /\ DebitCard.linked_debit_card_account_ d = account
  /\ DebitCard.daily_withdrawal_limit_ d = daily_withdrawal_limit
  /\ DebitCard.daily_spend_amount_ d = 0
  /\ DebitCard.contactless_enable_ d = true
  /\ Card.cvv_ (DebitCard.card d) = "000"%string
  /\ fst (DebitCard.verifyPin hashPin
            (if (4 <=? String.length pin)%nat && (String.length pin <=? 6)%nat
             then pin else "0000"%string) d) = true
  /\ DebitCard.validate d = Qltb 0 daily_withdrawal_limit.
Proof. apply DebitCard_create_facts. Qed.

(** X17 for a card requested with a PIN of three characters. *)
Lemma debit_card_constructed_witness :
  let hashPin := fun pin salt : string => (salt ++ pin)%string in
  let w := mkWorld (repeat Byte.x00 32) ∅ in
  exists (d : DebitCard.t) (w' : world),
    DebitCard.create hashPin 2026 true (Some 1%nat) 500 "123" w = (Return d, w')
    /\ fst (DebitCard.verifyPin hashPin "0000" d) = true
    /\ DebitCard.validate d = true.
Proof.
  intros hashPin w.
  destruct (DebitCard.create hashPin 2026 true (Some 1%nat) 500 "123" w) as [r w'] eqn:E.
  assert (Hr : exists d, r = Return d) by (vm_compute in E; injection E as <- _; eauto).
  destruct Hr as (d & ->). exists d, w'. split; [reflexivity |].
  destruct (debit_card_constructed hashPin 2026 true (Some 1%nat) 500 "123" w w' d E)
    as (_ & _ & _ & _ & _ & _ & _ & _ & Hv & Hval).
  split; [exact Hv | exact Hval].
Defined.

(** ** CardGenerator: outcomes of [generate] and [pregenerate] *)

Lemma to_int_small (z : Z) : (- 2 ^ 31 <= z < 2 ^ 31)%Z -> to_int z = z.
Proof. intros H. unfold to_int. rewrite Z.mod_small; lia. Qed.

Lemma generate_cases (bin_prefix : string) (w : world) :
  let n := String.length bin_prefix in
  (forallb isdigit (chars bin_prefix) = false
   /\ CardGenerator.generate bin_prefix w
      = (Throw (invalid_argument "BIN must contain only digits"), w))
  \/ (forallb isdigit (chars bin_prefix) = true /\ (15 < n)%nat
      /\ ((Z.of_nat n <= 2 ^ 31)%Z ->
          CardGenerator.generate bin_prefix w
          = (Throw (length_error "cannot create std::vector larger than max_size()"), w)))
  \/ (forallb isdigit (chars bin_prefix) = true /\ (n <= 15)%nat
      /\ (length (entropy w) < 15 - n)%nat
      /\ CardGenerator.generate bin_prefix w
         = (Throw (runtime_error "Secure random generation failed"), w))
  \/ (forallb isdigit (chars bin_prefix) = true /\ (n <= 15)%nat
      /\ (15 - n <= length (entropy w))%nat
      /\ exists number : string,
           CardGenerator.generate bin_prefix w
           = (Return number,
              mkWorld (drop (15 - n) (entropy w)) ({[ number ]} ∪ issued_numbers_ w))).
Proof.
  intros n. unfold CardGenerator.generate.
  destruct (forallb isdigit (chars bin_prefix)) eqn:Hdigits; cbn [negb];
    [right | left; split; reflexivity].
  fold n.
  destruct (le_lt_dec n 15) as [Hle | Hgt].
  - right.
    rewrite to_int_small by lia.
    destruct (Z.ltb_spec (16 - Z.of_nat n - 1) 0) as [Hneg | _]; [lia |].
    replace (Z.to_nat (16 - Z.of_nat n - 1)) with (15 - n)%nat by lia.
    unfold bind, RAND_bytes.
    destruct (Nat.leb_spec (15 - n) (length (entropy w))) as [Hent | Hent].
    + right. split; [reflexivity |]. split; [exact Hle |]. split; [exact Hent |].
      eexists. reflexivity.
    + left. split; [reflexivity |]. split; [exact Hle |]. split; [exact Hent |].
      reflexivity.
  - left. split; [reflexivity |]. split; [exact Hgt |]. intros Hsize.
    rewrite to_int_small by lia.
    destruct (Z.ltb_spec (16 - Z.of_nat n - 1) 0) as [_ | Hnn]; [reflexivity | lia].
Qed.

(** X18.  [generate] has four outcomes.  A prefix with a character that
    is no digit throws [invalid_argument]; a prefix of digits longer
    than 15 characters throws [length_error]; a shorter prefix of digits
    throws [runtime_error] when fewer than [15 - length] random bytes are
    at hand; in these three cases neither the registry nor the random
    source has changed.  Otherwise exactly [15 - length] bytes are
    consumed, the number returned has sixteen characters, the registry
    grows by that number alone, and [validate] accepts it. *)
Theorem generate_outcomes (bin_prefix : string) (w : world) :
  (forallb isdigit (chars bin_prefix) = false ->
   CardGenerator.generate bin_prefix w
   = (Throw (invalid_argument "BIN must contain only digits"), w))
  /\ (forallb isdigit (chars bin_prefix) = true ->
      (15 < String.length bin_prefix)%nat ->
      (Z.of_nat (String.length bin_prefix) <= 2 ^ 31)%Z ->
      CardGenerator.generate bin_prefix w
      = (Throw (length_error "cannot create std::vector larger than max_size()"), w))
  /\ (forallb isdigit (chars bin_prefix) = true ->
      (String.length bin_prefix <= 15)%nat ->
      (length (entropy w) < 15 - String.length bin_prefix)%nat ->
      CardGenerator.generate bin_prefix w
      = (Throw (runtime_error "Secure random generation failed"), w))
  /\ (forallb isdigit (chars bin_prefix) = true ->
      (String.length bin_prefix <= 15)%nat ->
      (15 - String.length bin_prefix <= length (entropy w))%nat ->
      exists number : string,
        CardGenerator.generate bin_prefix w
        = (Return number,
           mkWorld (drop (15 - String.length bin_prefix) (entropy w))
             ({[ number ]} ∪ issued_numbers_ w))
        /\ String.length number = 16%nat
        /\ CardGenerator.validate number ({[ number ]} ∪ issued_numbers_ w) = true).
Proof.
  destruct (generate_cases bin_prefix w)
    as [(Hd & E) | [(Hd & Hn & E) | [(Hd & Hn & He & E) | (Hd & Hn & He & number & E)]]];
    cbn zeta in *.
  - split; [intros _; exact E |].
    split; [| split]; intros Hd'; congruence.
  - split; [congruence |].
    split; [intros _ _; exact E |].
    split; intros; lia.
  - split; [congruence |].
    split; [intros; lia |].
    split; [intros _ _ _; exact E | intros; lia].
  - split; [congruence |].
    split; [intros; lia |].
    split; [intros; lia |].
    intros _ _ _. exists number. split; [exact E |].
    destruct (generate_returns bin_prefix w _ number Hn E) as (Hlen & _ & _ & _ & Hval).
    split; [exact Hlen | exact Hval].
Qed.

(** X18 for the prefix 4a. *)
Lemma generate_outcomes_witness :
  CardGenerator.generate "4a" (mkWorld (repeat Byte.x00 14) ∅)
  = (Throw (invalid_argument "BIN must contain only digits"),
     mkWorld (repeat Byte.x00 14) ∅).
Proof.
  destruct (generate_outcomes "4a" (mkWorld (repeat Byte.x00 14) ∅)) as [H _].
  apply H. reflexivity.
Defined.

(** X19.  [pregenerate(count)] needs fourteen random bytes per number.
    With [14 * count] bytes at hand it returns and has consumed exactly
    those; with fewer it throws [runtime_error] at the first number for
    which bytes are missing, and the numbers issued before stay in the
    registry.  In either case no number leaves the registry. *)
Theorem pregenerate_outcomes (count : nat) (w : world) :
  issued_numbers_ w ⊆ issued_numbers_ (snd (CardGenerator.pregenerate count w))
  /\ ((14 * count <= length (entropy w))%nat ->
      fst (CardGenerator.pregenerate count w) = Return tt
      /\ entropy (snd (CardGenerator.pregenerate count w))
         = drop (14 * count) (entropy w))
  /\ ((length (entropy w) < 14 * count)%nat ->
      fst (CardGenerator.pregenerate count w)
      = Throw (runtime_error "Secure random generation failed")
      /\ forall (number : string) (w1 : world),
           CardGenerator.generate "5" w = (Return number, w1) ->
           number ∈ issued_numbers_ (snd (CardGenerator.pregenerate count w))).
Proof.
  revert w. induction count as [| count IH]; intros w.
  - cbn. split; [reflexivity |]. split; [intros _; split; reflexivity | lia].
  - cbn [CardGenerator.pregenerate]. unfold bind.
    pose proof (generate_cases "5" w) as Hg. cbn zeta in Hg.
    change (String.length "5") with 1%nat in Hg.
    change (15 - 1)%nat with 14%nat in Hg.
    destruct Hg
      as [(Hd & _) | [(_ & Hn & _) | [(_ & _ & He & E) | (_ & _ & He & number & E)]]];
      [discriminate | lia | |].
    + rewrite E. cbn [fst snd].
      split; [reflexivity |]. split; [lia |].
      intros _. split; [reflexivity | intros ? ? ?; discriminate].
    + rewrite E. cbn beta iota.
      destruct (IH (mkWorld (drop 14 (entropy w)) ({[number]} ∪ issued_numbers_ w)))
        as (Hsub & Hok & Hfail).
      cbn [entropy issued_numbers_] in Hsub, Hok, Hfail.
      rewrite length_drop in Hok, Hfail.
      split; [| split].
      * etransitivity; [| exact Hsub]. apply union_subseteq_r.
      * intros Hlen. destruct (Hok ltac:(lia)) as [H1 H2].
        split; [exact H1 |]. rewrite H2, drop_drop. f_equal. lia.
      * intros Hlen. destruct (Hfail ltac:(lia)) as [H1 _].
        split; [exact H1 |].
        intros number' w1 E'. injection E' as <- _.
        apply Hsub, elem_of_union_l, elem_of_singleton_2. reflexivity.
Qed.

(** X19 with bytes for one number and a half. *)
Lemma pregenerate_outcomes_witness :
  let w := mkWorld (repeat Byte.x00 20) ∅ in
  fst (CardGenerator.pregenerate 2 w)
  = Throw (runtime_error "Secure random generation failed")
  /\ "5000000000000005"%string ∈ issued_numbers_ (snd (CardGenerator.pregenerate 2 w)).
Proof.
  intros w.
  destruct (pregenerate_outcomes 2 w) as (_ & _ & H).
  destruct H as [H1 H2]; [cbn; lia |].
  split; [exact H1 |].
  apply (H2 _ (mkWorld (repeat Byte.x00 6) {[ "5000000000000005"%string ]})).
  vm_compute. reflexivity.
Defined.

(** X20.  [generate] never consults the registry: the number it returns
    depends on the prefix and the random bytes alone, so a number that
    is already registered is issued again, and the registry is then
    left as it was. *)
Theorem generate_ignores_registry
    (bin_prefix : string) (bytes : list Byte.byte) (issued issued' : gset string)
    (number : string) (w1 : world) :
  CardGenerator.generate bin_prefix (mkWorld bytes issued) = (Return number, w1) ->
  fst (CardGenerator.generate bin_prefix (mkWorld bytes issued')) = Return number
  /\ (number ∈ issued' ->
      issued_numbers_ (snd (CardGenerator.generate bin_prefix (mkWorld bytes issued')))
      = issued').
Proof.
  unfold CardGenerator.generate.
  destruct (forallb isdigit (chars bin_prefix)); cbn [negb]; [| discriminate].
  destruct (_ <? 0)%Z; [discriminate |].
  unfold bind, RAND_bytes. cbn [entropy issued_numbers_].
  destruct (_ <=? _)%nat; [| discriminate].
  intros E. injection E as <- _. cbn [fst snd issued_numbers_].
  split; [reflexivity |].
  intros Hin. apply subseteq_union_1_L, singleton_subseteq_l, Hin.
Qed.

(** X20 with the bytes that gave 5000000000000005 once already. *)
Lemma generate_ignores_registry_witness :
  fst (CardGenerator.generate "5"
         (mkWorld (repeat Byte.x00 14) {[ "5000000000000005"%string ]}))
  = Return "5000000000000005"%string.
Proof.
  apply (generate_ignores_registry "5" (repeat Byte.x00 14) ∅
           {[ "5000000000000005"%string ]} "5000000000000005"
           (mkWorld [] {[ "5000000000000005"%string ]})).
  vm_compute. reflexivity.
Defined.

(** ** CreditCard: balance and limit *)








(** ** CheckingAccount: the debit cards of an account *)

Lemma find_card_Some (cards : gmap nat DebitCard.t) (l : list addr) (n : string) (k : addr) :
  Bank.find_card cards l n = Some k ->
  In k l /\ exists d, cards !! k = Some d /\ DebitCard.getCardNumber d = n.
Proof.
  induction l as [| j l IH]; cbn [Bank.find_card]; [discriminate |].
  destruct (cards !! j) as [d |] eqn:Ej.
  - destruct (String.eqb_spec (DebitCard.getCardNumber d) n) as [Hn | Hn].
    + intros E. injection E as <-. split; [now left | eauto].
    + intros E. destruct (IH E) as [Hin Hd]. split; [now right | exact Hd].
  - intros E. destruct (IH E) as [Hin Hd]. split; [now right | exact Hd].
Qed.

Lemma find_card_None (cards : gmap nat DebitCard.t) (l : list addr) (n : string) :
  Bank.find_card cards l n = None ->
  forall (k : addr) (d : DebitCard.t),
    In k l -> cards !! k = Some d -> DebitCard.getCardNumber d <> n.
Proof.
  induction l as [| j l IH]; cbn [Bank.find_card]; intros E k d Hin Hk; [destruct Hin |].
  destruct (cards !! j) as [dj |] eqn:Ej.
  - destruct (String.eqb_spec (DebitCard.getCardNumber dj) n) as [Hn | Hn]; [discriminate |].
    destruct Hin as [<- | Hin]; [congruence | exact (IH E k d Hin Hk)].
  - destruct Hin as [<- | Hin]; [congruence | exact (IH E k d Hin Hk)].
Qed.

Lemma find_card_insert
    (cards : gmap nat DebitCard.t) (l : list addr) (n : string) (k : addr)
    (d d' : DebitCard.t) :
  cards !! k = Some d ->
  DebitCard.getCardNumber d' = DebitCard.getCardNumber d ->
  Bank.find_card (<[k := d']> cards) l n = Bank.find_card cards l n.
Proof.
  intros Hk Hn. induction l as [| j l IH]; cbn [Bank.find_card]; [reflexivity |].
  destruct (decide (k = j)) as [<- | Hne].
  - rewrite lookup_insert_eq, Hk, Hn. now rewrite IH.
  - rewrite lookup_insert_ne by exact Hne. now rewrite IH.
Qed.

Lemma blocked_card_payment
    (fuel : nat) (amount : Q) (now : Z) (d : DebitCard.t) (h : heap) :
  DebitCard.processPayment fuel amount now
    (DebitCard.markExpired (DebitCard.setActivated false d)) h
  = (DebitCard.markExpired (DebitCard.setActivated false d), Done (Return false) h).
Proof. reflexivity. Qed.

Lemma blocked_card_validates (d : DebitCard.t) :
  DebitCard.validate d = true ->
  DebitCard.validate (DebitCard.markExpired (DebitCard.setActivated false d)) = true.
Proof.
  unfold DebitCard.validate. intros H.
  apply andb_true_iff in H as [H Hlimit]. apply andb_true_iff in H as [Hcard Hhash].
  cbn [DebitCard.markExpired DebitCard.setActivated DebitCard.with_card DebitCard.card
       DebitCard.pin_hash_ DebitCard.daily_withdrawal_limit_].
  rewrite Hhash, Hlimit, !andb_true_r.
  apply card_validate_spec in Hcard as (Hn & _ & Hc).
  apply card_validate_spec. cbn. repeat split; try tauto; discriminate.
Qed.

(** X23.  [blockDebitCard] on a live checking account goes through the
    account's cards in order.  It returns false, changing nothing, when
    no card carries the number.  Otherwise it returns true and
    deactivates and expires one card with that number; the card stays in
    the account's list and keeps its number, so that blocking it again
    returns true and changes nothing more, and every payment with it
    returns false and leaves the accounts as they are. *)
Theorem blockDebitCard_outcome
    (this : addr) (cardNumber : string) (b : Bank.t) (c : CheckingAccount.t) :
  Bank.accounts b !! this = Some (Checking c) ->
  exists (r : bool) (b' : Bank.t),
    Bank.blockDebitCard this cardNumber b = Some (r, b')
    /\ Bank.accounts b' = Bank.accounts b
    /\ Bank.credit_cards b' = Bank.credit_cards b
    /\ (r = false ->
        b' = b
        /\ forall (k : addr) (d : DebitCard.t),
             In k (CheckingAccount.debit_cards_ c) ->
             Bank.debit_cards b !! k = Some d ->
             DebitCard.getCardNumber d <> cardNumber)
    /\ (r = true ->
        exists (k : addr) (d : DebitCard.t),
          In k (CheckingAccount.debit_cards_ c)
          /\ Bank.debit_cards b !! k = Some d
          /\ DebitCard.getCardNumber d = cardNumber
          /\ Bank.debit_cards b'
             = <[k := DebitCard.markExpired (DebitCard.setActivated false d)]>
                 (Bank.debit_cards b)
          /\ DebitCard.isActivated
               (DebitCard.markExpired (DebitCard.setActivated false d)) = false
          /\ Bank.blockDebitCard this cardNumber b' = Some (true, b')
          /\ forall (fuel : nat) (amount : Q) (now : Z) (h : heap),
               snd (DebitCard.processPayment fuel amount now
                      (DebitCard.markExpired (DebitCard.setActivated false d)) h)
               = Done (Return false) h).
Proof.
  intros Hthis. unfold Bank.blockDebitCard. rewrite Hthis.
  destruct (Bank.find_card (Bank.debit_cards b) (CheckingAccount.debit_cards_ c) cardNumber)
    as [k |] eqn:Hfind.
  - destruct (find_card_Some _ _ _ _ Hfind) as (Hin & d & Hk & Hn).
    rewrite Hk. eexists. eexists. split; [reflexivity |].
    split; [reflexivity |]. split; [reflexivity |].
    split; [discriminate |]. intros _.
    exists k, d. split; [exact Hin |]. split; [exact Hk |]. split; [exact Hn |].
    split; [reflexivity |]. split; [reflexivity |].
    split; [| intros; now rewrite blocked_card_payment].
    cbn [Bank.with_debit_cards Bank.accounts Bank.debit_cards Bank.credit_cards].
    rewrite Hthis.
    rewrite (find_card_insert _ _ _ k d) by (exact Hk || reflexivity).
    rewrite Hfind, lookup_insert_eq, insert_insert_eq. reflexivity.
  - exists false, b. split; [reflexivity |]. split; [reflexivity |].
    split; [reflexivity |].
    split; [intros _; split; [reflexivity | exact (find_card_None _ _ _ Hfind)]
           | discriminate].
Qed.

(** X23 on an account with two cards, the second of which carries the
    number asked for. *)
Lemma blockDebitCard_outcome_witness :
  let card := fun number : string =>
    DebitCard.mk (Card.mk number "01/29" "000" true false)
      "s" "h" 500 0 true 0 (Some 1%nat) "" in
  let c := CheckingAccount.with_debit_cards [5%nat; 6%nat]
             (CheckingAccount.create 7 50 10 1000 500 100) in
  let b := Bank.mk (<[1%nat := Checking c]> ∅)
             (<[5%nat := card "4000000000000001"]>
                (<[6%nat := card "4000000000000002"]> ∅)) ∅ in
  exists b' : Bank.t,
    Bank.blockDebitCard 1 "4000000000000002" b = Some (true, b')
    /\ Bank.accounts b' = Bank.accounts b.
Proof.
  intros card c b.
  destruct (blockDebitCard_outcome 1%nat "4000000000000002" b c eq_refl)
    as (r & b' & E & Hacc & _).
  assert (Hr : r = true) by (vm_compute in E; now injection E as -> _).
  subst r. exists b'. split; [exact E | exact Hacc].
Defined.

(** X24.  [issueDebitCard] on a live checking account.  When the card's
    constructor returns, the card is stored at an address no debit card
    occupied and appended to the account's list; it is linked to the
    account, carries the account's daily withdrawal limit, is activated
    and accepts the PIN 0000; no other card and no other account
    changes.  When the constructor throws, the exception is swallowed
    and accounts and cards are as before, though random bytes may have
    been consumed. *)
Theorem issueDebitCard_outcome
    (hashPin : string -> string -> string) (current_year : Z) (rand_status : bool)
    (this : addr) (b : Bank.t) (w : world) (c : CheckingAccount.t) :
  Bank.accounts b !! this = Some (Checking c) ->
  exists (b' : Bank.t) (w' : world),
    Bank.issueDebitCard hashPin current_year rand_status this b w = Some (b', w')
    /\ issued_numbers_ w' = issued_numbers_ w
    /\ Bank.credit_cards b' = Bank.credit_cards b
    /\ (forall p : addr, p <> this -> Bank.accounts b' !! p = Bank.accounts b !! p)
    /\ (forall (j : addr) (d0 : DebitCard.t),
          Bank.debit_cards b !! j = Some d0 -> Bank.debit_cards b' !! j = Some d0)
    /\ ((forall d : DebitCard.t,
           fst (DebitCard.create hashPin current_year rand_status (Some this)
                  (CheckingAccount.daily_withdrawal_limit_ c) "0000" w) <> Return d) ->
        b' = b)
    /\ (forall d : DebitCard.t,
          fst (DebitCard.create hashPin current_year rand_status (Some this)
                 (CheckingAccount.daily_withdrawal_limit_ c) "0000" w) = Return d ->
          exists k : addr,
            Bank.debit_cards b !! k = None
            /\ Bank.debit_cards b' = <[k := d]> (Bank.debit_cards b)
            /\ Bank.accounts b' !! this
               = Some (Checking
                         (CheckingAccount.with_debit_cards
                            (CheckingAccount.debit_cards_ c ++ [k]) c))
            /\ DebitCard.linked_debit_card_account_ d = Some this
            /\ DebitCard.daily_withdrawal_limit_ d
               = CheckingAccount.daily_withdrawal_limit_ c
            /\ DebitCard.isActivated d = true
            /\ fst (DebitCard.verifyPin hashPin "0000" d) = true).
Proof.
  intros Hthis. unfold Bank.issueDebitCard. rewrite Hthis.
  pose proof (keeps_registry_DebitCard_create hashPin current_year rand_status (Some this)
                (CheckingAccount.daily_withdrawal_limit_ c) "0000" w) as Hkeep.
  destruct (DebitCard.create hashPin current_year rand_status (Some this)
              (CheckingAccount.daily_withdrawal_limit_ c) "0000" w)
    as [[d | e |] w1] eqn:E; cbn [fst snd] in *.
  - set (k := fresh (dom (Bank.debit_cards b))).
    assert (Hk : Bank.debit_cards b !! k = None)
      by (apply not_elem_of_dom, is_fresh).
    eexists. eexists. split; [reflexivity |].
    cbn [Bank.accounts Bank.debit_cards Bank.credit_cards].
    split; [exact Hkeep |]. split; [reflexivity |].
    split; [intros p Hp; now rewrite lookup_insert_ne by congruence |].
    split.
    { intros j d0 Hj. rewrite lookup_insert_ne by congruence. exact Hj. }
    split; [intros H; now contradiction (H d) |].
    intros d' Ed. injection Ed as <-.
    destruct (DebitCard_create_facts _ _ _ _ _ _ _ _ _ E)
      as (_ & Hact & _ & Hlink & Hlimit & _ & _ & _ & Hpin & _).
    exists k. split; [exact Hk |]. split; [reflexivity |].
    split; [now rewrite lookup_insert_eq |].
    split; [exact Hlink |]. split; [exact Hlimit |]. split; [exact Hact | exact Hpin].
  - exists b, w1. split; [reflexivity |]. split; [exact Hkeep |].
    split; [reflexivity |]. split; [reflexivity |].
    split; [intros j d0 Hj; exact Hj |].
    split; [reflexivity | discriminate].
  - exists b, w1. split; [reflexivity |]. split; [exact Hkeep |].
    split; [reflexivity |]. split; [reflexivity |].
    split; [intros j d0 Hj; exact Hj |].
    split; [reflexivity | discriminate].
Qed.

(** X24 when the entropy pool is reported not ready. *)
Lemma issueDebitCard_outcome_witness :
  let hashPin := fun pin salt : string => (salt ++ pin)%string in
  let c := CheckingAccount.create 7 50 10 1000 500 100 in
  let b := Bank.mk (<[1%nat := Checking c]> ∅) ∅ ∅ in
  let w := mkWorld (repeat Byte.x00 32) ∅ in
  exists w' : world, Bank.issueDebitCard hashPin 2026 false 1 b w = Some (b, w').
Proof.
  intros hashPin c b w.
  destruct (issueDebitCard_outcome hashPin 2026 false 1%nat b w c eq_refl)
    as (b' & w' & E & _ & _ & _ & _ & Hfail & _).
  exists w'. rewrite E, Hfail; [reflexivity |].
  intros d. vm_compute. discriminate.
Defined.

(** ** Services: replacing a card *)

Lemma cvv_of_byte_length (b : Byte.byte) :
  String.length (pretty (100 + Z.rem (Z.of_N (Byte.to_N b)) 900)%Z) = 3%nat.
Proof. destruct b; vm_compute; reflexivity. Qed.

Lemma generateCVV_returns :
  returns Card.generateCVV (fun cvv => String.length cvv = 3%nat).
Proof.
  unfold Card.generateCVV.
  eapply returns_bind; [apply returns_any |].
  intros [[| b0 rest] |] _; try apply returns_throw.
  apply returns_ret, cvv_of_byte_length.
Qed.

Lemma generateExpiryDate_returns (current_year validYears : Z) :
  returns (Card.generateExpiryDate current_year validYears)
    (fun e => exists month year : string, e = (month ++ "/" ++ year)%string).
Proof.
  unfold Card.generateExpiryDate.
  eapply returns_bind; [apply returns_any |].
  intros r _. apply returns_ret. eexists. eexists. reflexivity.
Qed.

Lemma CreditCard_create_facts
    (current_year : Z) (draws : nat -> N) (credit_limit : Q) (isActivated : bool)
    (linked_account : option addr) (w w' : world) (c : CreditCard.t) :
  CreditCard.create current_year draws credit_limit isActivated linked_account w
  = (Return c, w') ->
  CreditCard.credit_limit_ c = credit_limit
  /\ CreditCard.current_balance_ c = 0
  /\ CreditCard.linked_account_ c = linked_account
  /\ CreditCard.isActivated c = isActivated
  /\ CreditCard.contactless_enable_ c = false
  /\ CreditCard.validate c = Qltb 0 credit_limit.
Proof.
  revert w w' c.
  change (returns
            (CreditCard.create current_year draws credit_limit isActivated linked_account)
            (fun c =>
               CreditCard.credit_limit_ c = credit_limit
               /\ CreditCard.current_balance_ c = 0
               /\ CreditCard.linked_account_ c = linked_account
               /\ CreditCard.isActivated c = isActivated
               /\ CreditCard.contactless_enable_ c = false
               /\ CreditCard.validate c = Qltb 0 credit_limit)).
  rewrite CreditCard_create_unfold.
  eapply returns_bind; [apply generateCVV_returns | intros cvv' Hcvv].
  eapply returns_bind; [apply generateExpiryDate_returns | intros e' (month & year & ->)].
  apply returns_ret. repeat split.
  unfold CreditCard.validate. cbn [CreditCard.card CreditCard.credit_limit_].
  replace (Card.validate _) with true; [reflexivity |].
  symmetry. apply card_validate_spec. cbn.
  destruct (slash_text_not_placeholder month year) as [He Hn].
  apply String.eqb_neq in Hn. unfold Card.empty in He. apply String.eqb_neq in He.
  repeat split; try assumption; try discriminate;
    intros E; rewrite E in Hcvv; discriminate.
Qed.

(** X25.  [replaceCard] on a live debit card that [validate] accepts.
    The old card is deactivated and expired first, in every outcome; it
    still passes [validate], so the call can be repeated on it.  No
    account changes: the old card stays in its account's list and the
    new card is not entered there.  When the linked account is gone the
    call returns no card, with the old card blocked all the same.  A
    card returned is a new object linked to the same account, with the
    same daily limit, activated, unlocked and valid. *)
Theorem replaceCard_debit_outcome
    (hashPin : string -> string -> string) (current_year : Z) (rand_status : bool)
    (pin_draws number_draws : nat -> N) (k : addr) (debit : DebitCard.t)
    (b : Bank.t) (w : world) :
  Bank.debit_cards b !! k = Some debit ->
  DebitCard.validate debit = true ->
  let old := DebitCard.markExpired (DebitCard.setActivated false debit) in
  exists (r : outcome (option card_ref)) (b' : Bank.t) (w' : world),
    Services.replaceCard hashPin current_year rand_status pin_draws number_draws
      (Some (DebitRef k)) b w = Some (r, b', w')
    /\ Bank.accounts b' = Bank.accounts b
    /\ Bank.credit_cards b' = Bank.credit_cards b
    /\ Bank.debit_cards b' !! k = Some old
    /\ DebitCard.isActivated old = false
    /\ DebitCard.validate old = true
    /\ (lock (DebitCard.linked_debit_card_account_ debit) (Bank.accounts b) = None ->
        r = Return None /\ w' = w
        /\ Bank.debit_cards b' = <[k := old]> (Bank.debit_cards b))
    /\ (forall ref : card_ref,
          r = Return (Some ref) ->
          exists (k' : addr) (new : DebitCard.t),
            ref = DebitRef k'
            /\ k' <> k
            /\ Bank.debit_cards b !! k' = None
            /\ Bank.debit_cards b' = <[k' := new]> (<[k := old]> (Bank.debit_cards b))
            /\ DebitCard.linked_debit_card_account_ new
               = DebitCard.linked_debit_card_account_ debit
            /\ DebitCard.daily_withdrawal_limit_ new
               = DebitCard.daily_withdrawal_limit_ debit
            /\ DebitCard.isActivated new = true
            /\ DebitCard.failed_attempts_ new = 0%Z
            /\ DebitCard.validate new = true).
Proof.
  intros Hk Hvalid old.
  assert (Hold : DebitCard.validate old = true) by now apply blocked_card_validates.
  unfold Services.replaceCard. rewrite Hk, Hvalid. cbn [negb]. fold old.
  cbn [Bank.with_debit_cards Bank.accounts Bank.debit_cards Bank.credit_cards].
  change (DebitCard.linked_debit_card_account_ old)
    with (DebitCard.linked_debit_card_account_ debit).
  destruct (lock (DebitCard.linked_debit_card_account_ debit) (Bank.accounts b))
    as [account |] eqn:Hlock.
  - assert (Hlink : DebitCard.linked_debit_card_account_ debit = Some account).
    { destruct (DebitCard.linked_debit_card_account_ debit) as [p |]; [| discriminate].
      cbn in Hlock. destruct (Bank.accounts b !! p); [| discriminate].
      now injection Hlock as ->. }
    destruct (DebitCard.create hashPin current_year rand_status (Some account)
                (DebitCard.getDailyWithdrawalLimit old)
                (Services.generateRandomPIN pin_draws) w)
      as [[new | e |] w1] eqn:E.
    + set (k' := fresh (dom (<[k := old]> (Bank.debit_cards b)))).
      assert (Hfresh : k' ∉ dom (<[k := old]> (Bank.debit_cards b))) by apply is_fresh.
      rewrite dom_insert_L in Hfresh.
      apply not_elem_of_union in Hfresh as [Hne Hnew].
      apply not_elem_of_singleton in Hne. apply not_elem_of_dom in Hnew.
      eexists. eexists. eexists. split; [reflexivity |].
      cbn [Bank.with_debit_cards Bank.accounts Bank.debit_cards Bank.credit_cards].
      split; [reflexivity |]. split; [reflexivity |].
      split; [rewrite lookup_insert_ne by congruence; apply lookup_insert_eq |].
      split; [reflexivity |]. split; [exact Hold |].
      split; [discriminate |].
      intros ref Href. injection Href as <-.
      destruct (DebitCard_create_facts _ _ _ _ _ _ _ _ _ E)
        as (_ & Hact & Hfail & Hl & Hlimit & _ & _ & _ & _ & Hval).
      exists k', new. split; [reflexivity |]. split; [exact Hne |].
      split; [exact Hnew |]. split; [reflexivity |].
      split; [congruence |]. split; [exact Hlimit |].
      split; [exact Hact |]. split; [exact Hfail |].
      rewrite Hval. unfold DebitCard.validate in Hvalid.
      apply andb_true_iff in Hvalid as [_ Hpos]. exact Hpos.
    + eexists. eexists. eexists. split; [reflexivity |].
      cbn [Bank.with_debit_cards Bank.accounts Bank.debit_cards Bank.credit_cards].
      split; [reflexivity |]. split; [reflexivity |].
      split; [apply lookup_insert_eq |].
      split; [reflexivity |]. split; [exact Hold |].
      split; discriminate.
    + eexists. eexists. eexists. split; [reflexivity |].
      cbn [Bank.with_debit_cards Bank.accounts Bank.debit_cards Bank.credit_cards].
      split; [reflexivity |]. split; [reflexivity |].
      split; [apply lookup_insert_eq |].
      split; [reflexivity |]. split; [exact Hold |].
      split; discriminate.
  - eexists. eexists. eexists. split; [reflexivity |].
    cbn [Bank.accounts Bank.debit_cards Bank.credit_cards].
    split; [reflexivity |]. split; [reflexivity |].
    split; [apply lookup_insert_eq |].
    split; [reflexivity |]. split; [exact Hold |].
    split; [intros _; repeat split | discriminate].
Qed.

(** X25 on a card whose account no longer exists. *)
Lemma replaceCard_debit_outcome_witness :
  let hashPin := fun pin salt : string => (salt ++ pin)%string in
  let debit := DebitCard.mk (Card.mk "4000000000000001" "01/29" "000" true false)
                 "s" "h" 500 0 true 0 (Some 1%nat) "" in
  let b := Bank.mk ∅ (<[5%nat := debit]> ∅) ∅ in
  let w := mkWorld (repeat Byte.x00 32) ∅ in
  Services.replaceCard hashPin 2026 true (fun _ => 0%N) (fun _ => 0%N)
    (Some (DebitRef 5)) b w
  = Some (Return None,
          Bank.mk ∅
            (<[5%nat := DebitCard.markExpired (DebitCard.setActivated false debit)]>
               (<[5%nat := debit]> ∅)) ∅,
          w).
Proof.
  intros hashPin debit b w.
  destruct (replaceCard_debit_outcome hashPin 2026 true (fun _ => 0%N) (fun _ => 0%N)
              5%nat debit b w eq_refl eq_refl)
    as (r & b' & w' & E & Hacc & Hcc & _ & _ & _ & Hdead & _).
  destruct (Hdead eq_refl) as (-> & -> & Hcards).
  rewrite E. destruct b' as [acc dc cc]. cbn in Hacc, Hcc, Hcards. now subst.
Defined.

(** X26.  [replaceCard] on a live credit card that [validate] accepts.
    The old card is deactivated and expired in every outcome and keeps
    the balance owed.  A card returned is a new object with the same
    limit and the same linked account, activated and valid, whose
    balance is 0: the amount owed is not carried over.  No account
    changes. *)
Theorem replaceCard_credit_outcome
    (hashPin : string -> string -> string) (current_year : Z) (rand_status : bool)
    (pin_draws number_draws : nat -> N) (k : addr) (credit : CreditCard.t)
    (b : Bank.t) (w : world) :
  Bank.credit_cards b !! k = Some credit ->
  CreditCard.validate credit = true ->
  let old := CreditCard.markExpired (CreditCard.setActivated false credit) in
  exists (r : outcome (option card_ref)) (b' : Bank.t) (w' : world),
    Services.replaceCard hashPin current_year rand_status pin_draws number_draws
      (Some (CreditRef k)) b w = Some (r, b', w')
    /\ Bank.accounts b' = Bank.accounts b
    /\ Bank.debit_cards b' = Bank.debit_cards b
    /\ Bank.credit_cards b' !! k = Some old
    /\ CreditCard.isActivated old = false
    /\ CreditCard.current_balance_ old = CreditCard.current_balance_ credit
    /\ (lock (CreditCard.linked_account_ credit) (Bank.accounts b) = None ->
        r = Return None /\ w' = w
        /\ Bank.credit_cards b' = <[k := old]> (Bank.credit_cards b))
    /\ (forall ref : card_ref,
          r = Return (Some ref) ->
          exists (k' : addr) (new : CreditCard.t),
            ref = CreditRef k'
            /\ k' <> k
            /\ Bank.credit_cards b !! k' = None
            /\ Bank.credit_cards b' = <[k' := new]> (<[k := old]> (Bank.credit_cards b))
            /\ CreditCard.current_balance_ new = 0
            /\ CreditCard.credit_limit_ new = CreditCard.credit_limit_ credit
            /\ CreditCard.linked_account_ new = CreditCard.linked_account_ credit
            /\ CreditCard.isActivated new = true
            /\ CreditCard.validate new = true).
Proof.
  intros Hk Hvalid old.
  unfold Services.replaceCard. rewrite Hk, Hvalid. cbn [negb]. fold old.
  cbn [Bank.accounts Bank.debit_cards Bank.credit_cards].
  change (CreditCard.linked_account_ old) with (CreditCard.linked_account_ credit).
  destruct (lock (CreditCard.linked_account_ credit) (Bank.accounts b))
    as [account |] eqn:Hlock.
  - assert (Hlink : CreditCard.linked_account_ credit = Some account).
    { destruct (CreditCard.linked_account_ credit) as [p |]; [| discriminate].
      cbn in Hlock. destruct (Bank.accounts b !! p); [| discriminate].
      now injection Hlock as ->. }
    destruct (CreditCard.create current_year number_draws
                (CreditCard.getCreditLimit old) true (Some account) w)
      as [[new | e |] w1] eqn:E.
    + set (k' := fresh (dom (<[k := old]> (Bank.credit_cards b)))).
      assert (Hfresh : k' ∉ dom (<[k := old]> (Bank.credit_cards b))) by apply is_fresh.
      rewrite dom_insert_L in Hfresh.
      apply not_elem_of_union in Hfresh as [Hne Hnew].
      apply not_elem_of_singleton in Hne. apply not_elem_of_dom in Hnew.
      eexists. eexists. eexists. split; [reflexivity |].
      cbn [Bank.accounts Bank.debit_cards Bank.credit_cards].
      split; [reflexivity |]. split; [reflexivity |].
      split; [rewrite lookup_insert_ne by congruence; apply lookup_insert_eq |].
      split; [reflexivity |]. split; [reflexivity |].
      split; [discriminate |].
      intros ref Href. injection Href as <-.
      destruct (CreditCard_create_facts _ _ _ _ _ _ _ _ E)
        as (Hlimit & Hbal & Hl & Hact & _ & Hval).
      exists k', new. split; [reflexivity |]. split; [exact Hne |].
      split; [exact Hnew |]. split; [reflexivity |].
      split; [exact Hbal |]. split; [exact Hlimit |].
      split; [congruence |]. split; [exact Hact |].
      rewrite Hval. unfold CreditCard.validate in Hvalid.
      apply andb_true_iff in Hvalid as [_ Hpos]. exact Hpos.
    + eexists. eexists. eexists. split; [reflexivity |].
      cbn [Bank.accounts Bank.debit_cards Bank.credit_cards].
      split; [reflexivity |]. split; [reflexivity |].
      split; [apply lookup_insert_eq |].
      split; [reflexivity |]. split; [reflexivity |].
      split; discriminate.
    + eexists. eexists. eexists. split; [reflexivity |].
      cbn [Bank.accounts Bank.debit_cards Bank.credit_cards].
      split; [reflexivity |]. split; [reflexivity |].
      split; [apply lookup_insert_eq |].
      split; [reflexivity |]. split; [reflexivity |].
      split; discriminate.
  - eexists. eexists. eexists. split; [reflexivity |].
    cbn [Bank.accounts Bank.debit_cards Bank.credit_cards].
    split; [reflexivity |]. split; [reflexivity |].
    split; [apply lookup_insert_eq |].
    split; [reflexivity |]. split; [reflexivity |].
    split; [intros _; repeat split | discriminate].
Qed.

(** X26 on a card with limit 1000 on which 300 are owed. *)
Lemma replaceCard_credit_outcome_witness :
  let hashPin := fun pin salt : string => (salt ++ pin)%string in
  let credit := CreditCard.mk (Card.mk "5000000000000000" "01/29" "123" true false)
                  1000 300 (Some 1%nat) false in
  let c := CheckingAccount.create 7 50 10 1000 500 100 in
  let b := Bank.mk (<[1%nat := Checking c]> ∅) ∅ (<[5%nat := credit]> ∅) in
  let w := mkWorld (repeat Byte.x00 32) ∅ in
  exists (k' : addr) (b' : Bank.t) (w' : world) (new : CreditCard.t),
    Services.replaceCard hashPin 2026 true (fun _ => 0%N) (fun _ => 0%N)
      (Some (CreditRef 5)) b w = Some (Return (Some (CreditRef k')), b', w')
    /\ Bank.credit_cards b' !! k' = Some new
    /\ CreditCard.current_balance_ new = 0.
Proof.
  intros hashPin credit c b w.
  destruct (replaceCard_credit_outcome hashPin 2026 true (fun _ => 0%N) (fun _ => 0%N)
              5%nat credit b w eq_refl eq_refl)
    as (r & b' & w' & E & _ & _ & _ & _ & _ & _ & Hnew).
  assert (Hr : exists ref, r = Return (Some ref)).
  { vm_compute in E. injection E as <- _ _. eauto. }
  destruct Hr as (ref & ->).
  destruct (Hnew ref eq_refl) as (k' & new & -> & _ & _ & Hcards & Hbal & _).
  exists k', b', w', new. split; [exact E |].
  split; [rewrite Hcards; apply lookup_insert_eq | exact Hbal].
Defined.

(** ** Services: the other outcomes of closing an account *)

Lemma removeAccount_absent (account_number : Z) (c : Customers.t) :
  account_number ∉ Customers.account_ c ->
  Customers.removeAccount account_number c = (false, c).
Proof.
  intros H. unfold Customers.removeAccount.
  assert (Hsame : List.filter (fun acc => negb (acc =? account_number)%Z)
                    (Customers.account_ c) = Customers.account_ c).
  { induction (Customers.account_ c) as [| x l IH]; [reflexivity |]. cbn.
    destruct (Z.eqb_spec x account_number) as [-> | N]; cbn.
    - exfalso. apply H, list_elem_of_here.
    - f_equal. apply IH. intros Hin. apply H. now apply list_elem_of_further. }
  now rewrite Hsame, Nat.ltb_irrefl.
Qed.

Lemma unlink_loop_unchanged (account_number : Z) (l : list (option addr)) :
  forall (st : gmap nat Customers.t) (u : bool),
    (forall (p : addr) (c : Customers.t),
       Some p ∈ l -> st !! p = Some c -> account_number ∉ Customers.account_ c) ->
    fold_left (Services.unlink_step account_number) l (st, u) = (st, u).
Proof.
  induction l as [| q l IH]; intros st u H; [reflexivity |].
  cbn [fold_left].
  assert (Hstep : Services.unlink_step account_number (st, u) q = (st, u)).
  { unfold Services.unlink_step. destruct q as [p |]; [| reflexivity].
    destruct (st !! p) as [c |] eqn:Hc; [| reflexivity].
    rewrite (removeAccount_absent account_number c)
      by (apply (H p c); [apply list_elem_of_here | exact Hc]).
    now rewrite insert_id. }
  rewrite Hstep. apply IH. intros p c Hin. apply H. now apply list_elem_of_further.
Qed.

Lemma erase_first_present (account_number : Z) (l : list (option Z)) :
  Some account_number ∈ l ->
  exists l' : list (option Z),
    Services.erase_first account_number l = Some l' /\ length l = S (length l').
Proof.
  induction l as [| acc l IH]; intros H; [now apply elem_of_nil in H |].
  cbn [Services.erase_first].
  destruct acc as [m |].
  - destruct (Z.eqb_spec m account_number) as [-> | N].
    + exists l. split; reflexivity.
    + apply elem_of_cons in H as [H | H]; [congruence |].
      destruct (IH H) as (l' & -> & Hlen). eexists. split; [reflexivity |].
      cbn. now rewrite Hlen.
  - apply elem_of_cons in H as [H | H]; [discriminate |].
    destruct (IH H) as (l' & -> & Hlen). eexists. split; [reflexivity |].
    cbn. now rewrite Hlen.
Qed.

(** X27.  [closeAccount] beside the case of a missing registry entry.
    When no customer reached through [customers_] holds the account, the
    call returns false and changes nothing, whether or not the registry
    lists the account.  When a customer holds it and the registry lists
    it, the call returns true, every customer of the list loses the
    account, the registry loses its first entry with that number and no
    other, and a second call returns false and changes nothing more. *)
Theorem closeAccount_outcomes (s : Services.t) (account_number : Z) :
  ((forall (p : addr) (c : Customers.t),
      Some p ∈ Services.customers_ s ->
      Services.customer_store s !! p = Some c ->
      account_number ∉ Customers.account_ c) ->
   Services.closeAccount account_number s = (false, s))
  /\ (forall (p : addr) (c : Customers.t),
        Some p ∈ Services.customers_ s ->
        Services.customer_store s !! p = Some c ->
        account_number ∈ Customers.account_ c ->
        Some account_number ∈ Services.all_accounts_ s ->
        let s' := snd (Services.closeAccount account_number s) in
        fst (Services.closeAccount account_number s) = true
        /\ Services.erase_first account_number (Services.all_accounts_ s)
           = Some (Services.all_accounts_ s')
        /\ length (Services.all_accounts_ s) = S (length (Services.all_accounts_ s'))
        /\ Services.customers_ s' = Services.customers_ s
        /\ (forall (q : addr) (cq : Customers.t),
              Some q ∈ Services.customers_ s ->
              Services.customer_store s !! q = Some cq ->
              Services.accounts_of s' q
              = Some (List.filter (fun acc => negb (acc =? account_number)%Z)
                        (Customers.account_ cq)))
        /\ Services.closeAccount account_number s' = (false, s')).
Proof.
  assert (Hnone : forall s0 : Services.t,
            (forall (p : addr) (c : Customers.t),
               Some p ∈ Services.customers_ s0 ->
               Services.customer_store s0 !! p = Some c ->
               account_number ∉ Customers.account_ c) ->
            Services.closeAccount account_number s0 = (false, s0)).
  { intros s0 H. unfold Services.closeAccount.
    rewrite (unlink_loop_unchanged account_number _ _ false H).
    cbn [negb]. now destruct s0. }
  split; [apply Hnone |].
  intros p c Hp Hc Hn Hreg s'.
  pose proof (unlink_loop_flag account_number (Services.customers_ s)
                (Services.customer_store s) false p c Hp Hc Hn) as Hflag.
  pose proof (unlink_loop_store account_number (Services.customers_ s)
                (Services.customer_store s) false) as Hstore.
  destruct (erase_first_present account_number _ Hreg) as (registry & Herase & Hlen).
  assert (Hs' : s' = Services.mk (Services.customers_ s)
                       (fst (fold_left (Services.unlink_step account_number)
                               (Services.customers_ s) (Services.customer_store s, false)))
                       registry
                /\ fst (Services.closeAccount account_number s) = true).
  { unfold s', Services.closeAccount.
    destruct (fold_left _ _ _) as [store unlinked]. cbn [fst snd] in *.
    subst unlinked. cbn [negb Services.all_accounts_]. rewrite Herase. split; reflexivity. }
  destruct Hs' as [Hs' Hret].
  split; [exact Hret |].
  split; [now rewrite Hs' |]. split; [now rewrite Hs' |]. split; [now rewrite Hs' |].
  assert (Hall : forall (q : addr) (cq : Customers.t),
            Some q ∈ Services.customers_ s ->
            Services.customer_store s !! q = Some cq ->
            Services.customer_store s' !! q
            = Some (snd (Customers.removeAccount account_number cq))).
  { intros q cq Hq Hcq. rewrite Hs'. cbn [Services.customer_store].
    rewrite Hstore, decide_True by exact Hq. now rewrite Hcq. }
  split.
  - intros q cq Hq Hcq. unfold Services.accounts_of.
    rewrite (Hall q cq Hq Hcq). cbn. now rewrite removeAccount_account.
  - apply Hnone. intros q cq' Hq Hcq'.
    assert (Hq0 : Some q ∈ Services.customers_ s) by (now rewrite Hs' in Hq).
    destruct (Services.customer_store s !! q) as [cq |] eqn:Hcq.
    + rewrite (Hall q cq Hq0 Hcq) in Hcq'. injection Hcq' as <-.
      rewrite removeAccount_account. apply filter_other_removes.
    + rewrite Hs' in Hcq'. cbn [Services.customer_store] in Hcq'.
      rewrite Hstore, decide_True, Hcq in Hcq' by exact Hq0. discriminate.
Qed.

(** X27 on a customer who holds accounts 1001 and 1002, both listed:
    closing 1001 twice. *)
Lemma closeAccount_outcomes_witness :
  let c := Customers.with_account [1001; 1002]%Z (Customers.default "id") in
  let s := Services.mk [Some 1%nat] (<[1%nat := c]> ∅) [Some 1001; Some 1002]%Z in
  fst (Services.closeAccount 1001 s) = true
  /\ Services.closeAccount 1001 (snd (Services.closeAccount 1001 s))
     = (false, snd (Services.closeAccount 1001 s)).
Proof.
  intros c s.
  destruct (closeAccount_outcomes s 1001%Z) as [_ H].
  destruct (H 1%nat c) as (H1 & _ & _ & _ & _ & H2).
  - apply list_elem_of_here.
  - reflexivity.
  - apply list_elem_of_here.
  - apply list_elem_of_here.
  - split; [exact H1 | exact H2].
Defined.

(** ** Services: what [processTransaction] reports *)

Lemma applyDeposit_call (this : addr) (amount : Q) (now : Z) (h : heap) (a : Account) :
  h !! this = Some a ->
  (amount <= 0 -> applyDeposit this amount now h = Done (Return false) h)
  /\ (0 < amount ->
      exists a' : Account,
        applyDeposit this amount now h = Done (Return true) (<[this := a']> h)
        /\ balance_of a' == balance_of a + amount).
Proof.
  intros Hthis. unfold applyDeposit, BankAccount.applyDeposit. rewrite Hthis. split.
  - intros Hle. rewrite (proj2 (Qle_bool_iff _ _) Hle).
    replace (with_account_base (account_base a) a) with a by (now destruct a as [[] | []]).
    now rewrite insert_id.
  - intros Hpos. rewrite (proj2 (Qle_bool_false _ _) Hpos).
    eexists. split; [reflexivity |]. destruct a; cbn; reflexivity.
Qed.

(** X28.  [processTransaction] reports whether the call threw, not
    whether money moved.  On a live account a DEPOSIT always returns
    true: an amount that is not positive is refused by the account and
    nothing changes, a positive amount raises the balance by [amount].
    Every other type is carried out as a withdrawal.  For those the
    result is false exactly in case of an exception, and whenever the
    withdrawal was refused or threw, the store is as it was; a checking
    account refuses without throwing, so for it the report is true even
    when nothing was paid. *)
Theorem processTransaction_report
    (fuel : nat) (account : addr) (type : Transaction.Type_) (amount : Q) (now : Z)
    (h : heap) (a : Account) :
  h !! account = Some a ->
  (amount <= 0 ->
   Services.processTransaction fuel account Transaction.DEPOSIT amount now h
   = Done (Return true) h)
  /\ (0 < amount ->
      exists a' : Account,
        Services.processTransaction fuel account Transaction.DEPOSIT amount now h
        = Done (Return true) (<[account := a']> h)
        /\ balance_of a' == balance_of a + amount)
  /\ (type <> Transaction.DEPOSIT ->
      Services.processTransaction fuel account type amount now h
      = Services.processTransaction fuel account Transaction.WITHDRAWAL amount now h)
  /\ (forall h' : heap,
        type <> Transaction.DEPOSIT ->
        Services.processTransaction fuel account type amount now h
        = Done (Return false) h' ->
        h' = h /\ exists e : exception, applyWithdraw fuel account amount now h = Done (Throw e) h)
  /\ (forall (h' : heap) (ok : bool),
        type <> Transaction.DEPOSIT ->
        applyWithdraw fuel account amount now h = Done (Return ok) h' ->
        Services.processTransaction fuel account type amount now h = Done (Return true) h'
        /\ (ok = false -> h' = h)).
Proof.
  intros Hacc.
  destruct (applyDeposit_call account amount now h a Hacc) as [Hrej Hdep].
  split; [| split; [| split; [| split]]].
  - intros Hle. unfold Services.processTransaction. now rewrite (Hrej Hle).
  - intros Hpos. destruct (Hdep Hpos) as (a' & E & Hbal).
    exists a'. unfold Services.processTransaction. rewrite E. split; [reflexivity | exact Hbal].
  - intros Hty. destruct type; [now contradiction Hty | reflexivity ..].
  - intros h' Hty E.
    assert (Ew : match applyWithdraw fuel account amount now h with
                 | Done (Return _) h1 => Done (Return true) h1
                 | Done (Throw _) h1 => Done (Return false) h1
                 | Done OutOfFuel h1 => Done OutOfFuel h1
                 | Undefined => Undefined
                 end = Done (Return false) h')
      by (destruct type; [now contradiction Hty | exact E ..]).
    destruct (applyWithdraw fuel account amount now h) as [[ok | e |] h1 |] eqn:Hw;
      try discriminate.
    injection Ew as <-.
    assert (h1 = h) as ->
      by (apply (applyWithdraw_failure_store fuel _ _ _ _ _ _ Hw); discriminate).
    split; [reflexivity | now exists e].
  - intros h' ok Hty Hw. split.
    + unfold Services.processTransaction. rewrite Hw.
      destruct type; [now contradiction Hty | reflexivity ..].
    + intros ->. apply (applyWithdraw_failure_store fuel _ _ _ _ _ _ Hw). discriminate.
Qed.

(** X28 on a checking account with balance 100 and overdraft limit 50,
    asked for 500: nothing is paid and the report is true. *)
Lemma processTransaction_report_witness :
  let c := CheckingAccount.create 7 50 10 1000 500 100 in
  let h : heap := <[1%nat := Checking c]> ∅ in
  Services.processTransaction 1 1 Transaction.WITHDRAWAL 500 0 h = Done (Return true) h.
Proof.
  intros c h.
  destruct (processTransaction_report 1 1%nat Transaction.WITHDRAWAL 500 0%Z h (Checking c)
              eq_refl) as (_ & _ & _ & _ & H).
  destruct (H h false) as [E _]; [discriminate | vm_compute; reflexivity | exact E].
Defined.

(** ** Services: who is let in *)

Section Login.

Variable sha256 : string -> string.

Lemma find_login_Some
    (store : gmap nat Customers.t) (username password : string)
    (l : list (option addr)) (p : addr) :
  Services.find_login store username password l = Some p ->
  password = "1234"%string
  /\ Some p ∈ l
  /\ exists customer : Customers.t,
       store !! p = Some customer /\ Customers.getName customer = username.
Proof.
  induction l as [| q l IH]; cbn [Services.find_login]; [discriminate |].
  assert (Hrest : Services.find_login store username password l = Some p ->
                  password = "1234"%string
                  /\ Some p ∈ q :: l
                  /\ exists customer : Customers.t,
                       store !! p = Some customer /\ Customers.getName customer = username).
  { intros E. destruct (IH E) as (H1 & H2 & H3).
    split; [exact H1 |]. split; [now apply list_elem_of_further | exact H3]. }
  destruct q as [a |]; [| exact Hrest].
  destruct (store !! a) as [customer |] eqn:Ha; [| exact Hrest].
  destruct (String.eqb_spec (Customers.getName customer) username) as [Hn | Hn];
    cbn [andb]; [| exact Hrest].
  destruct (String.eqb_spec password "1234") as [Hp | Hp]; [| exact Hrest].
  intros E. injection E as <-.
  split; [exact Hp |]. split; [apply list_elem_of_here | eauto].
Qed.

Lemma find_login_found
    (store : gmap nat Customers.t) (username : string)
    (l : list (option addr)) (p : addr) (customer : Customers.t) :
  Some p ∈ l -> store !! p = Some customer -> Customers.getName customer = username ->
  exists q : addr, Services.find_login store username "1234" l = Some q.
Proof.
  induction l as [| q l IH]; intros Hin Hp Hn; [now apply elem_of_nil in Hin |].
  cbn [Services.find_login].
  destruct q as [a |].
  - destruct (decide (a = p)) as [-> | Hne].
    + rewrite Hp, Hn, !String.eqb_refl. cbn. eauto.
    + apply elem_of_cons in Hin as [Hin | Hin]; [congruence |].
      destruct (store !! a) as [ca |]; [| exact (IH Hin Hp Hn)].
      destruct (_ && _); [eauto | exact (IH Hin Hp Hn)].
  - apply elem_of_cons in Hin as [Hin | Hin]; [discriminate | exact (IH Hin Hp Hn)].
Qed.

(** X29.  [authenticate] knows three answers.  Manager: exactly for the
    user name Manager with a password whose digest equals that of
    admin123; no customer is handed out.  Customer: only with the
    password 1234, the same for everybody, and for a user name equal to
    the stored name of a customer of the list, who is handed out;
    whenever such a customer exists, the password is 1234 and the pair
    is not the manager's, the answer is Customer.  Otherwise invalid,
    with no customer. *)
Theorem authenticate_roles (username password : string) (s : Services.t) :
  let r := Services.authenticate sha256 username password s in
  (fst r = Services.Manager
   <-> username = "Manager"%string /\ sha256 password = sha256 "admin123")
  /\ (fst r = Services.Customer ->
      password = "1234"%string
      /\ exists (p : addr) (customer : Customers.t),
           snd r = Some p
           /\ Some p ∈ Services.customers_ s
           /\ Services.customer_store s !! p = Some customer
           /\ Customers.getName customer = username)
  /\ (fst r <> Services.Customer -> snd r = None)
  /\ (forall (p : addr) (customer : Customers.t),
        Some p ∈ Services.customers_ s ->
        Services.customer_store s !! p = Some customer ->
        Customers.getName customer = username ->
        password = "1234"%string ->
        ~ (username = "Manager"%string /\ sha256 password = sha256 "admin123") ->
        fst r = Services.Customer).
Proof.
  intros r. unfold r, Services.authenticate, Services.isManagerLogin.
  destruct (String.eqb_spec username "Manager") as [Hu | Hu]; cbn [andb].
  - destruct (String.eqb_spec (sha256 password) (sha256 "admin123")) as [Hd | Hd].
    + cbn [fst snd]. split; [split; [intros _; split; assumption | reflexivity] |].
      split; [discriminate |]. split; [reflexivity |].
      intros p customer _ _ _ _ Hnot. exfalso. apply Hnot. split; assumption.
    + destruct (Services.find_login _ username password _) as [q |] eqn:Hfind;
        cbn [fst snd].
      * destruct (find_login_Some _ _ _ _ _ Hfind) as (Hpw & Hin & customer & Hq & Hn).
        split; [split; [discriminate | intros [_ H]; contradiction] |].
        split; [intros _; split; [exact Hpw | exists q, customer; auto] |].
        split; [intros H; now contradiction H | reflexivity].
      * split; [split; [discriminate | intros [_ H]; contradiction] |].
        split; [discriminate |]. split; [reflexivity |].
        intros p customer Hin Hp Hn -> _.
        destruct (find_login_found _ _ _ _ _ Hin Hp Hn) as (q & E). congruence.
  - destruct (Services.find_login _ username password _) as [q |] eqn:Hfind;
      cbn [fst snd].
    + destruct (find_login_Some _ _ _ _ _ Hfind) as (Hpw & Hin & customer & Hq & Hn).
      split; [split; [discriminate | intros [H _]; contradiction] |].
      split; [intros _; split; [exact Hpw | exists q, customer; auto] |].
      split; [intros H; now contradiction H | reflexivity].
    + split; [split; [discriminate | intros [H _]; contradiction] |].
      split; [discriminate |]. split; [reflexivity |].
      intros p customer Hin Hp Hn -> _.
      destruct (find_login_found _ _ _ _ _ Hin Hp Hn) as (q & E). congruence.
Qed.

End Login.

(** X29 for a customer stored under the name ALICE. *)
Lemma authenticate_roles_witness :
  let sha256 := fun text : string => ("#" ++ text)%string in
  let alice := Customers.mk "ALICE" "a@b.c" "5551234567" "id" 30 "HOME" [] [] [] in
  let s := Services.mk [Some 1%nat] (<[1%nat := alice]> ∅) [] in
  fst (Services.authenticate sha256 "ALICE" "1234" s) = Services.Customer.
Proof.
  intros sha256 alice s.
  destruct (authenticate_roles sha256 "ALICE" "1234" s) as (_ & _ & _ & H).
  apply (H 1%nat alice).
  - apply list_elem_of_here.
  - reflexivity.
  - reflexivity.
  - reflexivity.
  - intros [Hname _]. discriminate.
Defined.

(** ** Customers: what the setters store *)

Lemma name_char_facts (ch : ascii) :
  let up := if Customers.isalpha ch then Customers.toupper ch else ch in
  Customers.isalpha up = Customers.isalpha ch
  /\ Ascii.eqb up " " = Ascii.eqb ch " "
  /\ (if Customers.isalpha up then Customers.toupper up else up) = up
  /\ (negb (Customers.isalpha ch) && negb (Ascii.eqb ch " ") = false ->
      Customers.toupper up = up /\ up = Customers.toupper ch).
Proof.
  destruct ch as [[] [] [] [] [] [] [] []]; vm_compute;
    (split; [reflexivity |]); (split; [reflexivity |]); (split; [reflexivity |]);
    intros H; try discriminate; split; reflexivity.
Qed.

Lemma scan_name_None_or (l : list ascii) :
  forall b b' : bool,
    Customers.scan_name l b = None -> Customers.scan_name l b' = None.
Proof.
  induction l as [| ch l IH]; intros b b'; cbn [Customers.scan_name]; [discriminate |].
  destruct (_ && _); [reflexivity | apply IH].
Qed.

Lemma scan_name_accepts (l : list ascii) :
  forall b r : bool,
    Customers.scan_name l b = Some r ->
    Forall (fun ch => negb (Customers.isalpha ch) && negb (Ascii.eqb ch " ") = false) l
    /\ r = b || existsb Customers.isalpha l.
Proof.
  induction l as [| ch l IH]; intros b r; cbn [Customers.scan_name existsb].
  - intros E. injection E as <-. split; [constructor | now rewrite orb_false_r].
  - destruct (negb (Customers.isalpha ch) && negb (Ascii.eqb ch " ")) eqn:Hch;
      [discriminate |].
    intros E. destruct (IH _ _ E) as [Hall Hr]. split; [now constructor |].
    rewrite Hr. destruct (Customers.isalpha ch), b; reflexivity.
Qed.

Lemma scan_name_upper (l : list ascii) :
  forall b : bool,
    Customers.scan_name
      (map (fun ch => if Customers.isalpha ch then Customers.toupper ch else ch) l) b
    = Customers.scan_name l b.
Proof.
  induction l as [| ch l IH]; intros b; cbn [map Customers.scan_name]; [reflexivity |].
  destruct (name_char_facts ch) as (H1 & H2 & _). cbn zeta in H1, H2.
  rewrite H1, H2, IH. reflexivity.
Qed.

Lemma filter_isdigit_twice (l : list ascii) :
  List.filter isdigit (List.filter isdigit l) = List.filter isdigit l.
Proof.
  induction l as [| ch l IH]; [reflexivity |]. cbn [List.filter].
  destruct (isdigit ch) eqn:E; [| exact IH].
  cbn [List.filter]. now rewrite E, IH.
Qed.

(** X30.  What [setName] and [setPhoneNumber] store when they return
    true.  The name had only letters and spaces and at least one letter;
    the name stored has the same length, with every letter in upper
    case.  The phone number had exactly ten decimal digits among its
    characters; the number stored is those ten digits in order.  Either
    setter, applied to the value it stored, returns true and changes
    nothing. *)
Theorem customer_setters_normalise (name phone_number : string) (c : Customers.t) :
  (forall c' : Customers.t,
     Customers.setName name c = (true, c') ->
     Forall (fun ch => Customers.isalpha ch = true \/ ch = " "%char) (chars name)
     /\ existsb Customers.isalpha (chars name) = true
     /\ Customers.getName c' = string_of_chars (map Customers.toupper (chars name))
     /\ String.length (Customers.getName c') = String.length name
     /\ Forall (fun ch => Customers.toupper ch = ch) (chars (Customers.getName c'))
     /\ Customers.setName (Customers.getName c') c' = (true, c'))
  /\ (forall c' : Customers.t,
        Customers.setPhoneNumber phone_number c = (true, c') ->
        Customers.getPhoneNumber c'
        = string_of_chars (List.filter isdigit (chars phone_number))
        /\ String.length (Customers.getPhoneNumber c') = 10%nat
        /\ forallb isdigit (chars (Customers.getPhoneNumber c')) = true
        /\ Customers.setPhoneNumber (Customers.getPhoneNumber c') c' = (true, c')).
Proof.
  split.
  - intros c'. unfold Customers.setName.
    destruct (String.eqb_spec name "") as [Hempty | Hne]; [discriminate |].
    destruct (Customers.scan_name (chars name) false) as [[|] |] eqn:Hscan;
      try discriminate.
    intros E. injection E as <-.
    destruct (scan_name_accepts _ _ _ Hscan) as [Hall Hex]. cbn [orb] in Hex.
    set (up := fun ch => if Customers.isalpha ch then Customers.toupper ch else ch).
    assert (Hup : map up (chars name) = map Customers.toupper (chars name)).
    { apply map_ext_Forall. eapply Forall_impl; [exact Hall |].
      intros ch Hch. unfold up. destruct (name_char_facts ch) as (_ & _ & _ & H).
      cbn zeta in H. exact (proj2 (H Hch)). }
    cbn [Customers.getName Customers.customers_name_].
    split.
    { eapply Forall_impl; [exact Hall |]. intros ch Hch. cbn beta in Hch.
      destruct (Customers.isalpha ch); [now left |].
      right. cbn in Hch. destruct (Ascii.eqb_spec ch " "); [assumption | discriminate]. }
    split; [now symmetry |].
    split; [now rewrite Hup |].
    split.
    { rewrite <- !length_chars, chars_string_of_chars, length_map. reflexivity. }
    split.
    { rewrite chars_string_of_chars. apply Forall_map.
      eapply Forall_impl; [exact Hall |]. intros ch Hch. cbn beta.
      destruct (name_char_facts ch) as (_ & _ & _ & H).
      cbn zeta in H. exact (proj1 (H Hch)). }
    assert (Hnonempty : String.eqb (string_of_chars (map up (chars name))) "" = false).
    { apply String.eqb_neq. intros E.
      apply (f_equal chars) in E. rewrite chars_string_of_chars in E.
      apply map_eq_nil in E. apply Hne.
      rewrite <- (string_of_chars_chars name). now rewrite E. }
    pose proof (scan_name_upper (chars name) false) as Hsu. fold up in Hsu.
    assert (Hidem : map up (map up (chars name)) = map up (chars name)).
    { rewrite map_map. apply map_ext. intros ch. unfold up.
      destruct (name_char_facts ch) as (_ & _ & H & _). exact H. }
    rewrite Hnonempty, chars_string_of_chars, Hsu, Hscan, Hidem. reflexivity.
  - intros c'. unfold Customers.setPhoneNumber.
    destruct (Nat.eqb_spec
                (String.length (string_of_chars (List.filter isdigit (chars phone_number))))
                10) as [Hlen | Hlen]; cbn [negb]; [| discriminate].
    intros E. injection E as <-.
    cbn [Customers.getPhoneNumber Customers.customers_phone_number_].
    split; [reflexivity |]. split; [exact Hlen |].
    split.
    { rewrite chars_string_of_chars. apply forallb_forall. intros ch Hch.
      now apply filter_In in Hch as [_ Hch]. }
    rewrite chars_string_of_chars, filter_isdigit_twice, Hlen. reflexivity.
Qed.

(** X30 for the name Ada Lovelace and a phone number written with
    separators. *)
Lemma customer_setters_normalise_witness :
  let c := Customers.default "id" in
  Customers.getName (snd (Customers.setName "Ada Lovelace" c)) = "ADA LOVELACE"%string
  /\ Customers.getPhoneNumber (snd (Customers.setPhoneNumber "(555) 123-4567" c))
     = "5551234567"%string.
Proof.
  intros c.
  destruct (customer_setters_normalise "Ada Lovelace" "(555) 123-4567" c) as [Hn Hp].
  destruct (Customers.setName "Ada Lovelace" c) as [ok c1] eqn:E1.
  destruct (Customers.setPhoneNumber "(555) 123-4567" c) as [ok2 c2] eqn:E2.
  assert (ok = true) as -> by (vm_compute in E1; now injection E1 as <- _).
  assert (ok2 = true) as -> by (vm_compute in E2; now injection E2 as <- _).
  destruct (Hn c1 eq_refl) as (_ & _ & H1 & _).
  destruct (Hp c2 eq_refl) as (H2 & _).
  cbn [snd]. rewrite H1, H2. split; vm_compute; reflexivity.
Defined.
